(** * Secchiware: the C2 service, the test framework library and the
      reference plugin, embedded in Rocq.

    The development follows the three Python modules of the repository:

    - [test_utils]  (src/common/test_utils.py): the [test] decorator,
      [TestSet.run], [TestSetCollection.run_all_tests],
      [compress_test_packages] and [uncompress_test_packages];
    - [linux]       (src/test_sets_dev/linux/linux.py): the reference plugin
      [MonitoringSet.is_tracer_attached];
    - [c2]          (src/c2/c2.py): the request gates and the route handlers
      over the in-memory registry [environments] and the [session] table.

    Python objects are an inductive type, exceptions are a sum type, code
    that raises returns [result], and the handlers of the service thread the
    process state explicitly.  What the service obtains from outside the
    three modules (the [signatures] and [custom_collections] modules, the
    configuration file, hashing, JSON parsing, the [tarfile] library, the
    network) is collected in the interfaces [Tarfile] and [Externals]. *)

From Stdlib Require Import ZArith Ascii String List Lia.
From Stdlib Require OrderedTypeEx.
From stdpp Require Import base gmap strings list sorting.

Set Warnings "-register-all".

Local Open Scope string_scope.
Local Open Scope Z_scope.
Local Open Scope list_scope.

(** ** Python basics shared by the three modules *)

Module py.

(** Exceptions, by class.  [HTTPException] is what [flask.abort] raises. *)
Inductive exn : Type :=
| HTTPException (code : Z) (description : string)
| KeyError (key : string)
| IndexError
| TypeError
| ValueError (msg : string)
| OverflowError
| UnboundLocalError
| OSError
| ConnectionError
| ReadError
| IntegrityError
| InterfaceError
| InvalidTestMethod (msg : string)
| OtherError (msg : string)
| AttributeError.

Inductive result (A : Type) : Type :=
| Ok (a : A)
| Raise (e : exn).
Arguments Ok {A} a.
Arguments Raise {A} e.

(** Sequencing: the first exception raised is the outcome.  With these
    instances [x ← r; k] and [r;; k] read as consecutive statements. *)
#[global] Instance result_ret : MRet result := λ A a, Ok a.
#[global] Instance result_bind : MBind result := λ A B k r,
  match r with
  | Ok a => k a
  | Raise e => Raise e
  end.
#[global] Instance result_fmap : FMap result := λ A B f r,
  match r with
  | Ok a => Ok (f a)
  | Raise e => Raise e
  end.

(** [str.isspace] on the ASCII range: TAB, LF, VT, FF, CR, the four
    separators FS, GS, RS, US, and the space. *)
Definition isspace (c : ascii) : bool :=
  let n := Z.of_N (N_of_ascii c) in
  ((9 <=? n) && (n <=? 13)) || ((28 <=? n) && (n <=? 32)).

Definition digit_of (c : ascii) : option Z :=
  let n := Z.of_N (N_of_ascii c) in
  if (48 <=? n) && (n <=? 57) then Some (n - 48) else None.

(** [str.split()] with no argument: the maximal runs of non-space
    characters, in order. *)
Fixpoint split_go (cur : string) (s : string) : list string :=
  match s with
  | EmptyString => if String.eqb cur "" then [] else [cur]
  | String c s' =>
      if isspace c
      then (if String.eqb cur "" then split_go "" s' else cur :: split_go "" s')
      else split_go (cur +:+ String c "") s'
  end.

Definition split (s : string) : list string := split_go "" s.

(** [str.strip()]: drop leading and trailing white space. *)
Fixpoint lstrip (s : string) : string :=
  match s with
  | String c s' => if isspace c then lstrip s' else s
  | EmptyString => EmptyString
  end.

Fixpoint rstrip (s : string) : string :=
  match s with
  | EmptyString => EmptyString
  | String c s' =>
      match rstrip s' with
      | EmptyString => if isspace c then EmptyString else String c EmptyString
      | r => String c r
      end
  end.

Definition strip (s : string) : string := rstrip (lstrip s).

(** The digits of a decimal literal; a single underscore may separate two
    digits ([prev_us] records that the previous character was one). *)
Fixpoint parse_digits (acc : Z) (prev_us : bool) (s : string) : option Z :=
  match s with
  | EmptyString => if prev_us then None else Some acc
  | String c s' =>
      if Ascii.eqb c "_"
      then (if prev_us then None else parse_digits acc true s')
      else match digit_of c with
           | Some d => parse_digits (10 * acc + d) false s'
           | None => None
           end
  end.

Definition parse_unsigned (s : string) : option Z :=
  match s with
  | EmptyString => None
  | String c _ => if Ascii.eqb c "_" then None else parse_digits 0 false s
  end.

(** [int(s)] for a string [s], base ten: optional surrounding white space,
    an optional sign, then a decimal literal.  Strings are sequences of
    one-byte characters here; digits and spaces outside ASCII, which Python
    also accepts, are not part of the model. *)
Definition int_of_str (s : string) : result Z :=
  let r :=
    match strip s with
    | String "-" s' => Z.opp <$> parse_unsigned s'
    | String "+" s' => parse_unsigned s'
    | s' => parse_unsigned s'
    end in
  match r with
  | Some n => Ok n
  | None => Raise (ValueError ("invalid literal for int() with base 10: " +:+ s))
  end.

(** [str(n)] for an integer: its decimal digits, most significant first.
    The fuel bounds the number of digits by the number of bits. *)
Definition digit_char (d : Z) : ascii := ascii_of_N (Z.to_N (48 + d)).

Fixpoint digits_go (fuel : nat) (n : Z) (acc : string) : string :=
  match fuel with
  | O => acc
  | S fuel' =>
      let acc' := String (digit_char (n mod 10)) acc in
      if n <? 10 then acc' else digits_go fuel' (n / 10) acc'
  end.

Definition str_of_int (n : Z) : string :=
  if n <? 0 then "-" +:+ digits_go (S (Z.to_nat (Z.log2 (- n)))) (- n) ""
  else digits_go (S (Z.to_nat (Z.log2 n))) n "".

(** [s.split(sep)] for a separator of one character: the pieces between
    the separators, empty ones included. *)
Fixpoint split_on_go (sep : ascii) (cur : string) (s : string) : list string :=
  match s with
  | EmptyString => [cur]
  | String c s' =>
      if Ascii.eqb c sep then cur :: split_on_go sep "" s'
      else split_on_go sep (cur +:+ String c "") s'
  end.

Definition split_on (sep : ascii) (s : string) : list string := split_on_go sep "" s.

(** [needle in haystack] for two strings. *)
Fixpoint str_contains (needle haystack : string) : bool :=
  String.prefix needle haystack ||
  match haystack with
  | EmptyString => false
  | String _ h' => str_contains needle h'
  end.

End py.
Export py.

(** ** src/common/test_utils.py *)

Module test_utils.

(** The Python objects a test method can return.  [bool] is a subclass of
    [int]; dictionaries are insertion ordered, with string keys. *)
Inductive pyobj : Type :=
| PyNone
| PyBool (b : bool)
| PyInt (n : Z)
| PyStr (s : string)
| PyTuple (items : list pyobj)
| PyList (items : list pyobj)
| PyDict (items : list (string * pyobj)).

Definition isinstance_int (x : pyobj) : bool :=
  match x with
  | PyInt _ | PyBool _ => true
  | _ => false
  end.

Definition isinstance_tuple (x : pyobj) : bool :=
  match x with
  | PyTuple _ => true
  | _ => false
  end.

Definition isinstance_dict (x : pyobj) : bool :=
  match x with
  | PyDict _ => true
  | _ => false
  end.

(** [len(result)] and [result[i]] where [result] is known to be a tuple. *)
Definition len (x : pyobj) : Z :=
  match x with
  | PyTuple items => Z.of_nat (length items)
  | _ => 0
  end.

Definition item (x : pyobj) (i : nat) : pyobj :=
  match x with
  | PyTuple items => nth i items PyNone
  | _ => PyNone
  end.

(** [test(name, description)(method)] is [wrapper]; [test name description
    method self] is the call [wrapper(self)].  The report is the dictionary
    built by the assignments [report[key] = value]. *)
Definition test {Self : Type} (name description : string)
    (method : Self → result pyobj) (self : Self)
    : result (gmap string pyobj) :=
  result ← method self;
  report ←
    (if isinstance_int result then
       Ok (<["result_code" := result]> (∅ : gmap string pyobj))
     else if negb (isinstance_tuple result) then
       Raise (InvalidTestMethod "Invalid return type.")
     else if negb (len result =? 2) then
       Raise (InvalidTestMethod "Incorrect number of return values.")
     else if negb (isinstance_int (item result 0)) then
       Raise (InvalidTestMethod "Result code is not an integer.")
     else if negb (isinstance_dict (item result 1)) then
       Raise (InvalidTestMethod "Second return value is not a dictionary.")
     else
       Ok (<["additional_info" := item result 1]>
             (<["result_code" := item result 0]> (∅ : gmap string pyobj))));
  Ok (<["test_description" := PyStr description]>
        (<["test_name" := PyStr name]> report)).

(** An attribute of a test-set instance.  [TestMethod] is a bound method
    produced by [@test(name, description)]: it carries the marker
    [wrapper.test = True]; [raw] is the outcome of the undecorated body on
    this instance, a returned object or a raised exception. *)
Inductive member : Type :=
| TestMethod (name description : string) (raw : result pyobj)
| PlainMethod
| DataAttribute (v : pyobj).

Record TestSet : Type := {
  description : string;
  members : list (string * member)
}.

Definition is_test_method (x : member) : bool :=
  match x with
  | TestMethod _ _ _ => true
  | _ => false
  end.

(** Calling a bound method: for a test method, [wrapper(self)]. *)
Definition call (self : TestSet) (x : member) : result (gmap string pyobj) :=
  match x with
  | TestMethod name description raw => test name description (λ _, raw) self
  | _ => Raise TypeError
  end.

#[global] Instance name_le_dec :
  RelDecision (λ p q : string * member, Is_true (String.leb p.1 q.1)).
Proof. intros p q. apply _. Defined.

(** [inspect.getmembers(object, predicate)]: the (name, value) pairs that
    satisfy the predicate, sorted by name. *)
Definition getmembers (object : TestSet) (predicate : member → bool)
    : list (string * member) :=
  filter (λ p, Is_true (predicate p.2))
    (merge_sort (λ p q : string * member, Is_true (String.leb p.1 q.1))
       (members object)).

(** The loop of [TestSet.run]; [out] collects what [print] writes. *)
Fixpoint run_loop (self : TestSet) (tests : list (string * member))
    (results : list (gmap string pyobj)) (out : list string)
    : result (list (gmap string pyobj)) * list string :=
  match tests with
  | [] => (Ok results, out)
  | (_, method) :: tests' =>
      match call self method with
      | Ok report => run_loop self tests' (results ++ [report]) out
      | Raise (InvalidTestMethod msg) => run_loop self tests' results (out ++ [msg])
      | Raise e => (Raise e, out)
      end
  end.

Definition run (self : TestSet) : result (list (gmap string pyobj)) * list string :=
  run_loop self (getmembers self is_test_method) [] [].

(** [TestSetCollection.run_all_tests] on the loaded [test_sets]: the loop
    [for ts in self.test_sets: results += ts.run()]; [out] collects what
    the runs print. *)
Fixpoint run_all_loop (test_sets : list TestSet)
    (results : list (gmap string pyobj)) (out : list string)
    : result (list (gmap string pyobj)) * list string :=
  match test_sets with
  | [] => (Ok results, out)
  | ts :: test_sets' =>
      match run ts with
      | (Ok reports, printed) =>
          run_all_loop test_sets' (results ++ reports) (out ++ printed)
      | (Raise e, printed) => (Raise e, out ++ printed)
      end
  end.

Definition run_all_tests (test_sets : list TestSet)
    : result (list (gmap string pyobj)) * list string :=
  run_all_loop test_sets [] [].

(** *** Package archives *)

Inductive tartype : Type := REGTYPE | DIRTYPE | SYMTYPE | OTHERTYPE.

Record TarInfo : Type := {
  name : string;
  type : tartype;
  data : string
}.

Definition isdir (m : TarInfo) : bool :=
  match type m with
  | DIRTYPE => true
  | _ => false
  end.

(** An opened archive: its members in archive order. *)
Definition TarFile : Type := list TarInfo.

(** [s.count("/")] *)
Fixpoint count_slash (s : string) : Z :=
  match s with
  | EmptyString => 0
  | String c s' => (if Ascii.eqb c "/" then 1 else 0) + count_slash s'
  end.

(** [tar.getmember(name)]: [KeyError] when no member has that name. *)
Definition getmember (tar : TarFile) (n : string) : result TarInfo :=
  match find (λ m, String.eqb (name m) n) (rev tar) with
  | Some m => Ok m
  | None => Raise (KeyError n)
  end.

Definition member_is_package (tar : TarFile) (member : TarInfo) : bool :=
  match getmember tar (name member +:+ "/__init__.py") with
  | Ok _ => true
  | Raise _ => false
  end.

(** What the operating system finds at a path: a directory, a regular
    file with its content, or something else.  A file system is a finite
    map from the paths that resolve to their nodes. *)
Inductive fnode : Type :=
| Dir
| File (content : string)
| Special.

(** The [tarfile] library, as far as the two archive functions use it.
    [tar_extractall tar path fs] is [tar.extractall(path)] on the file
    system [fs]: the call returns or raises, and leaves a file system behind
    in both cases, since a member that cannot be written ends the extraction
    with the earlier members in place.  [tar_add fs name arcname filter] is
    [tar.add(name, arcname, filter=filter)]: the members that the call
    appends to the archive, or its error.  [repr_TarInfo member] is the text
    that formatting a member gives, which shows the address of the object. *)
Class Tarfile : Type := {
  tar_extractall :
    TarFile → string → gmap string fnode → result () * gmap string fnode;
  tar_add :
    gmap string fnode → string → string → (TarInfo → option TarInfo) →
    result (list TarInfo);
  repr_TarInfo : TarInfo → string
}.

(** [os.path.basename], [os.path.join] of two parts and [os.path.isdir]. *)
Definition os_path_basename (p : string) : string :=
  default "" (last (split_on "/" p)).

Definition os_path_join (a b : string) : string :=
  if String.prefix "/" b then b
  else if String.eqb a "" || String.prefix "/" (String.rev a) then a +:+ b
  else a +:+ "/" +:+ b.

Definition os_path_isdir (fs : gmap string fnode) (p : string) : bool :=
  match fs !! p with
  | Some Dir => true
  | _ => false
  end.

(** [for tp in test_packages]: the objects that the loop visits, the
    characters of a string and the keys of a dictionary among them, or the
    [TypeError] of an object that cannot be iterated. *)
Definition iterate (x : pyobj) : result (list pyobj) :=
  match x with
  | PyList items | PyTuple items => Ok items
  | PyStr s => Ok ((λ c, PyStr (String c "")) <$> list_ascii_of_string s)
  | PyDict items => Ok ((λ p, PyStr p.1) <$> items)
  | PyNone | PyBool _ | PyInt _ => Raise TypeError
  end.

Section archives.
Context `{Tarfile}.

(** The local function [filter_pycache] of [compress_test_packages]. *)
Definition filter_pycache (x : TarInfo) : option TarInfo :=
  if String.eqb (os_path_basename (name x)) "__pycache__" then None else Some x.

(** The loop of [compress_test_packages]: [tar] collects the members
    added to the archive and [out] what [print] writes.  Only a string has
    the method [split]. *)
Fixpoint compress_loop (fs : gmap string fnode) (tests_root : string)
    (test_packages : list pyobj) (tar : TarFile) (out : list string)
    : result TarFile * list string :=
  match test_packages with
  | [] => (Ok tar, out)
  | PyStr tp :: rest =>
      if 1 <? Z.of_nat (length (split_on "." tp)) then
        compress_loop fs tests_root rest tar
          (out ++ [tp +:+ "ignored. Only top level packages allowed."])
      else
        let tp_path := os_path_join tests_root tp in
        if os_path_isdir fs tp_path then
          match tar_add fs tp_path tp filter_pycache with
          | Ok added => compress_loop fs tests_root rest (tar ++ added) out
          | Raise e => (Raise e, out)
          end
        else
          compress_loop fs tests_root rest tar
            (out ++ ["No package found with name " +:+ tp +:+ "."])
  | _ :: _ => (Raise AttributeError, out)
  end.

(** [compress_test_packages(file_object, test_packages, tests_root)] on
    the file system [fs]: the archive written to [file_object], or the
    error, and what has been printed. *)
Definition compress_test_packages (fs : gmap string fnode)
    (test_packages : pyobj) (tests_root : string)
    : result TarFile * list string :=
  match iterate test_packages with
  | Ok items => compress_loop fs tests_root items [] []
  | Raise e => (Raise e, [])
  end.

(** The validation loop of [uncompress_test_packages]; the message of
    the error formats the member itself. *)
Fixpoint check_members (tar : TarFile) (rest : list TarInfo)
    (new_packages : list string) : result (list string) :=
  match rest with
  | [] => Ok new_packages
  | member :: rest' =>
      if count_slash (name member) =? 0 then
        if negb (isdir member && member_is_package tar member) then
          Raise (ValueError ("Found top level member " +:+ repr_TarInfo member
                             +:+ " is not a package."))
        else check_members tar rest' (new_packages ++ [name member])
      else check_members tar rest' new_packages
  end.

(** [uncompress_test_packages(file_object, tests_root)], where [opened] is
    the outcome of [tarfile.open(fileobj=file_object, mode="r:gz")].  The
    file system is threaded through: the second component is its state when
    the call returns or raises. *)
Definition uncompress_test_packages (opened : result TarFile)
    (tests_root : string) (fs : gmap string fnode)
    : result (list string) * gmap string fnode :=
  match opened with
  | Raise e => (Raise e, fs)
  | Ok tar =>
      match check_members tar tar [] with
      | Raise e => (Raise e, fs)
      | Ok new_packages =>
          match tar_extractall tar tests_root fs with
          | (Ok _, fs') => (Ok new_packages, fs')
          | (Raise e, fs') => (Raise e, fs')
          end
      end
  end.

End archives.

End test_utils.

(** ** src/test_sets_dev/linux/linux.py *)

Module linux.
Import test_utils.

(** The loop [for line in f: if line.startswith("TracerPid"): break]:
    [line] is the loop variable, unbound before the first iteration. *)
Fixpoint scan (f : list string) (line : option string) : option string :=
  match f with
  | [] => line
  | l :: f' => if String.prefix "TracerPid" l then Some l else scan f' (Some l)
  end.

(** [line.split()[-1]] *)
Definition last_field (line : string) : result string :=
  match last (split line) with
  | Some w => Ok w
  | None => Raise IndexError
  end.

(** The body of [MonitoringSet.is_tracer_attached]; [proc_self_status] is
    what opening /proc/self/status gives: the lines of the file, or the
    error raised by [open]. *)
Definition is_tracer_attached_body (proc_self_status : result (list string))
    : result pyobj :=
  f ← proc_self_status;
  line ← match scan f None with
         | Some l => Ok l
         | None => Raise UnboundLocalError
         end;
  w ← last_field line;
  pid ← int_of_str w;
  let additional_info := PyDict [("found_pid", PyInt pid)] in
  let result := if pid =? 0 then 1 else -1 in
  Ok (PyTuple [PyInt result; additional_info]).

Definition is_tracer_attached (proc_self_status : result (list string))
    (self : TestSet) : result (gmap string pyobj) :=
  test "Is tracer attached?" "Looks for a TracerPid different than 0."
    (λ _, is_tracer_attached_body proc_self_status) self.

(** A [MonitoringSet] instance in a world where reading the status file
    gives [proc_self_status]. *)
Definition MonitoringSet (proc_self_status : result (list string)) : TestSet :=
  {| description := "";
     members := [("is_tracer_attached",
                  TestMethod "Is tracer attached?"
                    "Looks for a TracerPid different than 0."
                    (is_tracer_attached_body proc_self_status))] |}.

End linux.

(** ** The embedded relational store (sqlite3), as far as the service uses it *)

Module sqlite3.

Inductive sqlval : Type :=
| SqlNull
| SqlInteger (n : Z)
| SqlText (s : string).

(** The [session] table of [init_database], column by column. *)
Record session_row : Type := {
  id_session : Z;
  session_start : Z;
  session_end : sqlval;
  env_ip : sqlval;
  env_port : sqlval;
  env_platform : sqlval;
  env_node : sqlval;
  env_os_system : sqlval;
  env_os_release : sqlval;
  env_os_version : sqlval;
  env_hw_machine : sqlval;
  env_hw_processor : sqlval;
  env_py_build_no : sqlval;
  env_py_build_date : sqlval;
  env_py_compiler : sqlval;
  env_py_implementation : sqlval;
  env_py_version : sqlval
}.

(** A column declared [TEXT NOT NULL]: NULL violates the constraint, an
    integer is stored as its decimal text. *)
Definition text_not_null (v : sqlval) : result sqlval :=
  match v with
  | SqlNull => Raise IntegrityError
  | SqlInteger n => Ok (SqlText (str_of_int n))
  | SqlText s => Ok (SqlText s)
  end.

(** A column declared [INTEGER NOT NULL], for a value bound as an integer. *)
Definition integer_not_null (v : sqlval) : result sqlval :=
  match v with
  | SqlNull => Raise IntegrityError
  | _ => Ok v
  end.

(** The rowid given to a new row of a table with an [INTEGER PRIMARY KEY]:
    1 in an empty table, otherwise one more than the largest in use, which
    is how SQLite counts below the largest 64-bit integer. *)
Definition next_rowid (rows : list session_row) : Z :=
  match rows with
  | [] => 1
  | r :: rows' => 1 + foldr Z.max (id_session r) (id_session <$> rows')
  end.

(** Days since 1970-01-01 to the civil date (year, month, day) of the
    proleptic Gregorian calendar. *)
Definition civil_from_days (days : Z) : Z * Z * Z :=
  let z := days + 719468 in
  let era := z / 146097 in
  let doe := z mod 146097 in
  let yoe := (doe - doe / 1460 + doe / 36524 - doe / 146096) / 365 in
  let doy := doe - (365 * yoe + yoe / 4 - yoe / 100) in
  let mp := (5 * doy + 2) / 153 in
  let d := doy - (153 * mp + 2) / 5 + 1 in
  let m := if mp <? 10 then mp + 3 else mp - 9 in
  let y := yoe + era * 400 + (if m <=? 2 then 1 else 0) in
  (y, m, d).

(** [%0<width>d] for a number that is not negative. *)
Definition zero_padded (width : nat) (n : Z) : string :=
  let digits := str_of_int n in
  String.concat "" (replicate (width - String.length digits)%nat "0") +:+ digits.

(** [strftime('%Y-%m-%dT%H:%M:%SZ', t, 'unixepoch')]: NULL (here [None])
    outside the years 0000 to 9999. *)
Definition strftime_iso (t : Z) : option string :=
  if (-62167219200 <=? t) && (t <=? 253402300799) then
    let '(y, m, d) := civil_from_days (t / 86400) in
    let secs := t mod 86400 in
    Some (zero_padded 4 y +:+ "-" +:+ zero_padded 2 m +:+ "-" +:+ zero_padded 2 d
          +:+ "T" +:+ zero_padded 2 (secs / 3600)
          +:+ ":" +:+ zero_padded 2 (secs mod 3600 / 60)
          +:+ ":" +:+ zero_padded 2 (secs mod 60) +:+ "Z")
  else None.

Definition is_digit (c : ascii) : bool :=
  match digit_of c with
  | Some _ => true
  | None => false
  end.

(** The shape [YYYY-MM-DDTHH:MM:SSZ] of an ISO-8601 UTC time stamp. *)
Definition is_iso8601 (s : string) : bool :=
  match list_ascii_of_string s with
  | [y1; y2; y3; y4; s1; m1; m2; s2; d1; d2; t; h1; h2; c1; n1; n2; c2; e1; e2; z] =>
      forallb is_digit [y1; y2; y3; y4; m1; m2; d1; d2; h1; h2; n1; n2; e1; e2]
      && Ascii.eqb s1 "-" && Ascii.eqb s2 "-" && Ascii.eqb t "T"
      && Ascii.eqb c1 ":" && Ascii.eqb c2 ":" && Ascii.eqb z "Z"
  | _ => false
  end.

End sqlite3.

(** ** src/c2/c2.py *)

Module c2.
Import test_utils sqlite3.

(** A decoded JSON document ([request.json], [resp.json()]).  Numbers with
    a fraction or an exponent, which Python decodes to floats, are not part
    of the model. *)
Inductive json : Type :=
| JNull
| JBool (b : bool)
| JInt (n : Z)
| JStr (s : string)
| JList (items : list json)
| JDict (items : list (string * json)).

(** The keys of the registry.  Python identifies the keys [True] and [1],
    and [False] and [0]; a string never equals a number. *)
Inductive pykey : Type :=
| KNone
| KInt (n : Z)
| KStr (s : string).

#[global] Instance pykey_eq_dec : EqDecision pykey.
Proof. solve_decision. Defined.

#[global] Instance pykey_countable : Countable pykey.
Proof.
  apply (inj_countable'
    (λ k, match k with
          | KNone => inl ()
          | KInt n => inr (inl n)
          | KStr s => inr (inr s)
          end)
    (λ x : unit + (Z + string), match x with
          | inl _ => KNone
          | inr (inl n) => KInt n
          | inr (inr s) => KStr s
          end)).
  intros []; reflexivity.
Defined.

(** Hashing an object to use it as a key: lists and dictionaries are
    unhashable. *)
Definition to_key (v : json) : result pykey :=
  match v with
  | JNull => Ok KNone
  | JBool b => Ok (KInt (if b then 1 else 0))
  | JInt n => Ok (KInt n)
  | JStr s => Ok (KStr s)
  | JList _ | JDict _ => Raise TypeError
  end.

Definition dict_get (k : string) (d : list (string * json)) : option json :=
  snd <$> find (λ p, String.eqb (fst p) k) d.

(** [k in v], for a string [k] *)
Definition contains (k : string) (v : json) : result bool :=
  match v with
  | JDict d => Ok (bool_decide (is_Some (dict_get k d)))
  | JList l => Ok (existsb (λ x, match x with JStr s => String.eqb s k | _ => false end) l)
  | JStr s => Ok (str_contains k s)
  | JNull | JBool _ | JInt _ => Raise TypeError
  end.

(** [v[k]], for a string [k] *)
Definition getitem (v : json) (k : string) : result json :=
  match v with
  | JDict d =>
      match dict_get k d with
      | Some x => Ok x
      | None => Raise (KeyError k)
      end
  | _ => Raise TypeError
  end.

(** [v[i]], for an index [i] that is not negative.  The keys of a decoded
    JSON object are strings, so an integer is never among them. *)
Definition getindex (v : json) (i : nat) : result json :=
  match v with
  | JList l =>
      match l !! i with
      | Some x => Ok x
      | None => Raise IndexError
      end
  | JStr s =>
      match String.get i s with
      | Some c => Ok (JStr (String c ""))
      | None => Raise IndexError
      end
  | JDict _ => Raise (KeyError (str_of_int (Z.of_nat i)))
  | JNull | JBool _ | JInt _ => Raise TypeError
  end.

(** [int(v)] *)
Definition int (v : json) : result Z :=
  match v with
  | JInt n => Ok n
  | JBool b => Ok (if b then 1 else 0)
  | JStr s => int_of_str s
  | JNull | JList _ | JDict _ => Raise TypeError
  end.

(** Binding a Python object to a statement parameter: integers must fit
    in 64 bits, lists and dictionaries are not supported. *)
Definition adapt (v : json) : result sqlval :=
  match v with
  | JNull => Ok SqlNull
  | JBool b => Ok (SqlInteger (if b then 1 else 0))
  | JInt n =>
      if (-9223372036854775808 <=? n) && (n <=? 9223372036854775807)
      then Ok (SqlInteger n) else Raise OverflowError
  | JStr s => Ok (SqlText s)
  | JList _ | JDict _ => Raise InterfaceError
  end.

(** The process state: the global [environments], the [session] table of
    secchiware.db, the file system, the catalogue [available.content] and
    what has been printed. *)
Record State : Type := {
  environments : gmap pykey (gmap pykey json);
  session : list session_row;
  filesystem : gmap string fnode;
  available : list json;
  stdout : list string
}.

(** A request, through the attributes of [flask.request] that the service
    reads; [headers] is [request.headers.get] and [files] the decoded file
    parts of a multipart body. *)
Record Request : Type := {
  method : string;
  path : string;
  query_string : string;
  args : list (string * string);
  headers : string → option string;
  mimetype : string;
  get_data : string;
  files : list (string * string)
}.

Inductive payload : Type :=
| Empty
| Jsonify (v : json)
| JsonifyEnvironments (envs : gmap pykey (gmap pykey json)).

Record Response : Type := {
  status_code : Z;
  www_authenticate : option string;
  content_type : string;
  response : payload
}.

(** The order of the keys of a dictionary: Python compares integers (and
    booleans) with integers and strings with strings; any other pair of
    keys raises [TypeError]. *)
Definition comparable (k1 k2 : pykey) : bool :=
  match k1, k2 with
  | KInt _, KInt _ | KStr _, KStr _ => true
  | _, _ => false
  end.

(** [sorted(d)] returns for the dictionary [d]. *)
Definition sortable {A} (d : gmap pykey A) : Prop :=
  map_Forall (λ k1 _, map_Forall (λ k2 _, k1 = k2 ∨ comparable k1 k2 = true) d) d.

#[global] Instance sortable_dec {A} (d : gmap pykey A) : Decision (sortable d).
Proof. unfold sortable. apply _. Defined.

(** A decoded JSON document as the object that [test_utils] receives. *)
Fixpoint to_pyobj (v : json) : pyobj :=
  match v with
  | JNull => PyNone
  | JBool b => PyBool b
  | JInt n => PyInt n
  | JStr s => PyStr s
  | JList items => PyList (to_pyobj <$> items)
  | JDict items => PyDict ((λ p, (p.1, to_pyobj p.2)) <$> items)
  end.

(** What the service takes from elsewhere: the modules [signatures] and
    [custom_collections] of the repository, which are not among the
    sources; config.json; and the libraries for hashing, JSON, tar archives,
    module inspection and HTTP. *)
Class Externals : Type := {
  NODE_SECRET : string;
  CLIENT_SECRET : string;
  TESTS_PATH : string;
  sha256_digest : string → string;
  b64encode : string → string;
  json_loads : string → option json;
  (* signatures.verify_authorization_header(header, key_recoverer,
     header_recoverer, method, path, query, mandatory_headers) *)
  verify_authorization_header :
    string → (string → option string) → (string → option string) →
    string → string → string → list string → result bool;
  (* signatures.new_signature(key, method, path, signature_headers,
     header_recoverer) and signatures.new_authorization_header *)
  new_signature :
    string → string → string → list string → (string → option string) → string;
  new_authorization_header : string → string → list string → string;
  (* requests: the status and decoded body of the answer, or the error *)
  rq_get : string → result (Z * result json);
  rq_delete : string → string → result Z;
  (* rq.Request("PATCH", url, files={'packages': f}).prepare() for the
     archive in f; prepared.body; prepared.headers[key] = value;
     prepared.headers.get(key); and rq.Session().send(prepared), which gives
     the status of the answer *)
  PreparedRequest : Type;
  rq_prepare : string → TarFile → result PreparedRequest;
  prepared_body : PreparedRequest → string;
  prepared_set_header : PreparedRequest → string → string → PreparedRequest;
  prepared_get_header : PreparedRequest → string → option string;
  rq_send : PreparedRequest → result Z;
  (* tarfile *)
  tarfile_open : string → result TarFile;
  tarfile_library :: Tarfile;
  get_installed_package : gmap string fnode → string → result json;
  (* custom_collections.OrderedListOfDict: batch_insert and delete *)
  OrderedListOfDict_batch_insert : list json → list json → result (list json);
  OrderedListOfDict_delete : list json → string → result (list json);
  (* shutil.rmtree *)
  rmtree : gmap string fnode → string → gmap string fnode;
  (* str(e) for the error that reaches the 500 handler *)
  str_internal_error : exn → string;
  (* str(e) for an exception of a library *)
  str_library_error : exn → string
}.

Section service.
Context `{Externals}.

Definition client_key_recoverer (key_id : string) : option string :=
  if String.eqb key_id "Client" then Some CLIENT_SECRET else None.

Definition node_key_recoverer (key_id : string) : option string :=
  if String.eqb key_id "Node" then Some NODE_SECRET else None.

(** [abort(code, description=...)] *)
Definition abort {A} (code : Z) (description : string) : result A :=
  Raise (HTTPException code description).

(** [ip in environments and port in environments[ip]] *)
Definition registered (envs : gmap pykey (gmap pykey json)) (ip port : pykey) : bool :=
  match envs !! ip with
  | Some ports => bool_decide (is_Some (ports !! port))
  | None => false
  end.

(** The route parameters [ip] and [port] are strings. *)
Definition check_registered (envs : gmap pykey (gmap pykey json))
    (ip port : string) : result () :=
  if negb (registered envs (KStr ip) (KStr port)) then
    abort 404 ("No environment registered for " +:+ ip +:+ ":" +:+ port)
  else Ok ().

(** [request.is_json] *)
Definition is_json (req : Request) : bool :=
  String.eqb (mimetype req) "application/json"
  || (String.prefix "application/" (mimetype req)
      && String.prefix (String.rev "+json") (String.rev (mimetype req))).

Definition check_is_json (req : Request) : result () :=
  if negb (is_json req) then
    abort 415 "Content Type is not application/json"
  else Ok ().

(** [s.split("=", 1)[1]]: what follows the first equals sign. *)
Fixpoint after_equals (s : string) : result string :=
  match s with
  | EmptyString => Raise IndexError
  | String c s' => if Ascii.eqb c "=" then Ok s' else after_equals s'
  end.

Definition check_digest_header (req : Request) : result () :=
  match headers req "Digest" with
  | None => abort 400 "'Digest' header mandatory."
  | Some value =>
      if negb (String.prefix "sha-256=" value) then
        abort 400 "Digest algorithm should be sha-256."
      else
        let digest := b64encode (sha256_digest (get_data req)) in
        given ← after_equals value;
        if negb (String.eqb digest given) then
          abort 400 "Given digest does not match content."
        else Ok ()
  end.

Definition check_authorization_header (key_recoverer : string → option string)
    (mandatory_headers : list string) (req : Request) : result () :=
  match headers req "Authorization" with
  | None => abort 401 "No 'Authorization' header found in request."
  | Some value =>
      match verify_authorization_header value key_recoverer (headers req)
              (method req) (path req) (query_string req) mandatory_headers with
      | Raise (ValueError msg) => abort 401 msg
      | Raise _ => abort 401 "Invalid 'Authorization' header."
      | Ok is_valid =>
          if negb is_valid then abort 401 "Invalid signature." else Ok ()
      end
  end.

(** *** Views in the process state *)

(** A view function runs in the process state and returns a response or
    raises; the state it leaves behind is kept in both cases. *)
Definition view (A : Type) : Type := State → result A * State.

#[global] Instance view_ret : MRet view := λ A a st, (Ok a, st).
#[global] Instance view_bind : MBind view := λ A B k m st,
  match m st with
  | (Ok a, st') => k a st'
  | (Raise e, st') => (Raise e, st')
  end.

Definition lift {A} (r : result A) : view A := λ st, (r, st).

Definition read {A} (f : State → A) : view A := λ st, (Ok (f st), st).

Definition set_environments (envs : gmap pykey (gmap pykey json)) : view () :=
  λ st, (Ok (), {| environments := envs; session := session st;
                   filesystem := filesystem st; available := available st;
                   stdout := stdout st |}).

Definition set_session (rows : list session_row) : view () :=
  λ st, (Ok (), {| environments := environments st; session := rows;
                   filesystem := filesystem st; available := available st;
                   stdout := stdout st |}).

Definition set_filesystem (fs : gmap string fnode) : view () :=
  λ st, (Ok (), {| environments := environments st; session := session st;
                   filesystem := fs; available := available st;
                   stdout := stdout st |}).

Definition set_available (content : list json) : view () :=
  λ st, (Ok (), {| environments := environments st; session := session st;
                   filesystem := filesystem st; available := content;
                   stdout := stdout st |}).

Definition print (line : string) : view () :=
  λ st, (Ok (), {| environments := environments st; session := session st;
                   filesystem := filesystem st; available := available st;
                   stdout := stdout st ++ [line] |}).

(** *** Error handlers *)

Definition dquote : string := String (ascii_of_nat 34) "".

Definition status_name (code : Z) : string :=
  if code =? 400 then "Bad Request"
  else if code =? 401 then "Unauthorized"
  else if code =? 404 then "Not Found"
  else if code =? 415 then "Unsupported Media Type"
  else if code =? 500 then "Internal Server Error"
  else if code =? 502 then "Bad Gateway"
  else if code =? 504 then "Gateway Timeout"
  else "Unknown Error".

(** [jsonify(error=str(e)), code] for an [HTTPException] *)
Definition jsonify_error (code : Z) (message : string) : Response :=
  {| status_code := code;
     www_authenticate :=
       if code =? 401
       then Some ("SECCHIWARE-HMAC-256 realm=" +:+ dquote +:+ "Access to C2" +:+ dquote)
       else None;
     content_type := "application/json";
     response := Jsonify (JDict [("error", JStr message)]) |}.

(** The handlers registered with [app.errorhandler]: one per status that
    [abort] is called with; any other exception reaches the handler of 500. *)
Definition handle_exception (e : exn) : Response :=
  match e with
  | HTTPException code description =>
      jsonify_error code
        (str_of_int code +:+ " " +:+ status_name code +:+ ": " +:+ description)
  | _ => jsonify_error 500 (str_internal_error e)
  end.

Definition full_dispatch_request (v : view Response) (st : State) : Response * State :=
  match v st with
  | (Ok rv, st') => (rv, st')
  | (Raise e, st') => (handle_exception e, st')
  end.

Definition no_content : Response :=
  {| status_code := 204; www_authenticate := None;
     content_type := "application/json"; response := Empty |}.

Definition jsonify (v : json) : Response :=
  {| status_code := 200; www_authenticate := None;
     content_type := "application/json"; response := Jsonify v |}.

(** [request.json]: a body that does not decode is a Bad Request. *)
Definition request_json (req : Request) : result json :=
  match json_loads (get_data req) with
  | Some v => Ok v
  | None => abort 400 "Failed to decode JSON object"
  end.

(** *** The session table *)

(** [INSERT INTO session (env_ip, ..., env_py_version) VALUES (?, ..., ?)]
    at time [now], then [cursor.lastrowid]. *)
Definition insert_session (to_insert : list json) (now : Z) : view Z :=
  params ← lift (mapM adapt to_insert);
  rows ← read session;
  match params with
  | [ip; port; platform; node; os_system; os_release; os_version;
     hw_machine; hw_processor; py_build_no; py_build_date; py_compiler;
     py_implementation; py_version] =>
      v_ip ← lift (text_not_null ip);
      v_port ← lift (integer_not_null port);
      v_platform ← lift (text_not_null platform);
      v_node ← lift (text_not_null node);
      v_os_system ← lift (text_not_null os_system);
      v_os_release ← lift (text_not_null os_release);
      v_os_version ← lift (text_not_null os_version);
      v_hw_machine ← lift (text_not_null hw_machine);
      v_hw_processor ← lift (text_not_null hw_processor);
      v_py_build_no ← lift (text_not_null py_build_no);
      v_py_build_date ← lift (text_not_null py_build_date);
      v_py_compiler ← lift (text_not_null py_compiler);
      v_py_implementation ← lift (text_not_null py_implementation);
      v_py_version ← lift (text_not_null py_version);
      let lastrowid := next_rowid rows in
      set_session (rows ++ [
        {| id_session := lastrowid;
           session_start := now;
           session_end := SqlNull;
           env_ip := v_ip;
           env_port := v_port;
           env_platform := v_platform;
           env_node := v_node;
           env_os_system := v_os_system;
           env_os_release := v_os_release;
           env_os_version := v_os_version;
           env_hw_machine := v_hw_machine;
           env_hw_processor := v_hw_processor;
           env_py_build_no := v_py_build_no;
           env_py_build_date := v_py_build_date;
           env_py_compiler := v_py_compiler;
           env_py_implementation := v_py_implementation;
           env_py_version := v_py_version |}]);;
      mret lastrowid
  | _ => lift (Raise (OtherError "Incorrect number of bindings supplied."))
  end.

(** [SELECT strftime('%Y-%m-%dT%H:%M:%SZ', session_start, 'unixepoch')
    FROM session WHERE id_session = ?], then [fetchone()[0]]. *)
Definition select_session_start (id : Z) : view json :=
  rows ← read session;
  match find (λ r, id_session r =? id) rows with
  | Some r =>
      mret (match strftime_iso (session_start r) with
            | Some s => JStr s
            | None => JNull
            end)
  | None => lift (Raise TypeError)
  end.

(** *** Routes *)

(** GET / *)
Definition is_up : view Response :=
  mret (jsonify (JDict [("success", JBool true)])).

(** [jsonify(environments)] sorts the keys of every dictionary that it
    writes: the registry can be written when the ips can be sorted and the
    ports of every ip can be sorted. *)
Definition jsonifiable (envs : gmap pykey (gmap pykey json)) : Prop :=
  sortable envs ∧ map_Forall (λ _ ports, sortable ports) envs.

#[global] Instance jsonifiable_dec envs : Decision (jsonifiable envs).
Proof. unfold jsonifiable. apply _. Defined.

(** GET /environments *)
Definition list_environments : view Response :=
  envs ← read environments;
  if bool_decide (jsonifiable envs) then
    mret {| status_code := 200; www_authenticate := None;
            content_type := "application/json";
            response := JsonifyEnvironments envs |}
  else lift (Raise TypeError).

(** ['ip' in request.json and 'port' in request.json
     and 'platform_info' in request.json] *)
Definition has_required_keys (body : json) : result bool :=
  has_ip ← contains "ip" body;
  if (has_ip : bool) then
    has_port ← contains "port" body;
    if (has_port : bool) then contains "platform_info" body else Ok false
  else Ok false.

(** The tuple [to_insert], its components evaluated from left to right. *)
Definition to_insert_of (ip port platform_info : json) : result (list json) :=
  port_number ← int port;
  platform ← getitem platform_info "platform";
  node ← getitem platform_info "node";
  os_system ← (os ← getitem platform_info "os"; getitem os "system");
  os_release ← (os ← getitem platform_info "os"; getitem os "release");
  os_version ← (os ← getitem platform_info "os"; getitem os "version");
  hw_machine ← (hw ← getitem platform_info "hardware"; getitem hw "machine");
  hw_processor ← (hw ← getitem platform_info "hardware"; getitem hw "processor");
  py_build_no ← (python ← getitem platform_info "python";
                 build ← getitem python "build"; getindex build 0);
  py_build_date ← (python ← getitem platform_info "python";
                   build ← getitem python "build"; getindex build 1);
  py_compiler ← (python ← getitem platform_info "python"; getitem python "compiler");
  py_implementation ← (python ← getitem platform_info "python";
                       getitem python "implementation");
  py_version ← (python ← getitem platform_info "python"; getitem python "version");
  Ok [ip; JInt port_number; platform; node; os_system; os_release; os_version;
      hw_machine; hw_processor; py_build_no; py_build_date; py_compiler;
      py_implementation; py_version].

(** POST /environments; [now] is the time of the store's clock. *)
Definition add_environment (req : Request) (now : Z) : view Response :=
  lift (check_digest_header req);;
  lift (check_authorization_header node_key_recoverer ["Digest"] req);;
  lift (check_is_json req);;
  body ← lift (request_json req);
  has_keys ← lift (has_required_keys body);
  if negb has_keys then
    lift (abort 400 "One or more keys missing in request's body")
  else
    ip ← lift (getitem body "ip");
    port ← lift (getitem body "port");
    platform_info ← lift (getitem body "platform_info");
    to_insert ← lift (to_insert_of ip port platform_info);
    lastrowid ← insert_session to_insert now;
    ip_key ← lift (to_key ip);
    envs ← read environments;
    (if negb (bool_decide (is_Some (envs !! ip_key)))
     then set_environments (<[ip_key := ∅]> envs) else mret ());;
    session_start ← select_session_start lastrowid;
    envs ← read environments;
    port_key ← lift (to_key port);
    set_environments
      (<[ip_key := <[port_key := JDict [("session_id", JInt lastrowid);
                                        ("session_start", session_start)]]>
                     (default ∅ (envs !! ip_key))]> envs);;
    mret no_content.

(** DELETE /environments/<ip>/<port> *)
Definition remove_environment (req : Request) (ip port : string) : view Response :=
  lift (check_authorization_header node_key_recoverer [] req);;
  envs ← read environments;
  lift (check_registered envs ip port);;
  let ports := delete (KStr port) (default ∅ (envs !! KStr ip)) in
  set_environments
    (if bool_decide (ports = ∅) then delete (KStr ip) envs
     else <[KStr ip := ports]> envs);;
  mret no_content.

(** The relay of an answer to [rq.get]: [expected] is the status whose
    body is passed on, [internal] the statuses reported as 500. *)
Definition relay_get (url : string) (ip port : string) (internal : list Z)
    : result Response :=
  match rq_get url with
  | Raise ConnectionError =>
      abort 504 "The requested environment could not be reached"
  | Raise e => Raise e
  | Ok (status, body) =>
      if status =? 200 then jsonify <$> body
      else if bool_decide (status ∈ internal) then
        abort 500 "Something went wrong when handling the request"
      else abort 502 ("Unexpected response from node at " +:+ ip +:+ ":" +:+ port)
  end.

(** GET /environments/<ip>/<port>/info *)
Definition get_environment_info (ip port : string) : view Response :=
  envs ← read environments;
  lift (check_registered envs ip port);;
  lift (relay_get ("http://" +:+ ip +:+ ":" +:+ port +:+ "/info") ip port []).

(** GET /environments/<ip>/<port>/installed *)
Definition list_installed_test_sets (ip port : string) : view Response :=
  envs ← read environments;
  lift (check_registered envs ip port);;
  lift (relay_get ("http://" +:+ ip +:+ ":" +:+ port +:+ "/test_sets") ip port []).

(** The lines that [print] writes, one after the other. *)
Fixpoint print_lines (lines : list string) : view () :=
  match lines with
  | [] => mret ()
  | line :: lines' => print line;; print_lines lines'
  end.

(** The request that [install_packages] prepares from the archive, signs
    as [C2] over its Digest and sends to the node. *)
Definition send_packages (archive : TarFile) (ip port : string) : result Z :=
  prepared ← rq_prepare ("http://" +:+ ip +:+ ":" +:+ port +:+ "/test_sets") archive;
  let digest := b64encode (sha256_digest (prepared_body prepared)) in
  let prepared := prepared_set_header prepared "Digest" ("sha-256=" +:+ digest) in
  let headers := ["Digest"] in
  let signature :=
    new_signature NODE_SECRET "PATCH" "/test_sets" headers
      (λ h, prepared_get_header prepared h) in
  let prepared :=
    prepared_set_header prepared "Authorization"
      (new_authorization_header "C2" signature headers) in
  rq_send prepared.

(** PATCH /environments/<ip>/<port>/installed *)
Definition install_packages (req : Request) (ip port : string) : view Response :=
  lift (check_digest_header req);;
  lift (check_authorization_header client_key_recoverer ["Digest"] req);;
  envs ← read environments;
  lift (check_registered envs ip port);;
  lift (check_is_json req);;
  packages ← lift (request_json req);
  fs ← read filesystem;
  let compressed := compress_test_packages fs (to_pyobj packages) TESTS_PATH in
  print_lines compressed.2;;
  status ← lift (match archive ← compressed.1; send_packages archive ip port with
                 | Raise (ValueError msg) => abort 400 msg
                 | Raise ConnectionError =>
                     abort 504 "The requested environment could not be reached"
                 | r => r
                 end);
  if status =? 204 then mret no_content
  else if bool_decide (status ∈ [400; 401; 415]) then
    lift (abort 500 "Something went wrong when handling the request")
  else lift (abort 502 ("Unexpected response from node at " +:+ ip +:+ ":" +:+ port)).

(** DELETE /environments/<ip>/<port>/installed/<package> *)
Definition delete_installed_package (req : Request) (ip port package : string)
    : view Response :=
  lift (check_authorization_header client_key_recoverer [] req);;
  envs ← read environments;
  lift (check_registered envs ip port);;
  let signature :=
    new_signature NODE_SECRET "DELETE" ("/test_sets/" +:+ package) [] (λ _, None) in
  let authorization_content := new_authorization_header "C2" signature [] in
  status ← lift (match rq_delete ("http://" +:+ ip +:+ ":" +:+ port
                                  +:+ "/test_sets/" +:+ package)
                         authorization_content with
                 | Raise ConnectionError =>
                     abort 504 "The requested environment could not be reached"
                 | r => r
                 end);
  if status =? 204 then mret no_content
  else if bool_decide (status ∈ [401; 404]) then
    lift (abort 404 ("'" +:+ package +:+ "' not found at " +:+ ip +:+ ":" +:+ port))
  else lift (abort 502 ("Unexpected response from node at " +:+ ip +:+ ":" +:+ port)).

(** GET /environments/<ip>/<port>/report *)
Definition execute_tests (req : Request) (ip port : string) : view Response :=
  envs ← read environments;
  lift (check_registered envs ip port);;
  let url := "http://" +:+ ip +:+ ":" +:+ port +:+ "/report" in
  url ← lift (match args req with
              | [] => Ok url
              | _ =>
                  let difference :=
                    filter (λ k, k ∉ ["packages"; "modules"; "test_sets"])
                           (fst <$> args req) in
                  match difference with
                  | [] => Ok (url +:+ "?" +:+ query_string req)
                  | _ => abort 400 ("Invalid keys "
                                    +:+ String.concat ", " difference
                                    +:+ " found in query parameters")
                  end
              end);
  lift (relay_get url ip port [400]).

(** GET /test_sets *)
Definition list_available_test_sets : view Response :=
  content ← read available;
  mret (jsonify (JList content)).

(** [str(e)]: the message of an exception that carries one, and the
    text that its library gives for any other. *)
Definition str (e : exn) : string :=
  match e with
  | ValueError msg | InvalidTestMethod msg | OtherError msg => msg
  | _ => str_library_error e
  end.

(** [test_utils.clean_package]: the module [test_utils] defines no
    function of this name, so the attribute lookup raises. *)
Definition clean_package (package : string) : result () := Raise AttributeError.

(** The loop of [upload_test_sets] over the new packages. *)
Fixpoint describe_packages (new_packages : list string) (new_info : list json)
    : view (list json) :=
  match new_packages with
  | [] => mret new_info
  | new_pack :: rest =>
      let new_pack := "test_sets." +:+ new_pack in
      lift (clean_package new_pack);;
      fs ← read filesystem;
      info ← lift (get_installed_package fs new_pack);
      describe_packages rest (new_info ++ [info])
  end.

(** PATCH /test_sets *)
Definition upload_test_sets (req : Request) : view Response :=
  (if negb (String.eqb (mimetype req) "multipart/form-data")
   then lift (abort 415 "Invalid request's content type") else mret ());;
  lift (check_digest_header req);;
  packages ← lift (match files req, snd <$> find (λ f, String.eqb (fst f) "packages")
                                                (files req) with
                   | _ :: _, Some file => Ok file
                   | _, _ => abort 400 "'packages' key not found in request's body"
                   end);
  lift (check_authorization_header client_key_recoverer ["Digest"] req);;
  fs ← read filesystem;
  new_packages ←
    (match uncompress_test_packages (tarfile_open packages) TESTS_PATH fs with
     | (Ok new_packages, fs') => set_filesystem fs';; mret new_packages
     | (Raise e, fs') =>
         set_filesystem fs';;
         print (str e);;
         lift (abort 400 "Invalid file content")
     end);
  new_info ← describe_packages new_packages [];
  content ← read available;
  content' ← lift (OrderedListOfDict_batch_insert content new_info);
  set_available content';;
  mret no_content.

(** DELETE /test_sets/<package> *)
Definition delete_package (req : Request) (package : string) : view Response :=
  lift (check_authorization_header client_key_recoverer [] req);;
  let package_path := TESTS_PATH +:+ "/" +:+ package in
  fs ← read filesystem;
  (match fs !! package_path with
   | Some Dir => mret ()
   | _ => lift (abort 404 ("Package '" +:+ package +:+ "' not found"))
   end);;
  set_filesystem (rmtree fs package_path);;
  content ← read available;
  content' ← lift (OrderedListOfDict_delete content package);
  set_available content';;
  mret no_content.

(** The routes of the service with the arguments the router hands over;
    [handle] runs one request to its response. *)
Inductive route : Type :=
| GetRoot
| GetEnvironments
| PostEnvironments (now : Z)
| DeleteEnvironment (ip port : string)
| GetInfo (ip port : string)
| GetInstalled (ip port : string)
| PatchInstalled (ip port : string)
| DeleteInstalled (ip port package : string)
| GetReport (ip port : string)
| GetTestSets
| PatchTestSets
| DeleteTestSet (package : string).

Definition view_function (r : route) (req : Request) : view Response :=
  match r with
  | GetRoot => is_up
  | GetEnvironments => list_environments
  | PostEnvironments now => add_environment req now
  | DeleteEnvironment ip port => remove_environment req ip port
  | GetInfo ip port => get_environment_info ip port
  | GetInstalled ip port => list_installed_test_sets ip port
  | PatchInstalled ip port => install_packages req ip port
  | DeleteInstalled ip port package => delete_installed_package req ip port package
  | GetReport ip port => execute_tests req ip port
  | GetTestSets => list_available_test_sets
  | PatchTestSets => upload_test_sets req
  | DeleteTestSet package => delete_package req package
  end.

Definition handle (r : route) (req : Request) (st : State) : Response * State :=
  full_dispatch_request (view_function r req) st.

End service.
End c2.


(** * Vocabulary of the statements

    The notions in which the properties of the three modules are stated,
    and the definitions that their proofs use. *)

Import test_utils linux sqlite3 c2.

(** ** Time stamps *)

Fixpoint all_from (fuel : nat) (i : Z) (P : Z → bool) : bool :=
  match fuel with
  | O => true
  | S fuel' => P i && all_from fuel' (i + 1) P
  end.

Definition two_digits (s : string) : bool :=
  match s with
  | String a (String b "") => is_digit a && is_digit b
  | _ => false
  end.

Definition four_digits (s : string) : bool :=
  match s with
  | String a (String b (String c (String d ""))) =>
      is_digit a && is_digit b && is_digit c && is_digit d
  | _ => false
  end.

Definition civil_of_doe (doe : Z) : Z * Z * Z :=
  let yoe := (doe - doe / 1460 + doe / 36524 - doe / 146096) / 365 in
  let doy := doe - (365 * yoe + yoe / 4 - yoe / 100) in
  let mp := (5 * doy + 2) / 153 in
  let d := doy - (153 * mp + 2) / 5 + 1 in
  let m := if mp <? 10 then mp + 3 else mp - 9 in
  (yoe + (if m <=? 2 then 1 else 0), m, d).

Definition doe_ok (doe : Z) : bool :=
  let '(yo, m, d) := civil_of_doe doe in
  (1 <=? m) && (m <=? 12) && (1 <=? d) && (d <=? 31) && (0 <=? yo) && (yo <=? 400)
  && (if doe <? 146037 then yo <=? 399 else yo =? 400).

(** ** Test reports, test sets and archives *)

(** The report the test contract promises for a result code and optional
    extra information. *)
Definition contract_report (name description : string) (code : pyobj)
    (info : option pyobj) : gmap string pyobj :=
  list_to_map
    (("result_code", code) :: ("test_name", PyStr name)
     :: ("test_description", PyStr description)
     :: match info with
        | Some d => [("additional_info", d)]
        | None => []
        end).

(** The return contract: a bare [int], or a pair of an [int] and a [dict]. *)
Definition conforming (r : pyobj) : option (pyobj * option pyobj) :=
  match r with
  | PyInt _ | PyBool _ => Some (r, None)
  | PyTuple [code; PyDict d] =>
      if isinstance_int code then Some (code, Some (PyDict d)) else None
  | _ => None
  end.

(** A test method honours the protocol of [run] when its body returns an
    object or raises [InvalidTestMethod]. *)
Definition returns_or_violates (m : member) : Prop :=
  match m with
  | TestMethod _ _ (Raise e) => ∃ msg, e = InvalidTestMethod msg
  | _ => True
  end.

(** The report a marked method contributes to [run], if any. *)
Definition report_of (m : member) : option (gmap string pyobj) :=
  match m with
  | TestMethod name description (Ok r) =>
      match conforming r with
      | Some (code, info) => Some (contract_report name description code info)
      | None => None
      end
  | _ => None
  end.

(** What [run] prints for a marked method: the message of the contract
    violation, if there is one. *)
Definition logged (self : TestSet) (m : member) : option string :=
  match call self m with
  | Raise (InvalidTestMethod msg) => Some msg
  | _ => None
  end.

(** *** Archives *)
(** The path below the root that a member name denotes, as the list of
    its components: an empty component and [.] stay in place, [..] steps
    back. *)
Definition resolve (n : string) : list string :=
  foldl (λ path c, if String.eqb c "" || String.eqb c "." then path
                   else if String.eqb c ".." then removelast path
                   else path ++ [c])
        [] (split_on "/" n).

(** A top-level member of an archive: its path has one component. *)
Definition top_level (m : TarInfo) : Prop := length (resolve (name m)) = 1%nat.

#[global] Instance top_level_dec m : Decision (top_level m).
Proof. unfold top_level. apply _. Defined.

(** A member name written plainly: components separated by single slashes,
    none of them empty, [.] or [..]. *)
Definition plain (n : string) : Prop :=
  Forall (λ c, String.eqb c "" || String.eqb c "." || String.eqb c ".." = false)
         (split_on "/" n).

#[global] Instance plain_dec n : Decision (plain n).
Proof. unfold plain. apply _. Defined.

(** A directory of the archive that contains a package marker. *)
Definition package (tar : TarFile) (m : TarInfo) : Prop :=
  type m = DIRTYPE ∧ ∃ marker, marker ∈ tar ∧ name marker = name m +:+ "/__init__.py".

(** The error of the validation at the member [m]. *)
Definition not_a_package `{Tarfile} (m : TarInfo) : exn :=
  ValueError ("Found top level member " +:+ repr_TarInfo m +:+ " is not a package.").

(** The pair that the plugin returns for a tracer pid. *)
Definition tracer_result (pid : Z) : pyobj :=
  PyTuple [PyInt (if pid =? 0 then 1 else -1); PyDict [("found_pid", PyInt pid)]].

Definition tab : string := String (ascii_of_nat 9) "".

Definition newline : string := String (ascii_of_nat 10) "".

(** A sample of the [tarfile] library.  The extraction writes the members
    in archive order below the path, creates the directories that are
    missing on the way to a member, and ends with [OSError] at a member that
    lies below something that is not a directory, leaving the earlier
    members in place. *)
Definition node_of (m : TarInfo) : fnode :=
  match type m with
  | DIRTYPE => Dir
  | REGTYPE => File (data m)
  | _ => Special
  end.

Definition below (root : string) (components : list string) : string :=
  foldl (λ p c, p +:+ "/" +:+ c) root components.

Definition ancestors (root : string) (components : list string) : list string :=
  (λ k, below root (take k components)) <$> seq 1 (length components - 1).

Fixpoint sample_extractall (tar : TarFile) (path : string)
    (fs : gmap string fnode) : result () * gmap string fnode :=
  match tar with
  | [] => (Ok (), fs)
  | m :: rest =>
      let parents := ancestors path (resolve (name m)) in
      if forallb (λ p, match fs !! p with
                       | Some Dir | None => true
                       | Some _ => false
                       end) parents
      then sample_extractall rest path
             (<[below path (resolve (name m)) := node_of m]>
                (foldr (λ p fs, <[p := Dir]> fs) fs parents))
      else (Raise OSError, fs)
  end.

(** The sample of [tar.add]: the directory and what the file system has
    below it, in the order of the paths, without what the filter excludes
    and what lies below an excluded directory. *)
Definition member_at (name arcname : string) (entry : string * fnode)
    : option TarInfo :=
  let rest := String.substring (String.length name)
                (String.length entry.1 - String.length name) entry.1 in
  if String.eqb entry.1 name || String.prefix (name +:+ "/") entry.1 then
    Some {| name := arcname +:+ rest;
            type := match entry.2 with
                    | Dir => DIRTYPE
                    | File _ => REGTYPE
                    | Special => OTHERTYPE
                    end;
            data := match entry.2 with File content => content | _ => "" end |}
  else None.

Fixpoint add_members (filter : TarInfo → option TarInfo)
    (members excluded : list TarInfo) : list TarInfo :=
  match members with
  | [] => []
  | m :: rest =>
      if existsb (λ x, String.prefix (name x +:+ "/") (name m)) excluded
      then add_members filter rest excluded
      else match filter m with
           | Some m' => m' :: add_members filter rest excluded
           | None => add_members filter rest (m :: excluded)
           end
  end.

Definition sample_add (fs : gmap string fnode) (name arcname : string)
    (filter : TarInfo → option TarInfo) : result (list TarInfo) :=
  Ok (add_members filter
        (omap (member_at name arcname)
           (merge_sort (λ a b, String.leb a.1 b.1) (map_to_list fs))) []).

Definition sample_tarfile : Tarfile :=
  {| tar_extractall := sample_extractall;
     tar_add := sample_add;
     repr_TarInfo := λ m, "<TarInfo '" +:+ name m +:+ "' at 0x7f3a5c0b2e80>" |}.

(** Four archives: a package with its marker; a package and a lone file;
    a lone file under the name that [tar] gives it when it is archived from
    the current directory; and a package whose marker has a member below
    it. *)
Definition sample_package : TarFile :=
  [ {| name := "linux"; type := DIRTYPE; data := "" |};
    {| name := "linux/__init__.py"; type := REGTYPE; data := "" |};
    {| name := "linux/linux.py"; type := REGTYPE; data := "class MonitoringSet" |} ].

Definition sample_lone_file : TarFile :=
  [ {| name := "linux"; type := DIRTYPE; data := "" |};
    {| name := "linux/__init__.py"; type := REGTYPE; data := "" |};
    {| name := "notes.txt"; type := REGTYPE; data := "not a package" |} ].

Definition sample_dot_file : TarFile :=
  [ {| name := "./notes.txt"; type := REGTYPE; data := "not a package" |} ].

Definition sample_file_as_directory : TarFile :=
  [ {| name := "linux"; type := DIRTYPE; data := "" |};
    {| name := "linux/__init__.py"; type := REGTYPE; data := "" |};
    {| name := "linux/__init__.py/x"; type := REGTYPE; data := "" |} ].

(** A test set with a conforming and a non-conforming test. *)
Definition sample_test_set : TestSet :=
  {| description := "one good test, one bad test";
     members :=
       [("description", DataAttribute (PyStr "one good test, one bad test"));
        ("returns_text", TestMethod "Text" "Returns a string." (Ok (PyStr "passed")));
        ("returns_code", TestMethod "Code" "Returns an int." (Ok (PyInt 1)));
        ("run", PlainMethod)] |}.

(** A report as the docstring of [test] describes it, for the name and
    the description that the decorator was given: an integer result code,
    that name and that description, and at most one more key,
    [additional_info], with a dictionary. *)
Definition well_formed (name description : string) (report : gmap string pyobj)
    : Prop :=
  (∃ code, report !! "result_code" = Some code ∧ isinstance_int code = true)
  ∧ report !! "test_name" = Some (PyStr name)
  ∧ report !! "test_description" = Some (PyStr description)
  ∧ (∀ info, report !! "additional_info" = Some info → isinstance_dict info = true)
  ∧ ∀ key, is_Some (report !! key) →
      key ∈ ["result_code"; "test_name"; "test_description"; "additional_info"].

(** A report of the test set [self]: well formed for the name and the
    description of one of its test methods. *)
Definition reported_by (self : TestSet) (report : gmap string pyobj) : Prop :=
  ∃ attr name description raw,
    (attr, TestMethod name description raw) ∈ members self
    ∧ well_formed name description report.

(** The reports and the printed lines of a test set whose methods honour
    the protocol of [run]. *)
Definition reports_of_set (ts : TestSet) : list (gmap string pyobj) :=
  omap (λ p, report_of p.2) (getmembers ts is_test_method).

Definition logged_by_set (ts : TestSet) : list string :=
  omap (λ p, logged ts p.2) (getmembers ts is_test_method).

(** An exception that [run] does not catch. *)
Definition foreign (e : exn) : Prop := ∀ msg, e ≠ InvalidTestMethod msg.

(** The report of the plugin for a tracer pid. *)
Definition tracer_report (pid : Z) : gmap string pyobj :=
  contract_report "Is tracer attached?" "Looks for a TracerPid different than 0."
    (PyInt (if pid =? 0 then 1 else -1))
    (Some (PyDict [("found_pid", PyInt pid)])).

(** The line of /proc/self/status for a tracer pid, as the kernel writes
    it. *)
Definition tracer_line (pid : Z) : string :=
  "TracerPid:" +:+ tab +:+ str_of_int pid +:+ newline.

(** A string of decimal digits. *)
Fixpoint decimal (s : string) : Prop :=
  match s with
  | EmptyString => True
  | String c s' => (∃ d, 0 ≤ d < 10 ∧ c = digit_char d) ∧ decimal s'
  end.

(** A package name with a dot in it. *)
Definition dotted (tp : string) : Prop := "."%char ∈ list_ascii_of_string tp.

#[global] Instance dotted_dec tp : Decision (dotted tp).
Proof. unfold dotted. apply _. Defined.

(** The names that [compress_test_packages] adds to the archive: those
    without a dot that are directories of the tests root. *)
Definition compressed (fs : gmap string fnode) (tests_root : string)
    (names : list string) : list string :=
  filter (λ tp, ¬ dotted tp ∧ os_path_isdir fs (os_path_join tests_root tp) = true)
    names.

(** What [compress_test_packages] prints for the names. *)
Definition left_out (fs : gmap string fnode) (tests_root : string)
    (names : list string) : list string :=
  omap (λ tp, if decide (dotted tp)
              then Some (tp +:+ "ignored. Only top level packages allowed.")
              else if os_path_isdir fs (os_path_join tests_root tp) then None
              else Some ("No package found with name " +:+ tp +:+ "."))
       names.

(** ** The service *)

Section vocabulary.
Context `{Externals}.

(** The preparation of [add_environment]: everything up to the tuple
    [to_insert], none of which reads or writes the process state. *)
Definition registration (req : Request) : result (json * json * list json) :=
  check_digest_header req;;
  check_authorization_header node_key_recoverer ["Digest"] req;;
  check_is_json req;;
  body ← request_json req;
  has_keys ← has_required_keys body;
  if negb has_keys then
    abort 400 "One or more keys missing in request's body"
  else
    ip ← getitem body "ip";
    port ← getitem body "port";
    platform_info ← getitem body "platform_info";
    to_insert ← to_insert_of ip port platform_info;
    Ok (ip, port, to_insert).

(** What [add_environment] does once [to_insert] is there. *)
Definition register (ip port : json) (to_insert : list json) (now : Z)
    : view Response :=
  lastrowid ← insert_session to_insert now;
  ip_key ← lift (to_key ip);
  envs ← read environments;
  (if negb (bool_decide (is_Some (envs !! ip_key)))
   then set_environments (<[ip_key := ∅]> envs) else mret ());;
  session_start ← select_session_start lastrowid;
  envs ← read environments;
  port_key ← lift (to_key port);
  set_environments
    (<[ip_key := <[port_key := JDict [("session_id", JInt lastrowid);
                                      ("session_start", session_start)]]>
                   (default ∅ (envs !! ip_key))]> envs);;
  mret no_content.

(** The status of the response to an exception that leaves a view. *)
Definition status_of (e : exn) : Z :=
  match e with
  | HTTPException code _ => code
  | _ => 500
  end.

(** An error that is not an [HTTPException]: it reaches the 500 handler. *)
Definition internal (e : exn) : Prop :=
  match e with
  | HTTPException _ _ => False
  | _ => True
  end.

Definition raises_only {A} (P : exn → Prop) (r : result A) : Prop :=
  match r with
  | Raise e => P e
  | Ok _ => True
  end.

Definition gate_status (codes : list Z) (e : exn) : Prop := In (status_of e) codes.

(** The state after a row has been appended to the session table. *)
Definition with_session (st : State) (rows : list session_row) : State :=
  {| environments := environments st; session := rows;
     filesystem := filesystem st; available := available st;
     stdout := stdout st |}.

Definition with_environments (st : State) (envs : gmap pykey (gmap pykey json)) : State :=
  {| environments := envs; session := session st;
     filesystem := filesystem st; available := available st;
     stdout := stdout st |}.

(** The registry entry of a session that started at [now]. *)
Definition entry (id now : Z) : json :=
  JDict [("session_id", JInt id);
         ("session_start", match strftime_iso now with
                           | Some s => JStr s
                           | None => JNull
                           end)].

(** The registry after [ip], [port] has been bound to [e]. *)
Definition bound (envs : gmap pykey (gmap pykey json)) (ip port : pykey) (e : json)
    : gmap pykey (gmap pykey json) :=
  <[ip := <[port := e]> (default ∅ (envs !! ip))]> envs.

(** A view that leaves the rows of the session table in place and at most
    appends to them. *)
Definition appends_only {A} (v : view A) : Prop :=
  ∀ st, session st `prefix_of` session (v st).2.

(** *** The nested fields of [platform_info] *)
Inductive step : Type :=
| Key (k : string)
| Index (i : nat).

(** [v[s1][s2]...] *)
Definition lookup_path (v : json) (p : list step) : result json :=
  foldl (λ r s, v ← r; match s with
                       | Key k => getitem v k
                       | Index i => getindex v i
                       end) (Ok v) p.

(** platform, node, os.system, os.release, os.version, hardware.machine,
    hardware.processor, python.build[0], python.build[1], python.compiler,
    python.implementation, python.version *)
Definition platform_fields : list (list step) :=
  [[Key "platform"]; [Key "node"];
   [Key "os"; Key "system"]; [Key "os"; Key "release"]; [Key "os"; Key "version"];
   [Key "hardware"; Key "machine"]; [Key "hardware"; Key "processor"];
   [Key "python"; Key "build"; Index 0]; [Key "python"; Key "build"; Index 1];
   [Key "python"; Key "compiler"]; [Key "python"; Key "implementation"];
   [Key "python"; Key "version"]].

(** An error response: the given status with a JSON object whose only key
    is [error]. *)
Definition is_json_error (code : Z) (resp : Response) : Prop :=
  status_code resp = code
  ∧ ∃ msg, response resp = Jsonify (JDict [("error", JStr msg)]).

(** The three ways in which the Digest gate rejects a request. *)
Definition digest_rejected (req : Request) : Prop :=
  headers req "Digest" = None
  ∨ (∃ value, headers req "Digest" = Some value
              ∧ String.prefix "sha-256=" value = false)
  ∨ (∃ given, headers req "Digest" = Some ("sha-256=" +:+ given)
              ∧ given ≠ b64encode (sha256_digest (get_data req))).

(** A value that the session table accepts in a [NOT NULL] column. *)
Definition storable (v : json) : bool :=
  match adapt v with
  | Ok SqlNull | Raise _ => false
  | Ok _ => true
  end.

(** A registry in which every ip and every port is a string. *)
Definition string_keyed (envs : gmap pykey (gmap pykey json)) : Prop :=
  map_Forall (λ ip ports,
      (∃ s, ip = KStr s) ∧ map_Forall (λ port _, ∃ s, port = KStr s) ports)
    envs.

(** The answer to GET /environments that lists the registry of a state. *)
Definition listing (st : State) : Response :=
  {| status_code := 200; www_authenticate := None;
     content_type := "application/json";
     response := JsonifyEnvironments (environments st) |}.

(** The gates that a route applies before it looks the environment up. *)
Definition earlier_gates (r : route) (req : Request) : result () :=
  match r with
  | DeleteEnvironment _ _ => check_authorization_header node_key_recoverer [] req
  | PatchInstalled _ _ =>
      check_digest_header req;;
      check_authorization_header client_key_recoverer ["Digest"] req
  | DeleteInstalled _ _ _ => check_authorization_header client_key_recoverer [] req
  | _ => Ok ()
  end.

(** The environment that an environment-scoped route is about. *)
Definition environment_of (r : route) : option (string * string) :=
  match r with
  | DeleteEnvironment ip port | GetInfo ip port | GetInstalled ip port
  | PatchInstalled ip port | DeleteInstalled ip port _ | GetReport ip port =>
      Some (ip, port)
  | _ => None
  end.

End vocabulary.

(** *** Responses, invariants of the registry and answers of the node *)

Section more_vocabulary.
Context {externals : Externals}.

(** The challenge that the handler of 401 adds to its response. *)
Definition challenge : string :=
  "SECCHIWARE-HMAC-256 realm=" +:+ dquote +:+ "Access to C2" +:+ dquote.

(** A view whose responses, when it returns one, are a 200 or a 204
    without a challenge. *)
Definition answers_success (v : view Response) : Prop :=
  ∀ st, match (v st).1 with
        | Ok resp => (status_code resp = 200 ∨ status_code resp = 204)
                     ∧ www_authenticate resp = None
        | Raise _ => True
        end.

(** A view that leaves the process state as it found it. *)
Definition reads_only {A} (v : view A) : Prop := ∀ st, (v st).2 = st.

(** A view that leaves the registry and the session table as they are. *)
Definition keeps_registry {A} (v : view A) : Prop :=
  ∀ st, environments (v st).2 = environments st ∧ session (v st).2 = session st.

(** The role whose signature a route demands before it changes the state,
    with the headers that the signature must cover.  PATCH installed is
    among these routes for what it prints. *)
Definition signer (r : route) : option ((string → option string) * list string) :=
  match r with
  | PostEnvironments _ => Some (node_key_recoverer, ["Digest"])
  | DeleteEnvironment _ _ => Some (node_key_recoverer, [])
  | PatchInstalled _ _ => Some (client_key_recoverer, ["Digest"])
  | PatchTestSets => Some (client_key_recoverer, ["Digest"])
  | DeleteTestSet _ => Some (client_key_recoverer, [])
  | _ => None
  end.

(** The registry without [ip], [port]; an ip left without ports is
    dropped. *)
Definition unbound (envs : gmap pykey (gmap pykey json)) (ip port : pykey)
    : gmap pykey (gmap pykey json) :=
  let ports := delete port (default ∅ (envs !! ip)) in
  if bool_decide (ports = ∅) then delete ip envs else <[ip := ports]> envs.

(** No ip of the registry is left with an empty dictionary of ports. *)
Definition no_empty_ip (envs : gmap pykey (gmap pykey json)) : Prop :=
  ∀ ip, envs !! ip ≠ Some ∅.

(** The ids of the session table grow from row to row. *)
Definition ids_increasing (rows : list session_row) : Prop :=
  StronglySorted Z.lt (id_session <$> rows).

(** Every environment of the registry carries the id and the start of a
    row of the session table. *)
Definition sessions_recorded (st : State) : Prop :=
  ∀ ip port e, environments st !! ip ≫= (.!! port) = Some e →
    ∃ row, row ∈ session st ∧ e = entry (id_session row) (session_start row).

(** A session id is carried by one environment at most. *)
Definition sessions_distinct (st : State) : Prop :=
  ∀ ip port ip' port' id start start',
    environments st !! ip ≫= (.!! port) = Some (entry id start) →
    environments st !! ip' ≫= (.!! port') = Some (entry id start') →
    (ip, port) = (ip', port').

(** The states of a run of the service: it starts with an empty registry
    on the session table that earlier runs have left, and handles one
    request after the other. *)
Inductive reachable : State → Prop :=
| reachable_start st : environments st = ∅ → reachable st
| reachable_step r req st :
    reachable st → reachable (handle r req st).2.

(** The libraries and the modules outside the sources raise errors of
    their own, never an [HTTPException] of the web framework. *)
Definition externals_raise_internal : Prop :=
  (∀ url, raises_only internal (rq_get url))
  ∧ (∀ url status body, rq_get url = Ok (status, body) → raises_only internal body)
  ∧ (∀ url authorization, raises_only internal (rq_delete url authorization))
  ∧ (∀ fs name arcname filter, raises_only internal (tar_add fs name arcname filter))
  ∧ (∀ url archive, raises_only internal (rq_prepare url archive))
  ∧ (∀ prepared, raises_only internal (rq_send prepared))
  ∧ (∀ fs package, raises_only internal (get_installed_package fs package))
  ∧ (∀ content new_info,
       raises_only internal (OrderedListOfDict_batch_insert content new_info))
  ∧ (∀ content package,
       raises_only internal (OrderedListOfDict_delete content package)).

(** The statuses with which a route answers. *)
Definition statuses (r : route) : list Z :=
  match r with
  | GetRoot | GetTestSets => [200]
  | GetEnvironments => [200; 500]
  | PostEnvironments _ => [204; 400; 401; 415; 500]
  | DeleteEnvironment _ _ => [204; 401; 404]
  | GetInfo _ _ | GetInstalled _ _ => [200; 404; 500; 502; 504]
  | PatchInstalled _ _ => [204; 400; 401; 404; 415; 500; 502; 504]
  | DeleteInstalled _ _ _ => [204; 401; 404; 500; 502; 504]
  | GetReport _ _ => [200; 400; 404; 500; 502; 504]
  | PatchTestSets => [204; 400; 401; 415; 500]
  | DeleteTestSet _ => [204; 401; 404; 500]
  end.

(** A view that raises with a status among [codes] only. *)
Definition fails_within {A} (codes : list Z) (v : view A) : Prop :=
  ∀ st, raises_only (gate_status codes) (v st).1.

(** A view that answers or raises with a status among [codes] only. *)
Definition answers_within (codes : list Z) (v : view Response) : Prop :=
  ∀ st, match (v st).1 with
        | Ok resp => In (status_code resp) codes
        | Raise e => gate_status codes e
        end.

(** The role whose signature a route demands, with the headers that the
    signature must cover; the other six routes are open. *)
Definition credentials (r : route) : option ((string → option string) * list string) :=
  match r with
  | PostEnvironments _ => Some (node_key_recoverer, ["Digest"])
  | DeleteEnvironment _ _ => Some (node_key_recoverer, [])
  | PatchInstalled _ _ => Some (client_key_recoverer, ["Digest"])
  | DeleteInstalled _ _ _ => Some (client_key_recoverer, [])
  | PatchTestSets => Some (client_key_recoverer, ["Digest"])
  | DeleteTestSet _ => Some (client_key_recoverer, [])
  | _ => None
  end.

(** The query parameters that GET report passes on. *)
Definition valid_keys : list string := ["packages"; "modules"; "test_sets"].

(** The address that a GET route of an environment asks the node for;
    GET report asks for nothing when a query parameter is not among the
    valid ones. *)
Definition node_url (r : route) (req : Request) : option string :=
  match r with
  | GetInfo ip port => Some ("http://" +:+ ip +:+ ":" +:+ port +:+ "/info")
  | GetInstalled ip port => Some ("http://" +:+ ip +:+ ":" +:+ port +:+ "/test_sets")
  | GetReport ip port =>
      let url := "http://" +:+ ip +:+ ":" +:+ port +:+ "/report" in
      match args req with
      | [] => Some url
      | _ =>
          if forallb (λ key, bool_decide (key ∈ valid_keys)) (args req).*1
          then Some (url +:+ "?" +:+ query_string req) else None
      end
  | _ => None
  end.

(** The node statuses that a GET route reports as an error of the service
    itself. *)
Definition blamed_on_service (r : route) : list Z :=
  match r with
  | GetReport _ _ => [400]
  | _ => []
  end.

(** The answer of a GET route to what the node has answered: the body of
    a 200 is passed on, an unreachable node is a 504, any other status a
    502, or a 500 when the status is in [blamed]. *)
Definition relayed (blamed : list Z) (answer : result (Z * result json))
    (resp : Response) : Prop :=
  match answer with
  | Ok (status, body) =>
      if status =? 200 then
        match body with
        | Ok document => resp = jsonify document
        | Raise e => resp = handle_exception e
        end
      else is_json_error (if bool_decide (status ∈ blamed) then 500 else 502) resp
  | Raise ConnectionError => is_json_error 504 resp
  | Raise e => resp = handle_exception e
  end.

(** The answer of PATCH installed to what the delivery of the packages to
    the node has given. *)
Definition install_answer (delivery : result Z) (resp : Response) : Prop :=
  match delivery with
  | Ok status =>
      if status =? 204 then resp = no_content
      else is_json_error (if bool_decide (status ∈ [400; 401; 415]) then 500 else 502)
             resp
  | Raise (ValueError msg) => is_json_error 400 resp
  | Raise ConnectionError => is_json_error 504 resp
  | Raise e => resp = handle_exception e
  end.

(** The answer of DELETE installed/{package} to what the node has answered. *)
Definition uninstall_answer (answer : result Z) (resp : Response) : Prop :=
  match answer with
  | Ok status =>
      if status =? 204 then resp = no_content
      else is_json_error (if bool_decide (status ∈ [401; 404]) then 404 else 502) resp
  | Raise ConnectionError => is_json_error 504 resp
  | Raise e => resp = handle_exception e
  end.

(** The file part [packages] of a multipart body. *)
Definition packages_file (req : Request) : option string :=
  match files req with
  | [] => None
  | _ => snd <$> find (λ f, String.eqb (fst f) "packages") (files req)
  end.

(** The gates of PATCH /test_sets, in the order of the handler. *)
Definition upload_gates (req : Request) (file : string) : Prop :=
  mimetype req = "multipart/form-data"
  ∧ check_digest_header req = Ok ()
  ∧ packages_file req = Some file
  ∧ check_authorization_header client_key_recoverer ["Digest"] req = Ok ().

(** The state with another file system, and with another output. *)
Definition with_filesystem (st : State) (fs : gmap string fnode) : State :=
  {| environments := environments st; session := session st;
     filesystem := fs; available := available st; stdout := stdout st |}.

Definition with_stdout (st : State) (out : list string) : State :=
  {| environments := environments st; session := session st;
     filesystem := filesystem st; available := available st; stdout := out |}.

(** What a [TEXT NOT NULL] column holds for a bound object. *)
Definition stored (v : json) : result sqlval :=
  sv ← adapt v; text_not_null sv.

(** The twelve columns of a session row that describe the platform, in
    the order of [platform_fields]. *)
Definition platform_columns (row : session_row) : list sqlval :=
  [env_platform row; env_node row; env_os_system row; env_os_release row;
   env_os_version row; env_hw_machine row; env_hw_processor row;
   env_py_build_no row; env_py_build_date row; env_py_compiler row;
   env_py_implementation row; env_py_version row].

(** The statuses with which a registration is refused. *)
Definition refusal (resp : Response) : Prop :=
  In (status_code resp) [400; 401; 415; 500]
  ∧ ∃ msg, response resp = Jsonify (JDict [("error", JStr msg)]).

End more_vocabulary.

(** *** A small deployment to run the service on *)
Definition sample_platform_info : json :=
  JDict [("platform", JStr "Linux-5.4.0-42-generic-x86_64-with-glibc2.29");
         ("node", JStr "analysis-vm-1");
         ("os", JDict [("system", JStr "Linux"); ("release", JStr "5.4.0-42-generic");
                       ("version", JStr "#46-Ubuntu SMP")]);
         ("hardware", JDict [("machine", JStr "x86_64"); ("processor", JStr "x86_64")]);
         ("python", JDict [("build", JList [JStr "default"; JStr "Jul 16 2020 14:00:26"]);
                           ("compiler", JStr "GCC 9.3.0");
                           ("implementation", JStr "CPython");
                           ("version", JStr "3.8.2")])].

(** The request bodies that the sample decoder knows, by their text. *)
Definition sample_documents : list (string * json) :=
  [("registration with a string port",
    JDict [("ip", JStr "10.0.0.5"); ("port", JStr "5000");
           ("platform_info", sample_platform_info)]);
   ("registration with a number port",
    JDict [("ip", JStr "10.0.0.5"); ("port", JInt 5000);
           ("platform_info", sample_platform_info)]);
   ("registration without os",
    JDict [("ip", JStr "10.0.0.5"); ("port", JStr "5000");
           ("platform_info", JDict [("platform", JStr "Linux"); ("node", JStr "analysis-vm-1")])]);
   ("registration without port",
    JDict [("ip", JStr "10.0.0.5"); ("platform_info", sample_platform_info)])].

(** The text of an error in the sample deployments. *)
Definition sample_error_text (e : exn) : string :=
  match e with
  | HTTPException _ msg | ValueError msg | InvalidTestMethod msg
  | OtherError msg => msg
  | KeyError key => "'" +:+ key +:+ "'"
  | IndexError => "list index out of range"
  | ReadError => "not a gzip file"
  | OSError => "[Errno 20] Not a directory"
  | AttributeError => "module 'test_utils' has no attribute 'clean_package'"
  | _ => ""
  end.

(** Hashing and encoding are the identity, an Authorization header is the
    bare key id and verifies when the route's key recoverer knows it; the
    network is unreachable. *)
Definition sample_externals : Externals :=
  {| NODE_SECRET := "node secret";
     CLIENT_SECRET := "client secret";
     TESTS_PATH := "/srv/c2/test_sets";
     sha256_digest := λ data, data;
     b64encode := λ data, data;
     json_loads := λ data, dict_get data sample_documents;
     verify_authorization_header := λ value key_recoverer _ _ _ _ _,
       Ok (bool_decide (is_Some (key_recoverer value)));
     new_signature := λ key _ _ _ _, key;
     new_authorization_header := λ key_id _ _, key_id;
     rq_get := λ _, Raise ConnectionError;
     rq_delete := λ _ _, Raise ConnectionError;
     PreparedRequest := string * list (string * string);
     rq_prepare := λ url _, Ok (url, []);
     prepared_body := λ _, "multipart body";
     prepared_set_header := λ prepared key value,
       (prepared.1, (key, value) :: prepared.2);
     prepared_get_header := λ prepared key,
       snd <$> find (λ header, String.eqb header.1 key) prepared.2;
     rq_send := λ _, Raise ConnectionError;
     tarfile_open := λ _, Raise ReadError;
     tarfile_library := sample_tarfile;
     get_installed_package := λ _ pkg, Ok (JDict [("name", JStr pkg)]);
     OrderedListOfDict_batch_insert := λ content new, Ok (content ++ new);
     OrderedListOfDict_delete := λ content _, Ok content;
     rmtree := λ fs _, fs;
     str_internal_error := sample_error_text;
     str_library_error := sample_error_text |}.

Definition initial : State :=
  {| environments := ∅; session := []; filesystem := ∅; available := [];
     stdout := [] |}.

(** A request signed by [key_id] whose Digest matches its body. *)
Definition signed_request (key_id http_method url content_mimetype data : string)
    : Request :=
  {| method := http_method; path := url; query_string := ""; args := [];
     headers := λ h, if String.eqb h "Digest" then Some ("sha-256=" +:+ data)
                     else if String.eqb h "Authorization" then Some key_id
                     else None;
     mimetype := content_mimetype; get_data := data; files := [] |}.

Definition unsigned_request (http_method url : string) : Request :=
  {| method := http_method; path := url; query_string := ""; args := [];
     headers := λ _, None; mimetype := ""; get_data := ""; files := [] |}.

Definition post_environments (data : string) : Request :=
  signed_request "Node" "POST" "/environments" "application/json" data.

(** A test set whose second test cannot open its file, and the attributes
    of [sample_test_set] defined in the opposite order. *)
Definition sample_failing_test_set : TestSet :=
  {| description := "the second test fails to open a file";
     members :=
       [("a_returns_text", TestMethod "Text" "Returns a string." (Ok (PyStr "passed")));
        ("b_opens_file", TestMethod "File" "Reads a file." (Raise OSError));
        ("c_returns_code", TestMethod "Code" "Returns an int." (Ok (PyInt 1)))] |}.

Definition sample_test_set_reversed : TestSet :=
  {| description := "one good test, one bad test";
     members := reverse (members sample_test_set) |}.

(** A status file that ends before the TracerPid line. *)
Definition sample_truncated_status : list string :=
  ["Name:" +:+ tab +:+ "python3" +:+ newline;
   "Pid:" +:+ tab +:+ "4242" +:+ newline].

(** An archive without a top-level member. *)
Definition sample_nested_file : TarFile :=
  [ {| name := "linux/notes.txt"; type := REGTYPE; data := "not a package" |} ].

(** A tests directory with the package [linux] and its bytecode cache. *)
Definition sample_tests_directory : gmap string fnode :=
  {[ "/srv/c2/test_sets/linux" := Dir;
     "/srv/c2/test_sets/linux/__init__.py" := File "";
     "/srv/c2/test_sets/linux/linux.py" := File "class MonitoringSet";
     "/srv/c2/test_sets/linux/__pycache__" := Dir;
     "/srv/c2/test_sets/linux/__pycache__/linux.cpython-38.pyc" := File "bytecode" ]}.

(** A deployment whose node answers: every GET is answered 200 with the
    address asked for, every DELETE and every delivery of packages 204; the
    upload decoder knows four archives by their text. *)
Definition answering_externals : Externals :=
  {| NODE_SECRET := "node secret";
     CLIENT_SECRET := "client secret";
     TESTS_PATH := "/srv/c2/test_sets";
     sha256_digest := λ data, data;
     b64encode := λ data, data;
     json_loads := λ data,
       dict_get data
         (("names of packages", JList [JStr "linux"])
          :: ("names of three packages",
              JList [JStr "linux"; JStr "linux.tests"; JStr "windows"])
          :: sample_documents);
     verify_authorization_header := λ value key_recoverer _ _ _ _ _,
       Ok (bool_decide (is_Some (key_recoverer value)));
     new_signature := λ key _ _ _ _, key;
     new_authorization_header := λ key_id _ _, key_id;
     rq_get := λ url, Ok (200, Ok (JDict [("asked", JStr url)]));
     rq_delete := λ _ _, Ok 204;
     PreparedRequest := string * list (string * string);
     rq_prepare := λ url _, Ok (url, []);
     prepared_body := λ _, "multipart body";
     prepared_set_header := λ prepared key value,
       (prepared.1, (key, value) :: prepared.2);
     prepared_get_header := λ prepared key,
       snd <$> find (λ header, String.eqb header.1 key) prepared.2;
     rq_send := λ prepared,
       match find (λ header, String.eqb header.1 "Authorization") prepared.2 with
       | Some (_, "C2") => Ok 204
       | _ => Ok 401
       end;
     tarfile_open := λ file,
       if String.eqb file "archive of a package" then Ok sample_package
       else if String.eqb file "archive with a lone file" then Ok sample_lone_file
       else if String.eqb file "archive with a member below a file"
       then Ok sample_file_as_directory
       else if String.eqb file "archive of a nested file" then Ok sample_nested_file
       else Raise ReadError;
     tarfile_library := sample_tarfile;
     get_installed_package := λ _ pkg, Ok (JDict [("name", JStr pkg)]);
     OrderedListOfDict_batch_insert := λ content new, Ok (content ++ new);
     OrderedListOfDict_delete := λ content _, Ok content;
     rmtree := λ fs _, fs;
     str_internal_error := sample_error_text;
     str_library_error := sample_error_text |}.

(** A multipart upload signed by the Client whose Digest matches its
    body, with the archive as the file part [packages]. *)
Definition upload_request (data archive : string) : Request :=
  {| method := "PATCH"; path := "/test_sets"; query_string := ""; args := [];
     headers := λ h, if String.eqb h "Digest" then Some ("sha-256=" +:+ data)
                     else if String.eqb h "Authorization" then Some "Client"
                     else None;
     mimetype := "multipart/form-data"; get_data := data;
     files := [("packages", archive)] |}.

(** The sample deployment after the environment 10.0.0.5:5000 has
    registered. *)
Definition registered_state (externals : Externals) : State :=
  (@handle externals (PostEnvironments 1700000000)
     (post_environments "registration with a string port") initial).2.

(** The sample deployment after a second registration of that
    environment. *)
Definition reregistered_state (externals : Externals) : State :=
  (@handle externals (PostEnvironments 1700000060)
     (post_environments "registration with a string port")
     (registered_state externals)).2.


(** * Properties *)

(** ** Time stamps of the session table *)

Lemma all_from_spec fuel : ∀ i P, all_from fuel i P = true →
  ∀ k, i ≤ k < i + Z.of_nat fuel → P k = true.
Proof.
  induction fuel as [|fuel IH]; intros i P Hall k Hk; [lia|].
  simpl in Hall. apply andb_true_iff in Hall as [Hi Hrest].
  destruct (decide (k = i)) as [->|Hne]; [done|].
  apply (IH (i + 1) P Hrest). lia.
Qed.

Lemma all_below n P : all_from (Z.to_nat n) 0 P = true →
  ∀ k, 0 ≤ k < n → P k = true.
Proof. intros Hall k Hk. apply (all_from_spec _ _ _ Hall). lia. Qed.

Lemma zero_padded_2 n : 0 ≤ n < 100 → two_digits (zero_padded 2 n) = true.
Proof.
  intros Hn. apply (all_below 100 (λ n, two_digits (zero_padded 2 n))); [|lia].
  vm_compute. reflexivity.
Qed.

Lemma zero_padded_4 n : 0 ≤ n < 10000 → four_digits (zero_padded 4 n) = true.
Proof.
  intros Hn. apply (all_below 10000 (λ n, four_digits (zero_padded 4 n))); [|lia].
  vm_compute. reflexivity.
Qed.

Lemma civil_from_days_doe days :
  civil_from_days days =
  let '(yo, m, d) := civil_of_doe ((days + 719468) mod 146097) in
  (yo + (days + 719468) / 146097 * 400, m, d).
Proof. unfold civil_from_days, civil_of_doe. cbv zeta. f_equal. f_equal. lia. Qed.

Lemma doe_ok_all doe : 0 ≤ doe < 146097 → doe_ok doe = true.
Proof.
  intros Hd. apply (all_below 146097 doe_ok); [|lia].
  vm_compute. reflexivity.
Qed.

Lemma two_digits_inv s : two_digits s = true →
  ∃ a b, s = String a (String b "") ∧ is_digit a = true ∧ is_digit b = true.
Proof.
  destruct s as [|a [|b [|]]]; simpl; try discriminate.
  intros [? ?]%andb_true_iff. eauto.
Qed.

Lemma four_digits_inv s : four_digits s = true →
  ∃ a b c d, s = String a (String b (String c (String d "")))
    ∧ is_digit a = true ∧ is_digit b = true ∧ is_digit c = true ∧ is_digit d = true.
Proof.
  destruct s as [|a [|b [|c [|d [|]]]]]; simpl; try discriminate.
  intros [[[? ?]%andb_true_iff ?]%andb_true_iff ?]%andb_true_iff.
  eauto 10.
Qed.

Lemma civil_from_days_range t :
  -62167219200 ≤ t ≤ 253402300799 →
  let '(y, m, d) := civil_from_days (t / 86400) in
  0 ≤ y < 10000 ∧ 0 ≤ m < 100 ∧ 0 ≤ d < 100.
Proof.
  intros Ht. rewrite civil_from_days_doe.
  set (z := t / 86400 + 719468).
  assert (Hz : -60 ≤ z ≤ 3652364).
  { unfold z. split.
    - apply (Z.le_trans _ (-62167219200 / 86400 + 719468)); [done|].
      apply Z.add_le_mono_r, Z.div_le_mono; lia.
    - apply (Z.le_trans _ (253402300799 / 86400 + 719468)); [|done].
      apply Z.add_le_mono_r, Z.div_le_mono; lia. }
  clearbody z.
  pose proof (Z.mod_pos_bound z 146097 eq_refl) as Hdoe.
  pose proof (doe_ok_all _ Hdoe) as Hok.
  pose proof (Z.div_mod z 146097 ltac:(lia)) as Hdm.
  unfold doe_ok in Hok.
  destruct (civil_of_doe (z mod 146097)) as [[yo m] d].
  repeat (apply andb_true_iff in Hok as [Hok ?]).
  assert (-1 ≤ z / 146097 < 25) as Hera.
  { split.
    - apply Z.div_le_lower_bound; lia.
    - apply Z.div_lt_upper_bound; lia. }
  destruct (Z.ltb_spec (z mod 146097) 146037); lia.
Qed.

Lemma strftime_iso_shape t :
  -62167219200 ≤ t ≤ 253402300799 →
  ∃ s, strftime_iso t = Some s ∧ is_iso8601 s = true.
Proof.
  intros Ht. unfold strftime_iso.
  replace ((-62167219200 <=? t) && (t <=? 253402300799)) with true
    by (symmetry; apply andb_true_iff; split; apply Z.leb_le; lia).
  pose proof (civil_from_days_range t Ht) as Hciv.
  destruct (civil_from_days (t / 86400)) as [[y m] d].
  destruct Hciv as (Hy & Hm & Hd).
  pose proof (Z.mod_pos_bound t 86400 eq_refl) as Hsecs.
  set (secs := t mod 86400) in *.
  assert (Hh : 0 ≤ secs / 3600 < 100).
  { split; [apply Z.div_pos; lia | apply Z.div_lt_upper_bound; lia]. }
  assert (Hmi : 0 ≤ secs mod 3600 / 60 < 100).
  { pose proof (Z.mod_pos_bound secs 3600 eq_refl).
    split; [apply Z.div_pos; lia | apply Z.div_lt_upper_bound; lia]. }
  assert (Hs : 0 ≤ secs mod 60 < 100).
  { pose proof (Z.mod_pos_bound secs 60 eq_refl). lia. }
  destruct (four_digits_inv _ (zero_padded_4 y Hy)) as (y1 & y2 & y3 & y4 & -> & ? & ? & ? & ?).
  destruct (two_digits_inv _ (zero_padded_2 m Hm)) as (m1 & m2 & -> & ? & ?).
  destruct (two_digits_inv _ (zero_padded_2 d Hd)) as (d1 & d2 & -> & ? & ?).
  destruct (two_digits_inv _ (zero_padded_2 _ Hh)) as (h1 & h2 & -> & ? & ?).
  destruct (two_digits_inv _ (zero_padded_2 _ Hmi)) as (n1 & n2 & -> & ? & ?).
  destruct (two_digits_inv _ (zero_padded_2 _ Hs)) as (e1 & e2 & -> & ? & ?).
  eexists. split; [reflexivity|].
  unfold is_iso8601. simpl.
  repeat match goal with H : is_digit _ = true |- _ => rewrite H; clear H end.
  reflexivity.
Qed.

(** ** The test framework library and the reference plugin *)

Lemma test_conforming {Self} name description (method : Self → result pyobj) self r code info :
  method self = Ok r → conforming r = Some (code, info) →
  test name description method self = Ok (contract_report name description code info).
Proof.
  intros Hm Hc. unfold test. rewrite Hm. simpl.
  destruct r as [| b | n | s | items | items | items]; simpl in Hc; try discriminate.
  - inversion Hc; subst. reflexivity.
  - inversion Hc; subst. reflexivity.
  - destruct items as [|c [|d rest]]; try discriminate.
    destruct d; try discriminate.
    destruct rest; try discriminate.
    destruct (isinstance_int c) eqn:Hi; [|discriminate].
    inversion Hc; subst. simpl. rewrite Hi. reflexivity.
Qed.

Lemma test_violation {Self} name description (method : Self → result pyobj) self r :
  method self = Ok r → conforming r = None →
  ∃ msg, test name description method self = Raise (InvalidTestMethod msg).
Proof.
  intros Hm Hc. unfold test. rewrite Hm.
  change (Ok r ≫= ?k) with (k r). cbv beta.
  destruct r as [| b | n | s | items | items | items]; simpl in Hc; try discriminate;
    [simpl; eauto..| |simpl; eauto|simpl; eauto].
  destruct items as [|c [|d [|e items]]]; [simpl; eauto..|].
  - cbn. destruct (isinstance_int c) eqn:Hi; simpl; eauto.
    destruct d; simpl; eauto. discriminate.
  - assert ((Z.of_nat (length (c :: d :: e :: items)) =? 2) = false) as Hlen.
    { apply Z.eqb_neq. simpl length. lia. }
    cbn [isinstance_int isinstance_tuple negb len]. rewrite Hlen. simpl. eauto.
Qed.

Lemma call_report self m :
  is_test_method m = true → returns_or_violates m →
  match report_of m with
  | Some rep => call self m = Ok rep
  | None => ∃ msg, call self m = Raise (InvalidTestMethod msg)
  end.
Proof.
  destruct m as [name description raw| |v]; try discriminate.
  intros _ Hraw. simpl in *.
  destruct raw as [r|e].
  - destruct (conforming r) as [[code info]|] eqn:Hc.
    + by eapply test_conforming.
    + by eapply test_violation.
  - destruct Hraw as [msg ->]. by exists msg.
Qed.

Lemma run_loop_reports self tests : ∀ results out,
  Forall (λ p, is_test_method p.2 = true ∧ returns_or_violates p.2) tests →
  run_loop self tests results out
  = (Ok (results ++ omap (λ p, report_of p.2) tests),
     out ++ omap (λ p, logged self p.2) tests).
Proof.
  induction tests as [|[n m] tests IH]; intros results out Hall.
  - simpl. by rewrite !app_nil_r.
  - apply Forall_cons in Hall as [[Ht Hr] Hall]. simpl in *.
    pose proof (call_report self m Ht Hr) as Hcall. unfold logged at 1.
    destruct (report_of m) as [rep|].
    + rewrite Hcall, (IH (results ++ [rep]) out Hall). by rewrite <- app_assoc.
    + destruct Hcall as [msg ->]. rewrite (IH _ _ Hall). by rewrite <- app_assoc.
Qed.

Lemma getmembers_tests self :
  Forall (λ p, returns_or_violates p.2) (members self) →
  Forall (λ p, is_test_method p.2 = true ∧ returns_or_violates p.2)
    (getmembers self is_test_method).
Proof.
  intros Hall. unfold getmembers. apply Forall_forall. intros p Hp.
  apply list_elem_of_filter in Hp as [Ht Hp].
  split; [by destruct (is_test_method p.2)|].
  rewrite merge_sort_Permutation in Hp.
  by apply (proj1 (Forall_forall _ _) Hall).
Qed.

(** C5.  For every test-set instance whose test methods return an object
    or raise [InvalidTestMethod], [run] returns the reports of exactly the
    marked test methods that satisfy the return contract, in the order of
    [inspect.getmembers]; a method whose wrapped call raises
    [InvalidTestMethod] is logged (its message is printed) and omitted, and
    the remaining tests are still executed.  In particular a set whose marked
    methods are one that returns an [int] and one that returns a string yields
    exactly one report, that of the former. *)
Theorem run_reports_conforming (self : TestSet) :
  Forall (λ p, returns_or_violates p.2) (members self) →
  run self
  = (Ok (omap (λ p, report_of p.2) (getmembers self is_test_method)),
     omap (λ p, logged self p.2) (getmembers self is_test_method))
  ∧ ∀ t_ok t_bad name description code name' description' text,
      getmembers self is_test_method ≡ₚ [t_ok; t_bad] →
      t_ok.2 = TestMethod name description (Ok (PyInt code)) →
      t_bad.2 = TestMethod name' description' (Ok (PyStr text)) →
      (run self).1 = Ok [contract_report name description (PyInt code) None].
Proof.
  intros Hall.
  assert (Hrun : run self
    = (Ok (omap (λ p, report_of p.2) (getmembers self is_test_method)),
       omap (λ p, logged self p.2) (getmembers self is_test_method))).
  { unfold run. by rewrite run_loop_reports by by apply getmembers_tests. }
  split; [exact Hrun|].
  intros [a ma] [b mb] name description code name' description' text Hperm Hok Hbad.
  simpl in Hok, Hbad. subst ma mb. rewrite Hrun. simpl.
  destruct (getmembers self is_test_method) as [|x [|y [|z l]]] eqn:Hg;
    try (apply Permutation_length in Hperm; discriminate).
  apply Permutation_length_2 in Hperm as [[-> ->]|[-> ->]]; reflexivity.
Qed.

(** C4.  For a method decorated with [test(name, description)] whose body
    returns [r]: if [r] is a bare [int], the wrapped call returns a report
    with [result_code = r], [test_name = name], [test_description =
    description] and no [additional_info] key; if [r] is a pair of an [int]
    [n] and a [dict] [d], the report has [result_code = n] and in addition
    [additional_info = d]; for any other [r] the wrapped call raises
    [InvalidTestMethod]. *)
Theorem test_wrapper_contract {Self : Type} (name description : string)
    (method : Self → result pyobj) (self : Self) (r : pyobj) :
  method self = Ok r →
  (isinstance_int r = true →
     ∃ report, test name description method self = Ok report
       ∧ report !! "result_code" = Some r
       ∧ report !! "test_name" = Some (PyStr name)
       ∧ report !! "test_description" = Some (PyStr description)
       ∧ report !! "additional_info" = None
       ∧ size report = 3%nat)
  ∧ (∀ n d, r = PyTuple [n; PyDict d] → isinstance_int n = true →
     ∃ report, test name description method self = Ok report
       ∧ report !! "result_code" = Some n
       ∧ report !! "test_name" = Some (PyStr name)
       ∧ report !! "test_description" = Some (PyStr description)
       ∧ report !! "additional_info" = Some (PyDict d)
       ∧ size report = 4%nat)
  ∧ (isinstance_int r = false →
     (∀ n d, r = PyTuple [n; PyDict d] → isinstance_int n = false) →
     ∃ msg, test name description method self = Raise (InvalidTestMethod msg)).
Proof.
  intros Hm. split; [|split].
  - intros Hint. exists (contract_report name description r None).
    split; [|by repeat split].
    eapply test_conforming; [exact Hm|]. by destruct r.
  - intros n d -> Hint. exists (contract_report name description n (Some (PyDict d))).
    split; [|by repeat split].
    eapply test_conforming; [exact Hm|]. simpl. by rewrite Hint.
  - intros Hint Hpair. apply (test_violation _ _ _ _ r Hm).
    destruct r as [| | | |items| |]; try done.
    destruct items as [|n [|d [|]]]; try done; [|by destruct d].
    destruct d; try done. simpl. by rewrite (Hpair n items eq_refl).
Qed.

(** C4 on a method that returns the bare integer 1. *)
Lemma test_wrapper_contract_witness :
  ∃ report, test "probe" "a probe" (λ _ : (), Ok (PyInt 1)) () = Ok report
    ∧ report !! "result_code" = Some (PyInt 1)
    ∧ report !! "test_name" = Some (PyStr "probe")
    ∧ report !! "test_description" = Some (PyStr "a probe")
    ∧ report !! "additional_info" = None
    ∧ size report = 3%nat.
Proof.
  apply (test_wrapper_contract "probe" "a probe" (λ _ : (), Ok (PyInt 1)) ()
           (PyInt 1) eq_refl).
  reflexivity.
Defined.

Lemma member_is_package_spec tar m :
  isdir m && member_is_package tar m = true ↔ package tar m.
Proof.
  unfold package, isdir, member_is_package, getmember.
  rewrite andb_true_iff. split.
  - intros [Hd Hp]. split; [by destruct (type m)|].
    destruct (find _ (rev tar)) as [marker|] eqn:Hf; [|done].
    apply find_some in Hf as [Hin Heq]. exists marker. split.
    + apply list_elem_of_In. by apply in_rev.
    + by apply String.eqb_eq.
  - intros [-> (marker & Hin & Hname)]. split; [done|].
    destruct (find _ (rev tar)) as [x|] eqn:Hf; [done|].
    eapply find_none in Hf.
    + apply String.eqb_neq in Hf. done.
    + apply in_rev. rewrite rev_involutive. by apply list_elem_of_In.
Qed.

Lemma split_on_go_length s : ∀ cur,
  Z.of_nat (length (split_on_go "/" cur s)) = 1 + count_slash s.
Proof.
  induction s as [|c s IH]; intros cur; simpl; [done|].
  destruct (Ascii.eqb c "/"); [|by rewrite IH].
  cbn [length]. rewrite Nat2Z.inj_succ, IH. lia.
Qed.

Lemma resolve_plain_go components : ∀ path,
  Forall (λ c, String.eqb c "" || String.eqb c "." || String.eqb c ".." = false)
         components →
  foldl (λ path c, if String.eqb c "" || String.eqb c "." then path
                   else if String.eqb c ".." then removelast path
                   else path ++ [c]) path components
  = path ++ components.
Proof.
  induction components as [|c components IH]; intros path Hall; simpl.
  - by rewrite app_nil_r.
  - apply Forall_cons in Hall as [Hc Hall].
    apply orb_false_iff in Hc as [Hc ->]. rewrite Hc.
    rewrite (IH _ Hall). by rewrite <- app_assoc.
Qed.

(** Among plain names the top-level ones are those without a slash, which
    is the test of the validation loop. *)
Lemma top_level_plain m :
  plain (name m) → top_level m ↔ count_slash (name m) = 0.
Proof.
  intros Hplain. unfold top_level, resolve.
  rewrite (resolve_plain_go _ [] Hplain). cbn [app].
  pose proof (split_on_go_length (name m) "") as Hlen.
  unfold split_on. lia.
Qed.

Lemma check_members_accepts `{Tarfile} tar rest : ∀ new_packages,
  Forall (λ m, plain (name m)) rest →
  Forall (λ m, top_level m → package tar m) rest →
  check_members tar rest new_packages
  = Ok (new_packages ++ (name <$> filter top_level rest)).
Proof.
  induction rest as [|m rest IH]; intros acc Hplain Hall; simpl.
  - by rewrite app_nil_r.
  - apply Forall_cons in Hall as [Hm Hall].
    apply Forall_cons in Hplain as [Hp Hplain].
    rewrite filter_cons.
    destruct (Z.eqb_spec (count_slash (name m)) 0) as [Ht|Ht].
    + apply (top_level_plain m Hp) in Ht.
      rewrite (proj2 (member_is_package_spec tar m) (Hm Ht)). simpl.
      rewrite (IH _ Hplain Hall). rewrite decide_True by done.
      by rewrite <- app_assoc.
    + rewrite decide_False by (by rewrite (top_level_plain m Hp)).
      by apply IH.
Qed.

Lemma check_members_rejects `{Tarfile} tar rest : ∀ new_packages,
  Forall (λ m, plain (name m)) rest →
  Exists (λ m, top_level m ∧ ¬ package tar m) rest →
  ∃ m, m ∈ rest ∧ top_level m ∧ ¬ package tar m
       ∧ check_members tar rest new_packages = Raise (not_a_package m).
Proof.
  induction rest as [|m rest IH]; intros acc Hplain Hex;
    [by apply Exists_nil in Hex|].
  apply Forall_cons in Hplain as [Hp Hplain].
  simpl. destruct (Z.eqb_spec (count_slash (name m)) 0) as [Ht|Ht].
  - apply (top_level_plain m Hp) in Ht.
    destruct (isdir m && member_is_package tar m) eqn:Hpk; simpl.
    + apply Exists_cons in Hex as [[_ Hn]|Hex].
      { by apply member_is_package_spec in Hpk. }
      destruct (IH (acc ++ [name m]) Hplain Hex) as (m' & Hin & Htop & Hno & Heq).
      exists m'. split; [by apply list_elem_of_further|done].
    + exists m. split; [apply list_elem_of_here|]. split; [done|].
      split; [|done]. intros Hpkg. apply member_is_package_spec in Hpkg.
      by rewrite Hpkg in Hpk.
  - apply Exists_cons in Hex as [[Ht' _]|Hex].
    { by apply (top_level_plain m Hp) in Ht'. }
    destruct (IH acc Hplain Hex) as (m' & Hin & Htop & Hno & Heq).
    exists m'. split; [by apply list_elem_of_further|done].
Qed.

(** C1, as [test_utils] implements it.  For every opened gzip tar archive
    [tar] whose member names are written plainly, every destination root
    and every [tarfile] library: if some top-level member is not a directory
    with a package marker (a member named [<name>/__init__.py]),
    [uncompress_test_packages] raises the [ValueError] that names such a
    member, [extractall] is not called and the file system is left as it
    was; if every top-level member is such a directory, [extractall] is
    called once, for the whole archive and the root: when it returns, the
    returned list is exactly the names of the top-level members, in archive
    order, and when it raises, its error is the outcome; in both cases the
    file system is the one that [extractall] has left. *)
Theorem uncompress_all_or_nothing `{Tarfile} (tar : TarFile) (tests_root : string)
    (fs : gmap string fnode) :
  Forall (λ m, plain (name m)) tar →
  (Exists (λ m, top_level m ∧ ¬ package tar m) tar →
     ∃ m, m ∈ tar ∧ top_level m ∧ ¬ package tar m
          ∧ uncompress_test_packages (Ok tar) tests_root fs
            = (Raise (not_a_package m), fs))
  ∧ (Forall (λ m, top_level m → package tar m) tar →
     uncompress_test_packages (Ok tar) tests_root fs
     = (match (tar_extractall tar tests_root fs).1 with
        | Ok _ => Ok (name <$> filter top_level tar)
        | Raise e => Raise e
        end,
        (tar_extractall tar tests_root fs).2)).
Proof.
  intros Hplain. unfold uncompress_test_packages. split.
  - intros Hex.
    destruct (check_members_rejects tar tar [] Hplain Hex)
      as (m & Hin & Htop & Hno & ->).
    by exists m.
  - intros Hall. rewrite (check_members_accepts tar tar [] Hplain Hall).
    by destruct (tar_extractall tar tests_root fs) as [[[]|e] fs'].
Qed.

Lemma scan_found before line after : ∀ cur,
  Forall (λ l, String.prefix "TracerPid" l = false) before →
  String.prefix "TracerPid" line = true →
  scan (before ++ line :: after) cur = Some line.
Proof.
  induction before as [|l before IH]; intros cur Hb Hl; simpl.
  - by rewrite Hl.
  - apply Forall_cons in Hb as [-> Hb]. by apply IH.
Qed.

(** C10.  Whatever /proc/self/status holds, an object returned by the
    plugin's test is the pair of a result code and [{found_pid: pid}], with
    code 1 when [pid] is 0 and -1 otherwise.  When the status file has a line
    that starts with [TracerPid], whose last field reads as the integer
    [pid], the test returns that pair for that [pid], and [run] on the
    [MonitoringSet] reports it with [additional_info = {found_pid: pid}]; the
    code is 1 exactly when [pid = 0] and -1 exactly when [pid <> 0]. *)
Theorem is_tracer_attached_result :
  (∀ proc_self_status v,
     is_tracer_attached_body proc_self_status = Ok v → ∃ pid, v = tracer_result pid)
  ∧ (∀ before line after field pid,
       Forall (λ l, String.prefix "TracerPid" l = false) before →
       String.prefix "TracerPid" line = true →
       last (py.split line) = Some field →
       int_of_str field = Ok pid →
       let f := Ok (before ++ line :: after) in
       is_tracer_attached_body f = Ok (tracer_result pid)
       ∧ (run (MonitoringSet f)).1
         = Ok [contract_report "Is tracer attached?"
                 "Looks for a TracerPid different than 0."
                 (PyInt (if pid =? 0 then 1 else -1))
                 (Some (PyDict [("found_pid", PyInt pid)]))]
       ∧ ((if pid =? 0 then 1 else -1) = 1 ↔ pid = 0)
       ∧ ((if pid =? 0 then 1 else -1) = -1 ↔ pid ≠ 0)).
Proof.
  split.
  - intros status v. unfold is_tracer_attached_body.
    destruct status as [f|e]; [|done]. simpl.
    destruct (scan f None) as [line|]; [|done]. simpl.
    destruct (last_field line) as [w|]; [|done]. simpl.
    destruct (int_of_str w) as [pid|]; [|done]. simpl.
    intros [= <-]. by exists pid.
  - intros before line after field pid Hb Hl Hf Hp f.
    assert (Hbody : is_tracer_attached_body f = Ok (tracer_result pid)).
    { unfold is_tracer_attached_body, f. simpl.
      rewrite (scan_found before line after None Hb Hl). simpl.
      unfold last_field. rewrite Hf. simpl. by rewrite Hp. }
    split; [exact Hbody|]. split; [|destruct (Z.eqb_spec pid 0); lia].
    unfold run.
    replace (getmembers (MonitoringSet f) is_test_method)
      with [("is_tracer_attached",
             TestMethod "Is tracer attached?"
               "Looks for a TracerPid different than 0."
               (is_tracer_attached_body f))] by reflexivity.
    cbn [run_loop call]. unfold test. rewrite Hbody. reflexivity.
Qed.

(** C10 on a status file of a process that is not traced. *)
Lemma is_tracer_attached_result_witness :
  let f := Ok (["Name:" +:+ tab +:+ "python3" +:+ newline;
                "State:" +:+ tab +:+ "R (running)" +:+ newline]
               ++ ("TracerPid:" +:+ tab +:+ "0" +:+ newline)
               :: ["Uid:" +:+ tab +:+ "1000" +:+ newline]) in
  is_tracer_attached_body f = Ok (tracer_result 0)
  ∧ (run (MonitoringSet f)).1
    = Ok [contract_report "Is tracer attached?"
            "Looks for a TracerPid different than 0."
            (PyInt 1) (Some (PyDict [("found_pid", PyInt 0)]))]
  ∧ (1 = 1 ↔ 0 = 0)
  ∧ (1 = -1 ↔ 0 ≠ 0).
Proof.
  apply (proj2 is_tracer_attached_result
           ["Name:" +:+ tab +:+ "python3" +:+ newline;
            "State:" +:+ tab +:+ "R (running)" +:+ newline]
           ("TracerPid:" +:+ tab +:+ "0" +:+ newline)
           ["Uid:" +:+ tab +:+ "1000" +:+ newline] "0" 0).
  - repeat constructor.
  - reflexivity.
  - reflexivity.
  - reflexivity.
Defined.

(** C1 on two archives and the sample library: one with a lone
    top-level file, which is rejected with nothing extracted, and one
    package, which is extracted. *)
Lemma uncompress_all_or_nothing_witness :
  Forall (λ m, plain (name m)) sample_lone_file
  ∧ Forall (λ m, plain (name m)) sample_package
  ∧ @uncompress_test_packages sample_tarfile (Ok sample_lone_file)
      "/srv/c2/test_sets" ∅
    = (Raise (ValueError "Found top level member <TarInfo 'notes.txt' at 0x7f3a5c0b2e80> is not a package."),
       ∅)
  ∧ @uncompress_test_packages sample_tarfile (Ok sample_package)
      "/srv/c2/test_sets" ∅
    = (Ok ["linux"],
       {[ "/srv/c2/test_sets/linux" := Dir;
          "/srv/c2/test_sets/linux/__init__.py" := File "";
          "/srv/c2/test_sets/linux/linux.py" := File "class MonitoringSet" ]}).
Proof.
  assert (Forall (λ m, plain (name m)) sample_lone_file) as Hlone
    by (repeat constructor).
  assert (Forall (λ m, plain (name m)) sample_package) as Hpackage
    by (repeat constructor).
  split; [exact Hlone|]. split; [exact Hpackage|]. split.
  - destruct (proj1 (@uncompress_all_or_nothing sample_tarfile sample_lone_file
                       "/srv/c2/test_sets" ∅ Hlone)) as (m & Hin & Htop & Hno & ->).
    { apply Exists_cons_tl, Exists_cons_tl, Exists_cons_hd.
      split; [reflexivity|]. intros [Hdir _]. discriminate Hdir. }
    apply elem_of_cons in Hin as [->|Hin].
    { exfalso. apply Hno. split; [reflexivity|].
      exists {| name := "linux/__init__.py"; type := REGTYPE; data := "" |}.
      split; [|reflexivity]. apply list_elem_of_further, list_elem_of_here. }
    apply elem_of_cons in Hin as [->|Hin]; [discriminate Htop|].
    apply elem_of_cons in Hin as [->|Hin]; [reflexivity|].
    by apply elem_of_nil in Hin.
  - rewrite (proj2 (@uncompress_all_or_nothing sample_tarfile sample_package
                      "/srv/c2/test_sets" ∅ Hpackage)).
    + vm_compute. reflexivity.
    + apply Forall_cons. split.
      { intros _. split; [reflexivity|].
        exists {| name := "linux/__init__.py"; type := REGTYPE; data := "" |}.
        split; [|reflexivity]. apply list_elem_of_further, list_elem_of_here. }
      apply Forall_cons. split; [intros Htop; discriminate Htop|].
      apply Forall_cons. split; [intros Htop; discriminate Htop|].
      apply Forall_nil_2.
Defined.

(** C1 fails as stated, on the sample library.  The archive of the lone
    file [./notes.txt] has a top-level member that is not a directory, yet
    the call returns the empty list and the file is written: the validation
    takes a name with a slash for a member below the top.  The archive of a
    package with a member below its [__init__.py] passes the validation,
    yet the call raises the [OSError] of the extraction with the first two
    members written: the archive is not extracted as a whole, and no list is
    returned. *)
Lemma uncompress_is_not_all_or_nothing :
  (∃ m, m ∈ sample_dot_file ∧ top_level m ∧ ¬ package sample_dot_file m)
  ∧ @uncompress_test_packages sample_tarfile (Ok sample_dot_file)
      "/srv/c2/test_sets" ∅
    = (Ok [], {[ "/srv/c2/test_sets/notes.txt" := File "not a package" ]})
  ∧ Forall (λ m, top_level m → package sample_file_as_directory m)
      sample_file_as_directory
  ∧ @uncompress_test_packages sample_tarfile (Ok sample_file_as_directory)
      "/srv/c2/test_sets" ∅
    = (Raise OSError,
       {[ "/srv/c2/test_sets/linux" := Dir;
          "/srv/c2/test_sets/linux/__init__.py" := File "" ]}).
Proof.
  split.
  { eexists. split; [apply list_elem_of_here|]. split; [reflexivity|].
    intros [Hdir _]. discriminate Hdir. }
  split; [vm_compute; reflexivity|]. split; [|vm_compute; reflexivity].
  apply Forall_cons. split.
  { intros _. split; [reflexivity|].
    exists {| name := "linux/__init__.py"; type := REGTYPE; data := "" |}.
    split; [|reflexivity]. apply list_elem_of_further, list_elem_of_here. }
  apply Forall_cons. split; [intros Htop; discriminate Htop|].
  apply Forall_cons. split; [intros Htop; discriminate Htop|].
  apply Forall_nil_2.
Qed.

(** C5 on a set with one conforming and one non-conforming test. *)
Lemma run_reports_conforming_witness :
  run sample_test_set
  = (Ok [contract_report "Code" "Returns an int." (PyInt 1) None],
     ["Invalid return type."]).
Proof.
  apply (proj1 (run_reports_conforming sample_test_set
                  ltac:(repeat constructor))).
Defined.

(** ** The C2 service *)

Section facts.
Context `{Externals}.

Ltac run_binds :=
  cbv beta iota delta [mbind view_bind result_bind lift mret view_ret result_ret].

Lemma add_environment_eq req now st :
  add_environment req now st =
  match registration req with
  | Ok (ip, port, to_insert) => register ip port to_insert now st
  | Raise e => (Raise e, st)
  end.
Proof.
  unfold add_environment, registration.
  destruct (check_digest_header req) as [[]|]; [run_binds|reflexivity].
  destruct (check_authorization_header _ _ req) as [[]|]; [run_binds|reflexivity].
  destruct (check_is_json req) as [[]|]; [run_binds|reflexivity].
  destruct (request_json req) as [body|]; [run_binds|reflexivity].
  destruct (has_required_keys body) as [[]|]; [run_binds|reflexivity..].
  destruct (getitem body "ip") as [ip|]; [run_binds|reflexivity].
  destruct (getitem body "port") as [port|]; [run_binds|reflexivity].
  destruct (getitem body "platform_info") as [pinfo|]; [run_binds|reflexivity].
  destruct (to_insert_of ip port pinfo) as [ti|]; reflexivity.
Qed.

Lemma handle_exception_status e : status_code (handle_exception e) = status_of e.
Proof. by destruct e. Qed.

Lemma handle_exception_body e :
  ∃ msg, response (handle_exception e) = Jsonify (JDict [("error", JStr msg)]).
Proof. destruct e; simpl; eauto. Qed.

Lemma internal_status e : internal e → status_of e = 500.
Proof. by destruct e. Qed.

Lemma raises_only_bind {A B} P (r : result A) (k : A → result B) :
  raises_only P r → (∀ a, r = Ok a → raises_only P (k a)) → raises_only P (r ≫= k).
Proof. destruct r; simpl; eauto. Qed.

Lemma raises_only_weaken {A} (P Q : exn → Prop) (r : result A) :
  (∀ e, P e → Q e) → raises_only P r → raises_only Q r.
Proof. destruct r; simpl; eauto. Qed.

Lemma contains_internal k v : raises_only internal (contains k v).
Proof. by destruct v. Qed.

Lemma getitem_internal v k : raises_only internal (getitem v k).
Proof. destruct v; simpl; try done. by destruct (dict_get k items). Qed.

Lemma getindex_internal v i : raises_only internal (getindex v i).
Proof.
  destruct v; simpl; try done.
  - by destruct (String.get i s).
  - by destruct (items !! i).
Qed.

Lemma int_of_str_internal s : raises_only internal (int_of_str s).
Proof. unfold int_of_str. by destruct (match strip s with "" => _ | _ => _ end). Qed.

Lemma int_internal v : raises_only internal (int v).
Proof. destruct v; simpl; try done. apply int_of_str_internal. Qed.

Lemma to_key_internal v : raises_only internal (to_key v).
Proof. by destruct v. Qed.

Lemma adapt_internal v : raises_only internal (adapt v).
Proof. destruct v; simpl; try done. by destruct (_ && _). Qed.

Lemma text_not_null_internal v : raises_only internal (text_not_null v).
Proof. by destruct v. Qed.

Lemma integer_not_null_internal v : raises_only internal (integer_not_null v).
Proof. by destruct v. Qed.

Lemma has_required_keys_internal body : raises_only internal (has_required_keys body).
Proof.
  unfold has_required_keys.
  apply raises_only_bind; [apply contains_internal|]. intros [] _; [|done].
  apply raises_only_bind; [apply contains_internal|]. intros [] _; [|done].
  apply contains_internal.
Qed.

Lemma to_insert_of_internal ip port pinfo :
  raises_only internal (to_insert_of ip port pinfo).
Proof.
  unfold to_insert_of.
  repeat first
    [ apply raises_only_bind; [|intros ? _]
    | apply int_internal | apply getitem_internal | apply getindex_internal ].
  done.
Qed.

Ltac gate := unfold gate_status; simpl; intuition.

Lemma check_digest_header_status req :
  raises_only (gate_status [400; 500]) (check_digest_header req).
Proof.
  unfold check_digest_header.
  destruct (headers req "Digest") as [value|]; [|gate].
  destruct (negb (String.prefix "sha-256=" value)); [gate|].
  destruct (after_equals value) as [given|e] eqn:Hg; simpl.
  - destruct (negb _); gate.
  - assert (internal e) as He.
    { clear -Hg. induction value as [|c value IH]; simpl in Hg; [by inversion Hg|].
      destruct (Ascii.eqb c "="); [done|auto]. }
    unfold gate_status. rewrite internal_status by done. gate.
Qed.

Lemma check_authorization_header_status kr mandatory req :
  raises_only (gate_status [401]) (check_authorization_header kr mandatory req).
Proof.
  unfold check_authorization_header.
  destruct (headers req "Authorization") as [value|]; [|gate].
  destruct (verify_authorization_header _ _ _ _ _ _ _) as [[]|[]]; gate.
Qed.

Lemma check_is_json_status req : raises_only (gate_status [415]) (check_is_json req).
Proof. unfold check_is_json. destruct (negb _); gate. Qed.

Lemma request_json_status req : raises_only (gate_status [400]) (request_json req).
Proof. unfold request_json. destruct (json_loads _); gate. Qed.

Lemma internal_gate_status e : internal e → gate_status [400; 401; 415; 500] e.
Proof. intros He. unfold gate_status. rewrite internal_status by done. gate. Qed.

Lemma registration_status req :
  raises_only (gate_status [400; 401; 415; 500]) (registration req).
Proof.
  unfold registration.
  apply raises_only_bind; [|intros _ _].
  { eapply raises_only_weaken, check_digest_header_status. gate. }
  apply raises_only_bind; [|intros _ _].
  { eapply raises_only_weaken, check_authorization_header_status. gate. }
  apply raises_only_bind; [|intros _ _].
  { eapply raises_only_weaken, check_is_json_status. gate. }
  apply raises_only_bind; [|intros body _].
  { eapply raises_only_weaken, request_json_status. gate. }
  apply raises_only_bind; [|intros has _].
  { eapply raises_only_weaken, has_required_keys_internal. apply internal_gate_status. }
  destruct (negb has); [gate|].
  repeat (apply raises_only_bind;
          [eapply raises_only_weaken;
           [apply internal_gate_status
           |first [apply getitem_internal | apply to_insert_of_internal]]
          |intros ? _]).
  done.
Qed.

(** *** The session table only grows *)
Lemma foldr_max_bound (x a : Z) (l : list Z) :
  x = a ∨ x ∈ l → x ≤ foldr Z.max a l.
Proof.
  induction l as [|y l IH]; cbn [foldr].
  - intros [->|Hin%elem_of_nil]; [lia|done].
  - intros [->|[->|Hin]%elem_of_cons]; [specialize (IH (or_introl eq_refl))|..|specialize (IH (or_intror Hin))]; lia.
Qed.

Lemma next_rowid_above rows r : r ∈ rows → id_session r < next_rowid rows.
Proof.
  destruct rows as [|r0 rows]; [by intros ?%elem_of_nil|].
  unfold next_rowid. intros Hin.
  enough (id_session r ≤ foldr Z.max (id_session r0) (id_session <$> rows)) by lia.
  apply foldr_max_bound.
  apply elem_of_cons in Hin as [->|Hin]; [by left|right].
  by apply list_elem_of_fmap_2.
Qed.

Lemma find_new_row rows row :
  id_session row = next_rowid rows →
  find (λ r, id_session r =? next_rowid rows) (rows ++ [row]) = Some row.
Proof.
  intros Hid.
  assert (∀ l, (∀ r, r ∈ l → id_session r < next_rowid rows) →
            find (λ r, id_session r =? next_rowid rows) (l ++ [row]) = Some row) as Hfind.
  { induction l as [|x l IH]; intros Hl; simpl.
    - by rewrite Hid, Z.eqb_refl.
    - rewrite (proj2 (Z.eqb_neq _ _)).
      + apply IH. intros r Hr. apply Hl. by right.
      + specialize (Hl x ltac:(by left)). lia. }
  apply Hfind. intros r. apply next_rowid_above.
Qed.

Lemma insert_session_cases to_insert now st :
  match insert_session to_insert now st with
  | (Ok lastrowid, st') =>
      lastrowid = next_rowid (session st)
      ∧ ∃ row, id_session row = lastrowid ∧ session_start row = now
          ∧ st' = with_session st (session st ++ [row])
  | (Raise e, st') => internal e ∧ st' = st
  end.
Proof.
  unfold insert_session. run_binds.
  pose proof (text_not_null_internal) as Ht.
  pose proof (integer_not_null_internal) as Hi.
  destruct (mapM adapt to_insert) as [params|e] eqn:Hp.
  2:{ split; [|done]. clear -Hp. revert e Hp.
      induction to_insert as [|v l IH]; intros e; simpl; [done|].
      pose proof (adapt_internal v) as Hv. destruct (adapt v); simpl;
        [|by intros [= <-]].
      destruct (mapM adapt l); simpl; [done|]. intros [= <-]. by apply IH. }
  unfold read. run_binds.
  do 14 (destruct params as [|? params]; [done|]).
  destruct params; [|done].
  repeat match goal with
  | |- context [text_not_null ?v] =>
      let Hv := fresh in
      pose proof (Ht v) as Hv; destruct (text_not_null v); [clear Hv|done]
  | |- context [integer_not_null ?v] =>
      let Hv := fresh in
      pose proof (Hi v) as Hv; destruct (integer_not_null v); [clear Hv|done]
  end.
  unfold set_session. run_binds. split; [done|]. eexists. split; [|split].
  3: reflexivity. all: reflexivity.
Qed.

Lemma register_cases ip port to_insert now st :
  match register ip port to_insert now st with
  | (Ok resp, st') =>
      resp = no_content
      ∧ ∃ ip_key port_key row,
          to_key ip = Ok ip_key ∧ to_key port = Ok port_key
          ∧ id_session row = next_rowid (session st) ∧ session_start row = now
          ∧ st' = with_environments (with_session st (session st ++ [row]))
                    (bound (environments st) ip_key port_key
                       (entry (next_rowid (session st)) now))
  | (Raise e, st') =>
      internal e ∧ session st `prefix_of` session st'
      ∧ ((insert_session to_insert now st).1 = Raise e
         ∨ to_key ip = Raise e ∨ to_key port = Raise e)
  end.
Proof.
  unfold register. run_binds.
  pose proof (insert_session_cases to_insert now st) as Hins.
  destruct (insert_session to_insert now st) as [[lastrowid|e] st1];
    [|destruct Hins as [? ->]; repeat split; [done..|by left]].
  destruct Hins as (-> & row & Hid & Hstart & ->).
  pose proof (to_key_internal ip) as Hip.
  destruct (to_key ip) as [ip_key|e]; [clear Hip|].
  2:{ split; [done|]. split; [by apply prefix_app_r|]. right. by left. }
  unfold read, set_environments, select_session_start. run_binds.
  pose proof (to_key_internal port) as Hport.
  pose proof (find_new_row (session st) row Hid) as Hfind.
  match goal with |- context [negb ?b] => destruct b eqn:Hreg end;
    cbn -[find next_rowid strftime_iso insert lookup];
    rewrite Hfind, Hstart;
    (destruct (to_key port) as [port_key|e];
     [clear Hport|split; [done|split; [by apply prefix_app_r|by right; right]]]);
    (split; [done|]); exists ip_key, port_key, row;
    (split; [done|]); (split; [done|]); (split; [done|]); (split; [done|]);
    unfold with_environments, with_session, bound, entry;
    cbn [environments session filesystem available stdout]; f_equal.
  apply bool_decide_eq_false in Hreg. apply eq_None_not_Some in Hreg.
  cbn [environments with_session] in Hreg.
  rewrite Hreg, lookup_insert_eq. cbn [default]. by rewrite insert_insert_eq.
Qed.

Lemma appends_only_bind {A B} (v : view A) (k : A → view B) :
  appends_only v → (∀ a, appends_only (k a)) → appends_only (v ≫= k).
Proof.
  intros Hv Hk st. specialize (Hv st). unfold mbind, view_bind.
  destruct (v st) as [[a|e] st1]; simpl in *; [|done].
  by etrans; [|apply Hk].
Qed.

Lemma appends_only_lift {A} (r : result A) : appends_only (lift r).
Proof. by intros st. Qed.

Lemma appends_only_ret {A} (a : A) : appends_only (mret a).
Proof. by intros st. Qed.

Lemma appends_only_read {A} (f : State → A) : appends_only (read f).
Proof. by intros st. Qed.

Lemma appends_only_set_environments envs : appends_only (set_environments envs).
Proof. by intros st. Qed.

Lemma appends_only_set_filesystem fs : appends_only (set_filesystem fs).
Proof. by intros st. Qed.

Lemma appends_only_set_available content : appends_only (set_available content).
Proof. by intros st. Qed.

Lemma appends_only_print line : appends_only (print line).
Proof. by intros st. Qed.

Lemma appends_only_insert_session to_insert now :
  appends_only (insert_session to_insert now).
Proof.
  intros st. pose proof (insert_session_cases to_insert now st) as Hc.
  destruct (insert_session to_insert now st) as [[id|e] st1]; simpl.
  - destruct Hc as (_ & row & _ & _ & ->). by apply prefix_app_r.
  - by destruct Hc as [_ ->].
Qed.

Ltac appends_only_step :=
  first
    [ apply appends_only_lift | apply appends_only_ret | apply appends_only_read
    | apply appends_only_set_environments | apply appends_only_set_filesystem
    | apply appends_only_set_available | apply appends_only_print
    | apply appends_only_insert_session
    | apply appends_only_bind; [|intros ?]
    | match goal with
      | |- appends_only (if ?b then _ else _) => destruct b
      | |- appends_only (match ?x with _ => _ end) => destruct x
      end ].

Lemma appends_only_describe_packages new_packages :
  ∀ new_info, appends_only (describe_packages new_packages new_info).
Proof.
  induction new_packages as [|p l IH]; intros new_info; simpl.
  - apply appends_only_ret.
  - repeat appends_only_step; apply IH.
Qed.

Lemma appends_only_print_lines lines : appends_only (print_lines lines).
Proof.
  induction lines as [|line lines IH]; simpl.
  - apply appends_only_ret.
  - apply appends_only_bind; [apply appends_only_print|intros _; apply IH].
Qed.

Lemma appends_only_select_session_start id : appends_only (select_session_start id).
Proof. unfold select_session_start. repeat appends_only_step. Qed.

Lemma appends_only_view_function r req : appends_only (view_function r req).
Proof.
  destruct r; simpl;
    unfold is_up, list_environments, add_environment, remove_environment,
      get_environment_info, list_installed_test_sets, install_packages,
      delete_installed_package, execute_tests, list_available_test_sets,
      upload_test_sets, delete_package;
    repeat first [ apply appends_only_describe_packages
                 | apply appends_only_select_session_start
                 | apply appends_only_print_lines
                 | appends_only_step ].
Qed.

Lemma handle_appends_only r req st :
  session st `prefix_of` session (handle r req st).2.
Proof.
  unfold handle, full_dispatch_request.
  pose proof (appends_only_view_function r req st) as Hp.
  by destruct (view_function r req st) as [[resp|e] st1].
Qed.

Lemma request_json_Ok req body :
  request_json req = Ok body ↔ json_loads (get_data req) = Some body.
Proof.
  unfold request_json. destruct (json_loads (get_data req)); split; intros Heq;
    by inversion Heq.
Qed.

Lemma registration_Ok req ip port to_insert :
  registration req = Ok (ip, port, to_insert) ↔
  check_digest_header req = Ok ()
  ∧ check_authorization_header node_key_recoverer ["Digest"] req = Ok ()
  ∧ check_is_json req = Ok ()
  ∧ ∃ body platform_info,
      json_loads (get_data req) = Some body
      ∧ has_required_keys body = Ok true
      ∧ getitem body "ip" = Ok ip
      ∧ getitem body "port" = Ok port
      ∧ getitem body "platform_info" = Ok platform_info
      ∧ to_insert_of ip port platform_info = Ok to_insert.
Proof.
  unfold registration. split.
  - destruct (check_digest_header req) as [[]|]; [|done].
    destruct (check_authorization_header _ _ req) as [[]|]; [|done].
    destruct (check_is_json req) as [[]|]; [|done].
    destruct (request_json req) as [body|] eqn:Hbody; [|done].
    apply request_json_Ok in Hbody. cbn [mbind result_bind].
    destruct (has_required_keys body) as [[]|] eqn:Hkeys; [|done..]. cbn [negb].
    destruct (getitem body "ip") as [ip'|] eqn:Hip; [|done].
    destruct (getitem body "port") as [port'|] eqn:Hport; [|done].
    destruct (getitem body "platform_info") as [pinfo|] eqn:Hpinfo; [|done].
    cbn [mbind result_bind].
    destruct (to_insert_of ip' port' pinfo) as [ti|] eqn:Hti; [|done].
    intros [= -> -> ->]. repeat (split; [done|]). exists body, pinfo.
    repeat (split; [done|]). done.
  - intros (-> & -> & -> & body & pinfo & Hbody & Hkeys & Hip & Hport & Hpinfo & Hti).
    apply request_json_Ok in Hbody. rewrite Hbody. cbn [mbind result_bind].
    rewrite Hkeys. cbn [mbind result_bind negb].
    rewrite Hip. cbn [mbind result_bind].
    rewrite Hport. cbn [mbind result_bind].
    rewrite Hpinfo. cbn [mbind result_bind].
    by rewrite Hti.
Qed.

Lemma post_environments_204 req now st resp st' :
  handle (PostEnvironments now) req st = (resp, st') →
  status_code resp = 204 →
  ∃ ip port to_insert ip_key port_key row,
    registration req = Ok (ip, port, to_insert)
    ∧ resp = no_content
    ∧ to_key ip = Ok ip_key ∧ to_key port = Ok port_key
    ∧ id_session row = next_rowid (session st) ∧ session_start row = now
    ∧ st' = with_environments (with_session st (session st ++ [row]))
              (bound (environments st) ip_key port_key
                 (entry (next_rowid (session st)) now)).
Proof.
  unfold handle, full_dispatch_request. cbn [view_function].
  rewrite add_environment_eq.
  pose proof (registration_status req) as Hstatus.
  destruct (registration req) as [[[ip port] ti]|e].
  - pose proof (register_cases ip port ti now st) as Hreg.
    destruct (register ip port ti now st) as [[resp'|e] st1].
    + destruct Hreg as (-> & ipk & portk & row & ? & ? & ? & ? & ->).
      intros [= <- <-] _. by exists ip, port, ti, ipk, portk, row.
    + destruct Hreg as (He & _ & _). intros [= <- <-].
      rewrite handle_exception_status, internal_status by done. done.
  - intros [= <- <-]. rewrite handle_exception_status.
    unfold raises_only, gate_status in Hstatus. simpl in Hstatus.
    intros Heq. rewrite Heq in Hstatus. intuition discriminate.
Qed.

Lemma lookup_bound_eq envs ip port e :
  bound envs ip port e !! ip ≫= (.!! port) = Some e.
Proof. unfold bound. rewrite lookup_insert_eq. simpl. by rewrite lookup_insert_eq. Qed.

Lemma registered_bound_ne envs ip port e ip' port' :
  port ≠ port' →
  registered (bound envs ip port e) ip' port' = registered envs ip' port'.
Proof.
  intros Hne. unfold registered, bound.
  destruct (decide (ip = ip')) as [->|Hip].
  - rewrite lookup_insert_eq.
    destruct (envs !! ip') as [ports|]; simpl.
    + apply bool_decide_ext. by rewrite lookup_insert_ne.
    + apply bool_decide_eq_false. rewrite lookup_insert_ne by done.
      rewrite lookup_empty. by intros [? ?].
  - by rewrite lookup_insert_ne.
Qed.

Lemma to_insert_of_fields ip port platform_info to_insert :
  to_insert_of ip port platform_info = Ok to_insert →
  ∃ port_number fields,
    int port = Ok port_number
    ∧ Forall2 (λ p v, lookup_path platform_info p = Ok v) platform_fields fields
    ∧ to_insert = ip :: JInt port_number :: fields.
Proof.
  unfold to_insert_of. intros Hti.
  destruct (int port) as [n|] eqn:Hint; [|discriminate Hti].
  cbn [mbind result_bind] in Hti.
  destruct (getitem platform_info "platform") as [platform|] eqn:E1; [|discriminate Hti].
  destruct (getitem platform_info "node") as [node|] eqn:E2; [|discriminate Hti].
  destruct (getitem platform_info "os") as [os|] eqn:E3; [|discriminate Hti].
  cbn [mbind result_bind] in Hti.
  destruct (getitem os "system") as [os_system|] eqn:E4; [|discriminate Hti].
  destruct (getitem os "release") as [os_release|] eqn:E5; [|discriminate Hti].
  destruct (getitem os "version") as [os_version|] eqn:E6; [|discriminate Hti].
  destruct (getitem platform_info "hardware") as [hw|] eqn:E7; [|discriminate Hti].
  cbn [mbind result_bind] in Hti.
  destruct (getitem hw "machine") as [hw_machine|] eqn:E8; [|discriminate Hti].
  destruct (getitem hw "processor") as [hw_processor|] eqn:E9; [|discriminate Hti].
  destruct (getitem platform_info "python") as [python|] eqn:E10; [|discriminate Hti].
  cbn [mbind result_bind] in Hti.
  destruct (getitem python "build") as [build|] eqn:E11; [|discriminate Hti].
  cbn [mbind result_bind] in Hti.
  destruct (getindex build 0) as [b0|] eqn:E12; [|discriminate Hti].
  destruct (getindex build 1) as [b1|] eqn:E13; [|discriminate Hti].
  destruct (getitem python "compiler") as [compiler|] eqn:E14; [|discriminate Hti].
  destruct (getitem python "implementation") as [impl|] eqn:E15; [|discriminate Hti].
  destruct (getitem python "version") as [version|] eqn:E16; [|discriminate Hti].
  cbn [mbind result_bind] in Hti. injection Hti as <-.
  exists n, [platform; node; os_system; os_release; os_version; hw_machine;
             hw_processor; b0; b1; compiler; impl; version].
  split; [done|]. split; [|done].
  unfold platform_fields, lookup_path.
  repeat (apply Forall2_cons; split;
          [cbn [foldl mbind result_bind];
           rewrite ?E1, ?E2, ?E3, ?E7, ?E10; cbn [mbind result_bind];
           rewrite ?E4, ?E5, ?E6, ?E8, ?E9, ?E11, ?E14, ?E15, ?E16;
           cbn [mbind result_bind]; rewrite ?E12, ?E13; done|]).
  apply Forall2_nil_2.
Qed.

Lemma to_insert_of_lacking ip port platform_info field :
  field ∈ platform_fields →
  (∃ e, lookup_path platform_info field = Raise e) →
  ∃ e, to_insert_of ip port platform_info = Raise e ∧ internal e.
Proof.
  intros Hfield [e Hlack].
  pose proof (to_insert_of_internal ip port platform_info) as Hint.
  destruct (to_insert_of ip port platform_info) as [ti|e'] eqn:Hti; [|eauto].
  apply to_insert_of_fields in Hti as (n & fields & _ & Hall & _).
  apply list_elem_of_lookup in Hfield as [i Hi].
  destruct (Forall2_lookup_l _ _ _ _ _ Hall Hi) as (v & _ & Hv).
  congruence.
Qed.

Lemma handle_raise r req st e st' :
  view_function r req st = (Raise e, st') →
  handle r req st = (handle_exception e, st')
  ∧ is_json_error (status_of e) (handle_exception e).
Proof.
  intros Hv. unfold handle, full_dispatch_request. rewrite Hv. split; [done|].
  split; [apply handle_exception_status|apply handle_exception_body].
Qed.

(** C9.  For every POST /environments request that passes the Digest,
    Node-authorization and JSON gates and whose body contains the keys [ip],
    [port] and [platform_info]: if [platform_info] lacks one of the nested
    fields that the handler reads, the response is a 500 with a JSON error
    body and the state is unchanged: no session row is inserted and the
    registry is as before. *)
Theorem add_environment_incomplete_platform_info (req : Request) (now : Z)
    (st : State) (body platform_info : json) (field : list step) :
  check_digest_header req = Ok () →
  check_authorization_header node_key_recoverer ["Digest"] req = Ok () →
  check_is_json req = Ok () →
  json_loads (get_data req) = Some body →
  has_required_keys body = Ok true →
  getitem body "platform_info" = Ok platform_info →
  field ∈ platform_fields →
  (∃ e, lookup_path platform_info field = Raise e) →
  ∃ resp,
    handle (PostEnvironments now) req st = (resp, st)
    ∧ is_json_error 500 resp.
Proof.
  intros Hd Ha Hj Hbody Hkeys Hpinfo Hfield Hlack.
  assert (∃ e, registration req = Raise e ∧ internal e) as (e & Hreg & He).
  { unfold registration. rewrite Hd, Ha, Hj. cbn [mbind result_bind].
    apply request_json_Ok in Hbody. rewrite Hbody. cbn [mbind result_bind].
    rewrite Hkeys. cbn [mbind result_bind negb].
    pose proof (getitem_internal body "ip") as Hip.
    destruct (getitem body "ip") as [ip|e]; [|eauto]. cbn [mbind result_bind].
    pose proof (getitem_internal body "port") as Hport.
    destruct (getitem body "port") as [port|e]; [|eauto]. cbn [mbind result_bind].
    rewrite Hpinfo. cbn [mbind result_bind].
    destruct (to_insert_of_lacking ip port platform_info field Hfield Hlack)
      as (e & -> & He).
    eauto. }
  exists (handle_exception e).
  destruct (handle_raise (PostEnvironments now) req st e st) as [Hh Herr].
  { cbn [view_function]. by rewrite add_environment_eq, Hreg. }
  split; [done|]. by rewrite (internal_status e He) in Herr.
Qed.

(** C6.  For every POST /environments request answered with 204 for an
    (ip, port) that is already registered: one new row is appended to the
    session table, with an id larger than that of every earlier row and the
    current time as its start, every earlier row is left as it was, and the
    registry entry of (ip, port) is replaced by one with the new session id
    and start.  No route of the service changes or removes a session row: the
    table before a request is a prefix of the table after it. *)
Theorem reregistration_appends_session (req : Request) (now : Z) (st st' : State)
    (resp : Response) (body ip port old : json) (ip_key port_key : pykey) :
  handle (PostEnvironments now) req st = (resp, st') →
  status_code resp = 204 →
  json_loads (get_data req) = Some body →
  getitem body "ip" = Ok ip → to_key ip = Ok ip_key →
  getitem body "port" = Ok port → to_key port = Ok port_key →
  environments st !! ip_key ≫= (.!! port_key) = Some old →
  ∃ row,
    session st' = session st ++ [row]
    ∧ (∀ r, r ∈ session st → id_session r < id_session row)
    ∧ session_start row = now
    ∧ environments st' !! ip_key ≫= (.!! port_key)
      = Some (entry (id_session row) now)
    ∧ ∀ r req0 st0, session st0 `prefix_of` session (handle r req0 st0).2.
Proof.
  intros Hh H204 Hbody Hip Hipk Hport Hportk _.
  destruct (post_environments_204 req now st resp st' Hh H204)
    as (ip' & port' & ti & ipk & portk & row & Hreg & _ & Hipk' & Hportk' & Hid & Hstart & ->).
  apply registration_Ok in Hreg
    as (_ & _ & _ & body' & pinfo & Hbody' & _ & Hip' & Hport' & _ & _).
  assert (body' = body) as -> by congruence.
  assert (ip' = ip) as -> by congruence.
  assert (port' = port) as -> by congruence.
  assert (ipk = ip_key) as -> by congruence.
  assert (portk = port_key) as -> by congruence.
  exists row. split; [done|]. split.
  { intros r Hr. rewrite Hid. by apply next_rowid_above. }
  split; [done|]. split.
  { cbn [environments with_environments]. rewrite Hid. apply lookup_bound_eq. }
  intros r req0 st0. apply handle_appends_only.
Qed.

(** C3, as the service implements it.  For every POST /environments
    request that passes the Digest and Node-authorization gates: if the
    content type is not JSON the response is 415; if the content type is JSON
    and the body does not decode, or decodes to an object in which one of the
    keys [ip], [port], [platform_info] is absent, the response is 400; each
    with a JSON error body and the state unchanged. *)
Theorem add_environment_rejects_body (req : Request) (now : Z) (st : State) :
  check_digest_header req = Ok () →
  check_authorization_header node_key_recoverer ["Digest"] req = Ok () →
  (is_json req = false →
     is_json_error 415 (handle (PostEnvironments now) req st).1
     ∧ (handle (PostEnvironments now) req st).2 = st)
  ∧ (is_json req = true → json_loads (get_data req) = None →
     is_json_error 400 (handle (PostEnvironments now) req st).1
     ∧ (handle (PostEnvironments now) req st).2 = st)
  ∧ (∀ d, is_json req = true → json_loads (get_data req) = Some (JDict d) →
     dict_get "ip" d = None ∨ dict_get "port" d = None
       ∨ dict_get "platform_info" d = None →
     is_json_error 400 (handle (PostEnvironments now) req st).1
     ∧ (handle (PostEnvironments now) req st).2 = st).
Proof.
  intros Hd Ha.
  assert (∀ e, registration req = Raise e →
            is_json_error (status_of e) (handle (PostEnvironments now) req st).1
            ∧ (handle (PostEnvironments now) req st).2 = st) as Hraise.
  { intros e He.
    destruct (handle_raise (PostEnvironments now) req st e st) as [-> Herr]; [|done].
    cbn [view_function]. by rewrite add_environment_eq, He. }
  split; [|split].
  - intros Hj. apply (Hraise (HTTPException 415 "Content Type is not application/json")).
    unfold registration, check_is_json. by rewrite Hd, Ha, Hj.
  - intros Hj Hbody.
    apply (Hraise (HTTPException 400 "Failed to decode JSON object")).
    unfold registration, check_is_json, request_json. by rewrite Hd, Ha, Hj, Hbody.
  - intros d Hj Hbody Hmissing.
    apply (Hraise (HTTPException 400 "One or more keys missing in request's body")).
    unfold registration, check_is_json, request_json. rewrite Hd, Ha, Hj, Hbody.
    cbn [mbind result_bind negb].
    assert (has_required_keys (JDict d) = Ok false) as ->; [|done].
    unfold has_required_keys, contains. cbn [mbind result_bind].
    destruct (dict_get "ip" d) eqn:E1; [|by rewrite bool_decide_eq_false_2 by (by intros [? ?])].
    rewrite bool_decide_eq_true_2 by eauto.
    destruct (dict_get "port" d) eqn:E2; [|by rewrite bool_decide_eq_false_2 by (by intros [? ?])].
    rewrite bool_decide_eq_true_2 by eauto.
    destruct Hmissing as [?|[?|Hp]]; [done..|]. rewrite Hp.
    by rewrite bool_decide_eq_false_2 by (by intros [? ?]).
Qed.

Lemma prefix_append (s t : string) : String.prefix s (s +:+ t) = true.
Proof.
  induction s as [|c s IH]; simpl; [by destruct t|].
  by destruct (ascii_dec c c).
Qed.

Lemma check_digest_header_rejects req :
  digest_rejected req → ∃ d, check_digest_header req = Raise (HTTPException 400 d).
Proof.
  unfold check_digest_header.
  intros [->|[(value & -> & ->)|(given & -> & Hne)]]; [by eexists..|].
  rewrite prefix_append.
  change (after_equals ("sha-256=" +:+ given)) with (Ok given).
  cbn [negb mbind result_bind].
  rewrite (proj2 (String.eqb_neq _ _)) by done.
  by eexists.
Qed.

(** C7.  Every PATCH /test_sets request whose content type is not
    multipart/form-data is answered with 415, whatever its Digest and
    Authorization headers are; every such request with the multipart content
    type whose Digest header is absent, is not a sha-256 digest, or does not
    match the body is answered with 400; in both cases the state, and so the
    test-set root, is unchanged. *)
Theorem upload_test_sets_gates (req : Request) (st : State) :
  (mimetype req ≠ "multipart/form-data" →
     is_json_error 415 (handle PatchTestSets req st).1
     ∧ (handle PatchTestSets req st).2 = st)
  ∧ (mimetype req = "multipart/form-data" → digest_rejected req →
     is_json_error 400 (handle PatchTestSets req st).1
     ∧ (handle PatchTestSets req st).2 = st).
Proof.
  assert (∀ e, view_function PatchTestSets req st = (Raise e, st) →
            is_json_error (status_of e) (handle PatchTestSets req st).1
            ∧ (handle PatchTestSets req st).2 = st) as Hraise.
  { intros e He. by destruct (handle_raise PatchTestSets req st e st He) as [-> Herr]. }
  split.
  - intros Hm. apply (Hraise (HTTPException 415 "Invalid request's content type")).
    cbn [view_function]. unfold upload_test_sets.
    by rewrite (proj2 (String.eqb_neq _ _) Hm).
  - intros Hm Hdigest.
    destruct (check_digest_header_rejects req Hdigest) as [d Hd].
    apply (Hraise (HTTPException 400 d)).
    cbn [view_function]. unfold upload_test_sets.
    rewrite (proj2 (String.eqb_eq _ _) Hm). run_binds. cbn [negb]. by rewrite Hd.
Qed.

Lemma storable_adapt v :
  storable v = true → ∃ sv, adapt v = Ok sv ∧ sv ≠ SqlNull.
Proof. unfold storable. destruct (adapt v) as [[]|]; try done; eauto. Qed.

Lemma text_not_null_Ok sv : sv ≠ SqlNull → ∃ sv', text_not_null sv = Ok sv'.
Proof. destruct sv; simpl; eauto. done. Qed.

Lemma integer_not_null_Ok sv : sv ≠ SqlNull → ∃ sv', integer_not_null sv = Ok sv'.
Proof. destruct sv; simpl; eauto. done. Qed.

Lemma mapM_adapt_storable l :
  Forall (λ v, storable v = true) l →
  ∃ params, mapM adapt l = Ok params ∧ length params = length l
            ∧ Forall (λ sv, sv ≠ SqlNull) params.
Proof.
  induction 1 as [|v l Hv _ (params & Hp & Hlen & Hall)]; [by exists []|].
  destruct (storable_adapt v Hv) as (sv & Hsv & Hnn).
  exists (sv :: params). cbn [mapM]. rewrite Hsv, Hp. cbn.
  split; [done|]. split; [by rewrite Hlen|by constructor].
Qed.

Lemma insert_session_storable to_insert now st :
  length to_insert = 14%nat → Forall (λ v, storable v = true) to_insert →
  ∃ lastrowid, (insert_session to_insert now st).1 = Ok lastrowid.
Proof.
  intros Hlen Hall.
  destruct (mapM_adapt_storable to_insert Hall) as (params & Hp & Hlen' & Hnn).
  unfold insert_session. rewrite Hp. unfold read. run_binds.
  rewrite Hlen in Hlen'.
  do 14 (destruct params as [|? params]; [discriminate Hlen'|]).
  destruct params; [|discriminate Hlen'].
  repeat match goal with
  | H : Forall _ (_ :: _) |- _ => apply Forall_cons in H as [? H]
  end.
  repeat match goal with
  | |- context [text_not_null ?v] =>
      let sv := fresh "sv" in
      let Hv := fresh in
      destruct (text_not_null_Ok v) as [sv Hv]; [done|rewrite Hv]
  | |- context [integer_not_null ?v] =>
      let sv := fresh "sv" in
      let Hv := fresh in
      destruct (integer_not_null_Ok v) as [sv Hv]; [done|rewrite Hv]
  end.
  by eexists.
Qed.

Lemma to_insert_of_complete ip port platform_info port_number fields :
  int port = Ok port_number →
  Forall2 (λ p v, lookup_path platform_info p = Ok v) platform_fields fields →
  to_insert_of ip port platform_info = Ok (ip :: JInt port_number :: fields).
Proof.
  intros Hint Hall. unfold platform_fields in Hall.
  repeat match goal with
  | H : Forall2 _ (_ :: _) _ |- _ =>
      apply Forall2_cons_inv_l in H as (? & ? & ? & H & ->)
  | H : Forall2 _ [] _ |- _ => apply Forall2_nil_inv_l in H as ->
  end.
  unfold lookup_path in *. cbn [foldl mbind result_bind] in *.
  unfold to_insert_of. rewrite Hint. cbn [mbind result_bind].
  destruct (getitem platform_info "os") as [os|]; [|discriminate].
  destruct (getitem platform_info "hardware") as [hw|]; [|discriminate].
  destruct (getitem platform_info "python") as [python|]; [|discriminate].
  cbn [mbind result_bind] in *.
  destruct (getitem python "build") as [build|]; [|discriminate].
  cbn [mbind result_bind] in *.
  repeat match goal with
  | H : ?r = Ok _ |- context [?r] => rewrite H; cbn [mbind result_bind]
  end.
  reflexivity.
Qed.

Lemma check_registered_false envs ip port :
  registered envs (KStr ip) (KStr port) = false →
  ∃ d, check_registered envs ip port = Raise (HTTPException 404 d).
Proof. unfold check_registered. intros ->. by eexists. Qed.

Lemma check_registered_true envs ip port :
  registered envs (KStr ip) (KStr port) = true → check_registered envs ip port = Ok ().
Proof. unfold check_registered. by intros ->. Qed.

Lemma registered_lookup envs ip port :
  registered envs ip port = true ↔ is_Some (envs !! ip ≫= (.!! port)).
Proof.
  unfold registered. destruct (envs !! ip) as [ports|]; simpl.
  - by rewrite bool_decide_eq_true.
  - split; [done|]. by intros [? ?].
Qed.

Lemma sortable_strings {A} (d : gmap pykey A) :
  map_Forall (λ k _, ∃ s, k = KStr s) d → sortable d.
Proof.
  intros Hd k1 a1 H1 k2 a2 H2. right.
  destruct (Hd _ _ H1) as [s1 ->]. by destruct (Hd _ _ H2) as [s2 ->].
Qed.

Lemma string_keyed_jsonifiable envs : string_keyed envs → jsonifiable envs.
Proof.
  intros Hkeys. split.
  - apply sortable_strings. intros ip ports Hip. by destruct (Hkeys _ _ Hip).
  - intros ip ports Hip. apply sortable_strings. by destruct (Hkeys _ _ Hip).
Qed.

Lemma string_keyed_bound envs ip port e :
  string_keyed envs → string_keyed (bound envs (KStr ip) (KStr port) e).
Proof.
  intros Hkeys. unfold bound. apply map_Forall_insert_2; [|done].
  split; [by eexists|]. apply map_Forall_insert_2; [by eexists|].
  destruct (envs !! KStr ip) as [ps|] eqn:Hps; cbn [default].
  - by apply (Hkeys _ _ Hps).
  - apply map_Forall_empty.
Qed.

Lemma remove_environment_registered (dreq : Request) (ip port : string) (st : State) :
  check_authorization_header node_key_recoverer [] dreq = Ok () →
  registered (environments st) (KStr ip) (KStr port) = true →
  ∃ envs',
    remove_environment dreq ip port st = (Ok no_content, with_environments st envs')
    ∧ envs' !! KStr ip ≫= (.!! KStr port) = None
    ∧ (∀ ip' port', (ip', port') ≠ (KStr ip, KStr port) →
        envs' !! ip' ≫= (.!! port') = environments st !! ip' ≫= (.!! port'))
    ∧ (string_keyed (environments st) → string_keyed envs').
Proof.
  intros Ha Hreg. unfold remove_environment. rewrite Ha.
  unfold read. run_binds. rewrite (check_registered_true _ _ _ Hreg).
  unfold set_environments. run_binds.
  eexists. split; [reflexivity|].
  set (ports := delete (KStr port) (default ∅ (environments st !! KStr ip))).
  assert (Hports : ports !! KStr port = None) by apply lookup_delete_eq.
  case_bool_decide as Hempty.
  - split; [by rewrite lookup_delete_eq|].
    split; [|intros Hkeys; by apply map_Forall_delete].
    intros ip' port' Hne. destruct (decide (ip' = KStr ip)) as [->|Hip].
    + rewrite lookup_delete_eq. simpl.
      assert (port' ≠ KStr port) as Hp by congruence.
      destruct (environments st !! KStr ip) as [ps|]; [|done]. simpl.
      assert (ps !! port' = ports !! port') as ->
        by (unfold ports; simpl; by rewrite lookup_delete_ne).
      by rewrite Hempty.
    + by rewrite lookup_delete_ne.
  - split; [rewrite lookup_insert_eq; simpl; done|].
    split.
    2:{ intros Hkeys. apply map_Forall_insert_2; [|done].
        unfold ports. destruct (environments st !! KStr ip) as [ps|] eqn:Hps.
        - split; [by eexists|]. apply map_Forall_delete. by apply (Hkeys _ _ Hps).
        - split; [by eexists|]. cbn [default]. rewrite delete_empty.
          apply map_Forall_empty. }
    intros ip' port' Hne. destruct (decide (ip' = KStr ip)) as [->|Hip].
    + rewrite lookup_insert_eq. simpl.
      assert (port' ≠ KStr port) as Hp by congruence.
      unfold ports. rewrite lookup_delete_ne by done.
      by destruct (environments st !! KStr ip).
    + by rewrite lookup_insert_ne.
Qed.

Lemma handle_list_environments req st :
  handle GetEnvironments req st
  = (if bool_decide (jsonifiable (environments st)) then listing st
     else handle_exception TypeError, st).
Proof.
  unfold handle, full_dispatch_request. cbn [view_function].
  unfold list_environments, read. run_binds.
  by destruct (bool_decide (jsonifiable (environments st))).
Qed.

Lemma handle_list_environments_strings req st :
  string_keyed (environments st) → handle GetEnvironments req st = (listing st, st).
Proof.
  intros Hkeys. rewrite handle_list_environments.
  by rewrite bool_decide_eq_true_2 by (by apply string_keyed_jsonifiable).
Qed.

(** X27.  The round trip of a registration with a string port, on a registry
    whose ips and ports are all strings.  For every Node-signed,
    Digest-matching POST /environments request with a JSON content type whose
    body is an object in which [ip] and [port] are strings, the port reads as
    an integer, and that integer and every nested field of [platform_info]
    that the handler reads can be stored in the session table: the response
    is 204; GET /environments is then answered with the registry, which lists
    (ip, port) with the id of a session row and an ISO-8601 [session_start]
    (for a clock between the years 0000 and 9999); a Node-signed DELETE
    /environments/ip/port is answered with 204, and afterwards GET
    /environments is answered with a registry without (ip, port). *)
Theorem register_list_delete (req dreq : Request) (now : Z) (st : State)
    (d : list (string * json)) (ip port : string) (platform_info : json)
    (port_number : Z) (fields : list json) :
  check_digest_header req = Ok () →
  check_authorization_header node_key_recoverer ["Digest"] req = Ok () →
  is_json req = true →
  json_loads (get_data req) = Some (JDict d) →
  dict_get "ip" d = Some (JStr ip) →
  dict_get "port" d = Some (JStr port) →
  dict_get "platform_info" d = Some platform_info →
  int_of_str port = Ok port_number →
  Forall2 (λ p v, lookup_path platform_info p = Ok v) platform_fields fields →
  Forall (λ v, storable v = true) (JInt port_number :: fields) →
  -62167219200 ≤ now ≤ 253402300799 →
  check_authorization_header node_key_recoverer [] dreq = Ok () →
  string_keyed (environments st) →
  ∃ st1 st2 id start,
    handle (PostEnvironments now) req st = (no_content, st1)
    ∧ handle GetEnvironments req st1 = (listing st1, st1)
    ∧ environments st1 !! KStr ip ≫= (.!! KStr port)
      = Some (JDict [("session_id", JInt id); ("session_start", JStr start)])
    ∧ (∃ row, row ∈ session st1 ∧ id_session row = id)
    ∧ is_iso8601 start = true
    ∧ handle (DeleteEnvironment ip port) dreq st1 = (no_content, st2)
    ∧ handle GetEnvironments req st2 = (listing st2, st2)
    ∧ environments st2 !! KStr ip ≫= (.!! KStr port) = None.
Proof.
  intros Hd Ha Hj Hbody Hip Hport Hpinfo Hint Hfields Hstor Hnow Hda Hkeys.
  set (ti := JStr ip :: JInt port_number :: fields).
  assert (Hreg : registration req = Ok (JStr ip, JStr port, ti)).
  { apply registration_Ok. unfold check_is_json. rewrite Hj.
    repeat (split; [done|]). exists (JDict d), platform_info.
    split; [done|]. unfold has_required_keys, contains, getitem.
    rewrite Hip, Hport, Hpinfo. cbn [mbind result_bind].
    rewrite !bool_decide_eq_true_2 by eauto.
    repeat (split; [done|]). by apply to_insert_of_complete. }
  assert (Hlen : length ti = 14%nat).
  { unfold ti. apply Forall2_length in Hfields. simpl in *. by rewrite <- Hfields. }
  assert (Hall : Forall (λ v, storable v = true) ti) by (by constructor).
  destruct (insert_session_storable ti now st Hlen Hall) as [lastrowid Hins].
  pose proof (register_cases (JStr ip) (JStr port) ti now st) as Hcases.
  destruct (register (JStr ip) (JStr port) ti now st) as [[resp|e] st1] eqn:Hregister.
  2:{ destruct Hcases as (_ & _ & [He|[He|He]]); [rewrite Hins in He|..]; done. }
  destruct Hcases as (-> & ipk & portk & row & [= <-] & [= <-] & Hid & Hstart & ->).
  destruct (strftime_iso_shape now Hnow) as (start & Hsome & Hshape).
  set (st1 := with_environments (with_session st (session st ++ [row])) _) in *.
  assert (Hlisted : environments st1 !! KStr ip ≫= (.!! KStr port)
                    = Some (JDict [("session_id", JInt (next_rowid (session st)));
                                   ("session_start", JStr start)])).
  { unfold st1. cbn [environments with_environments].
    rewrite lookup_bound_eq. unfold entry. by rewrite Hsome. }
  assert (Hkeys1 : string_keyed (environments st1)).
  { unfold st1. cbn [environments with_environments with_session].
    by apply string_keyed_bound. }
  destruct (remove_environment_registered dreq ip port st1 Hda)
    as (envs' & Hrm & Hgone & _ & Hkeys2).
  { apply registered_lookup. rewrite Hlisted. eauto. }
  exists st1, (with_environments st1 envs'), (next_rowid (session st)), start.
  split.
  { unfold handle, full_dispatch_request. cbn [view_function].
    by rewrite add_environment_eq, Hreg, Hregister. }
  split; [by apply handle_list_environments_strings|]. split; [done|]. split.
  { exists row. split; [|done]. unfold st1. cbn [session with_environments with_session].
    apply elem_of_app. right. by apply list_elem_of_singleton. }
  split; [done|]. split.
  { unfold handle, full_dispatch_request. cbn [view_function]. by rewrite Hrm. }
  split; [|done]. apply handle_list_environments_strings. by apply Hkeys2.
Qed.

Lemma unregistered_not_found r req st ip port :
  environment_of r = Some (ip, port) →
  earlier_gates r req = Ok () →
  registered (environments st) (KStr ip) (KStr port) = false →
  is_json_error 404 (handle r req st).1 ∧ (handle r req st).2 = st.
Proof.
  intros Henv Hgates Hreg.
  destruct (check_registered_false _ _ _ Hreg) as [d Hd].
  enough (view_function r req st = (Raise (HTTPException 404 d), st)) as Hv.
  { by destruct (handle_raise r req st _ st Hv) as [-> ?]. }
  destruct r; simpl in Henv; try discriminate; injection Henv as -> ->;
    cbn [view_function earlier_gates] in *;
    unfold remove_environment, get_environment_info, list_installed_test_sets,
      install_packages, delete_installed_package, execute_tests.
  - rewrite Hgates. unfold read. run_binds. by rewrite Hd.
  - unfold read. run_binds. by rewrite Hd.
  - unfold read. run_binds. by rewrite Hd.
  - destruct (check_digest_header req) as [[]|]; [|discriminate].
    cbn [mbind result_bind] in Hgates. rewrite Hgates.
    unfold read. run_binds. by rewrite Hd.
  - rewrite Hgates. unfold read. run_binds. by rewrite Hd.
  - unfold read. run_binds. by rewrite Hd.
Qed.

(** C8, as the service implements it.  The registry is keyed by the
    port of the JSON body as it is, while the routes look up the port of the
    path as a string.  For every registration answered with 204 whose port is
    a JSON integer, the environment is in the registry under the integer;
    GET /environments lists the registry when its keys can be sorted, and
    is answered with the 500 of the [TypeError] otherwise; and every
    environment-scoped route for an ip and port text that were not
    registered as strings before is answered with 404, state unchanged, for
    a request that passes the gates which the route applies before the
    lookup. *)
Theorem number_port_not_found (req : Request) (now : Z) (st st' : State)
    (resp : Response) (body ip : json) (p : Z) :
  handle (PostEnvironments now) req st = (resp, st') →
  status_code resp = 204 →
  json_loads (get_data req) = Some body →
  getitem body "ip" = Ok ip →
  getitem body "port" = Ok (JInt p) →
  (∃ ip_key e, to_key ip = Ok ip_key
     ∧ environments st' !! ip_key ≫= (.!! KInt p) = Some e
     ∧ handle GetEnvironments req st'
       = (if bool_decide (jsonifiable (environments st')) then listing st'
          else handle_exception TypeError, st'))
  ∧ ∀ r rq ips ports,
      environment_of r = Some (ips, ports) →
      registered (environments st) (KStr ips) (KStr ports) = false →
      earlier_gates r rq = Ok () →
      is_json_error 404 (handle r rq st').1 ∧ (handle r rq st').2 = st'.
Proof.
  intros Hh H204 Hbody Hip Hport.
  destruct (post_environments_204 req now st resp st' Hh H204)
    as (ip' & port' & ti & ipk & portk & row & Hreg & _ & Hipk & Hportk & Hid & Hstart & ->).
  apply registration_Ok in Hreg
    as (_ & _ & _ & body' & pinfo & Hbody' & _ & Hip' & Hport' & _ & _).
  assert (body' = body) as -> by congruence.
  assert (ip' = ip) as -> by congruence.
  assert (port' = JInt p) as -> by congruence.
  injection Hportk as <-.
  split.
  - exists ipk, (entry (next_rowid (session st)) now).
    split; [done|]. split; [|apply handle_list_environments].
    cbn [environments with_environments]. apply lookup_bound_eq.
  - intros r rq ips ports Henv Hunreg Hgates.
    apply (unregistered_not_found r rq _ ips ports Henv Hgates).
    cbn [environments with_environments].
    by rewrite registered_bound_ne.
Qed.

End facts.

(** ** The service on the sample deployment *)

(** C2 on its failing input: a well-formed, Node-signed,
    Digest-matching registration whose port is the JSON number 5000 is
    answered with 204 and listed by GET /environments, but the Node-signed
    DELETE /environments/10.0.0.5/5000 is answered with 404 and the
    environment stays registered. *)
Lemma number_port_cannot_be_removed :
  let req := post_environments "registration with a number port" in
  let dreq := signed_request "Node" "DELETE" "/environments/10.0.0.5/5000" "" "" in
  let posted := @handle sample_externals (PostEnvironments 1700000000) req initial in
  let listed := @handle sample_externals GetEnvironments
                  (unsigned_request "GET" "/environments") posted.2 in
  let deleted := @handle sample_externals (DeleteEnvironment "10.0.0.5" "5000") dreq posted.2 in
  @check_digest_header sample_externals req = Ok ()
  ∧ @check_authorization_header sample_externals (@node_key_recoverer sample_externals) ["Digest"] req = Ok ()
  ∧ @check_is_json req = Ok ()
  ∧ @check_authorization_header sample_externals (@node_key_recoverer sample_externals) [] dreq = Ok ()
  ∧ status_code posted.1 = 204
  ∧ environments posted.2 !! KStr "10.0.0.5" ≫= (.!! KInt 5000)
    = Some (JDict [("session_id", JInt 1); ("session_start", JStr "2023-11-14T22:13:20Z")])
  ∧ listed.1 = listing posted.2
  ∧ status_code deleted.1 = 404
  ∧ deleted.2 = posted.2
  ∧ ¬ (status_code deleted.1 = 204).
Proof.
  vm_compute. repeat split; try reflexivity. discriminate.
Qed.

(** C3 fails as stated: a request that passes the Digest and
    Node-authorization gates and is declared as text/plain is answered with
    415, not 400. *)
Lemma non_json_content_type_is_415 :
  let req := signed_request "Node" "POST" "/environments" "text/plain"
               "registration with a string port" in
  @check_digest_header sample_externals req = Ok ()
  ∧ @check_authorization_header sample_externals (@node_key_recoverer sample_externals) ["Digest"] req = Ok ()
  ∧ status_code (@handle sample_externals (PostEnvironments 1700000000) req initial).1 = 415
  ∧ ¬ (status_code (@handle sample_externals (PostEnvironments 1700000000) req initial).1 = 400).
Proof.
  vm_compute. repeat split; try reflexivity. discriminate.
Qed.

(** C8 fails as stated: after the registration of 10.0.0.5 with the
    string port 5000, the registration with the number port 5000 is answered
    with 204 and is in the registry under the integer, but GET /environments
    is answered with 500, and the Node-signed DELETE
    /environments/10.0.0.5/5000 is answered with 204, not 404: it removes
    the string port and leaves the number port registered. *)
Lemma number_port_after_string_port :
  let sreq := post_environments "registration with a string port" in
  let nreq := post_environments "registration with a number port" in
  let dreq := signed_request "Node" "DELETE" "/environments/10.0.0.5/5000" "" "" in
  let first := @handle sample_externals (PostEnvironments 1700000000) sreq initial in
  let second := @handle sample_externals (PostEnvironments 1700000060) nreq first.2 in
  let listed := @handle sample_externals GetEnvironments
                  (unsigned_request "GET" "/environments") second.2 in
  let deleted := @handle sample_externals (DeleteEnvironment "10.0.0.5" "5000") dreq second.2 in
  status_code first.1 = 204
  ∧ status_code second.1 = 204
  ∧ environments second.2 !! KStr "10.0.0.5" ≫= (.!! KInt 5000)
    = Some (JDict [("session_id", JInt 2); ("session_start", JStr "2023-11-14T22:14:20Z")])
  ∧ status_code listed.1 = 500
  ∧ @check_authorization_header sample_externals (@node_key_recoverer sample_externals) [] dreq = Ok ()
  ∧ status_code deleted.1 = 204
  ∧ ¬ (status_code deleted.1 = 404)
  ∧ environments deleted.2 !! KStr "10.0.0.5" ≫= (.!! KInt 5000)
    = Some (JDict [("session_id", JInt 2); ("session_start", JStr "2023-11-14T22:14:20Z")]).
Proof.
  vm_compute. repeat split; try reflexivity. discriminate.
Qed.

(** C9 on a registration whose [platform_info] has no [os] entry. *)
Lemma add_environment_incomplete_platform_info_witness :
  ∃ resp,
    @handle sample_externals (PostEnvironments 1700000000)
      (post_environments "registration without os") initial = (resp, initial)
    ∧ is_json_error 500 resp.
Proof.
  apply (@add_environment_incomplete_platform_info sample_externals
           (post_environments "registration without os") 1700000000 initial
           (JDict [("ip", JStr "10.0.0.5"); ("port", JStr "5000");
                   ("platform_info",
                    JDict [("platform", JStr "Linux"); ("node", JStr "analysis-vm-1")])])
           (JDict [("platform", JStr "Linux"); ("node", JStr "analysis-vm-1")])
           [Key "os"; Key "system"]).
  - reflexivity.
  - reflexivity.
  - reflexivity.
  - reflexivity.
  - reflexivity.
  - reflexivity.
  - apply (list_elem_of_lookup_2 _ 2%nat). reflexivity.
  - exists (KeyError "os"). reflexivity.
Defined.

(** C6 on a second registration of the same environment, a minute after
    the first. *)
Lemma reregistration_appends_session_witness :
  let req := post_environments "registration with a string port" in
  let st := (@handle sample_externals (PostEnvironments 1700000000) req initial).2 in
  let st' := (@handle sample_externals (PostEnvironments 1700000060) req st).2 in
  ∃ row,
    session st' = session st ++ [row]
    ∧ (∀ r, r ∈ session st → id_session r < id_session row)
    ∧ session_start row = 1700000060
    ∧ environments st' !! KStr "10.0.0.5" ≫= (.!! KStr "5000")
      = Some (entry (id_session row) 1700000060)
    ∧ ∀ r req0 st0, session st0 `prefix_of` session (@handle sample_externals r req0 st0).2.
Proof.
  intros req st st'.
  apply (@reregistration_appends_session sample_externals req 1700000060 st st'
           (@handle sample_externals (PostEnvironments 1700000060) req st).1
           (JDict [("ip", JStr "10.0.0.5"); ("port", JStr "5000");
                   ("platform_info", sample_platform_info)])
           (JStr "10.0.0.5") (JStr "5000")
           (JDict [("session_id", JInt 1); ("session_start", JStr "2023-11-14T22:13:20Z")])
           (KStr "10.0.0.5") (KStr "5000")).
  - apply surjective_pairing.
  - vm_compute. reflexivity.
  - reflexivity.
  - reflexivity.
  - reflexivity.
  - reflexivity.
  - reflexivity.
  - vm_compute. reflexivity.
Defined.

(** C7 on an upload declared as application/json. *)
Lemma upload_test_sets_gates_witness :
  let req := signed_request "Client" "PATCH" "/test_sets" "application/json" "archive" in
  is_json_error 415 (@handle sample_externals PatchTestSets req initial).1
  ∧ (@handle sample_externals PatchTestSets req initial).2 = initial.
Proof.
  intros req.
  apply (proj1 (@upload_test_sets_gates sample_externals req initial)).
  discriminate.
Defined.

(** C3 on a registration without a [port] key. *)
Lemma add_environment_rejects_body_witness :
  let req := post_environments "registration without port" in
  is_json_error 400 (@handle sample_externals (PostEnvironments 1700000000) req initial).1
  ∧ (@handle sample_externals (PostEnvironments 1700000000) req initial).2 = initial.
Proof.
  intros req.
  apply (proj2 (proj2 (@add_environment_rejects_body sample_externals req 1700000000
                         initial eq_refl eq_refl))
           [("ip", JStr "10.0.0.5"); ("platform_info", sample_platform_info)]).
  - reflexivity.
  - reflexivity.
  - right. left. reflexivity.
Defined.

(** C8 on a registration with the number port 5000. *)
Lemma number_port_not_found_witness :
  let req := post_environments "registration with a number port" in
  let posted := @handle sample_externals (PostEnvironments 1700000000) req initial in
  (∃ ip_key e, to_key (JStr "10.0.0.5") = Ok ip_key
     ∧ environments posted.2 !! ip_key ≫= (.!! KInt 5000) = Some e
     ∧ @handle sample_externals GetEnvironments req posted.2
       = (if bool_decide (jsonifiable (environments posted.2)) then listing posted.2
          else @handle_exception sample_externals TypeError, posted.2))
  ∧ ∀ r rq ips ports,
      environment_of r = Some (ips, ports) →
      registered (environments initial) (KStr ips) (KStr ports) = false →
      @earlier_gates sample_externals r rq = Ok () →
      is_json_error 404 (@handle sample_externals r rq posted.2).1
      ∧ (@handle sample_externals r rq posted.2).2 = posted.2.
Proof.
  intros req posted.
  apply (@number_port_not_found sample_externals req 1700000000 initial posted.2
           posted.1
           (JDict [("ip", JStr "10.0.0.5"); ("port", JInt 5000);
                   ("platform_info", sample_platform_info)])
           (JStr "10.0.0.5") 5000).
  - apply surjective_pairing.
  - vm_compute. reflexivity.
  - reflexivity.
  - reflexivity.
  - reflexivity.
Defined.

(** X27 on a sample.  The registration of 10.0.0.5 with the string port 5000
    on the empty registry, and its removal. *)
Lemma register_list_delete_witness :
  let req := post_environments "registration with a string port" in
  let dreq := signed_request "Node" "DELETE" "/environments/10.0.0.5/5000" "" "" in
  ∃ st1 st2 id start,
    @handle sample_externals (PostEnvironments 1700000000) req initial = (no_content, st1)
    ∧ @handle sample_externals GetEnvironments req st1 = (listing st1, st1)
    ∧ environments st1 !! KStr "10.0.0.5" ≫= (.!! KStr "5000")
      = Some (JDict [("session_id", JInt id); ("session_start", JStr start)])
    ∧ (∃ row, row ∈ session st1 ∧ id_session row = id)
    ∧ is_iso8601 start = true
    ∧ @handle sample_externals (DeleteEnvironment "10.0.0.5" "5000") dreq st1 = (no_content, st2)
    ∧ @handle sample_externals GetEnvironments req st2 = (listing st2, st2)
    ∧ environments st2 !! KStr "10.0.0.5" ≫= (.!! KStr "5000") = None.
Proof.
  intros req dreq.
  apply (@register_list_delete sample_externals req dreq 1700000000 initial
           [("ip", JStr "10.0.0.5"); ("port", JStr "5000");
            ("platform_info", sample_platform_info)]
           "10.0.0.5" "5000" sample_platform_info 5000
           [JStr "Linux-5.4.0-42-generic-x86_64-with-glibc2.29"; JStr "analysis-vm-1";
            JStr "Linux"; JStr "5.4.0-42-generic"; JStr "#46-Ubuntu SMP";
            JStr "x86_64"; JStr "x86_64"; JStr "default"; JStr "Jul 16 2020 14:00:26";
            JStr "GCC 9.3.0"; JStr "CPython"; JStr "3.8.2"]).
  - reflexivity.
  - reflexivity.
  - reflexivity.
  - reflexivity.
  - reflexivity.
  - reflexivity.
  - reflexivity.
  - reflexivity.
  - repeat constructor.
  - repeat constructor.
  - lia.
  - reflexivity.
  - apply map_Forall_empty.
Defined.

(** ** More of the test framework library and of the plugin *)

Lemma test_well_formed {Self} name description (method : Self → result pyobj)
    self report :
  test name description method self = Ok report →
  well_formed name description report.
Proof.
  unfold test. destruct (method self) as [r|e]; [|discriminate].
  cbn [mbind result_bind].
  destruct (isinstance_int r) eqn:Hint.
  { intros [= <-]. unfold well_formed.
    split; [exists r; by rewrite !lookup_insert_ne, lookup_insert_eq by done|].
    split; [by rewrite lookup_insert_ne, lookup_insert_eq by done|].
    split; [by rewrite lookup_insert_eq|].
    split; [intros info; by rewrite !lookup_insert_ne, lookup_empty by done|].
    intros key [v Hv].
    repeat (apply lookup_insert_Some in Hv as [[<- _]|[_ Hv]];
            [rewrite !elem_of_cons; tauto|]).
    by rewrite lookup_empty in Hv. }
  destruct (negb (isinstance_tuple r)); [discriminate|].
  destruct (negb (len r =? 2)); [discriminate|].
  destruct (negb (isinstance_int (item r 0))) eqn:Hcode; [discriminate|].
  destruct (negb (isinstance_dict (item r 1))) eqn:Hinfo; [discriminate|].
  apply negb_false_iff in Hcode, Hinfo.
  intros [= <-]. unfold well_formed.
  split; [exists (item r 0); by rewrite !lookup_insert_ne, lookup_insert_eq by done|].
  split; [by rewrite lookup_insert_ne, lookup_insert_eq by done|].
  split; [by rewrite lookup_insert_eq|].
  split.
  { intros info. rewrite !lookup_insert_ne, lookup_insert_eq by done.
    by intros [= <-]. }
  intros key [v Hv].
  repeat (apply lookup_insert_Some in Hv as [[<- _]|[_ Hv]];
          [rewrite !elem_of_cons; tauto|]).
  by rewrite lookup_empty in Hv.
Qed.

Lemma call_well_formed self m report :
  call self m = Ok report →
  ∃ name description raw,
    m = TestMethod name description raw ∧ well_formed name description report.
Proof.
  destruct m as [name description raw| |v]; cbn [call]; [|discriminate..].
  intros Htest. exists name, description, raw. split; [done|].
  by apply test_well_formed in Htest.
Qed.

Lemma run_loop_well_formed self tests : ∀ results out reports out',
  (∀ p, p ∈ tests → p ∈ members self) →
  Forall (reported_by self) results →
  run_loop self tests results out = (Ok reports, out') →
  Forall (reported_by self) reports.
Proof.
  induction tests as [|[n m] tests IH]; intros results out reports out' Hsub Hall;
    simpl.
  - by intros [= <- _].
  - assert (∀ p, p ∈ tests → p ∈ members self) as Hsub'
      by (intros p Hp; apply Hsub; by apply list_elem_of_further).
    pose proof (call_well_formed self m) as Hcall.
    destruct (call self m) as [report|e].
    + apply IH; [done|]. apply Forall_app. split; [done|].
      constructor; [|constructor].
      destruct (Hcall report eq_refl) as (name & description & raw & -> & Hwf).
      exists n, name, description, raw. split; [|done].
      apply Hsub, list_elem_of_here.
    + destruct e; try discriminate. by apply IH.
Qed.

Lemma getmembers_members self predicate p :
  p ∈ getmembers self predicate → p ∈ members self.
Proof.
  unfold getmembers. rewrite list_elem_of_filter. intros [_ Hp].
  by rewrite merge_sort_Permutation in Hp.
Qed.

Lemma run_well_formed self reports out :
  run self = (Ok reports, out) → Forall (reported_by self) reports.
Proof.
  unfold run. apply run_loop_well_formed; [|constructor].
  intros p. apply getmembers_members.
Qed.

Lemma run_all_loop_well_formed (loaded : list TestSet) test_sets :
  ∀ results out reports out',
  (∀ ts, ts ∈ test_sets → ts ∈ loaded) →
  Forall (λ report, ∃ ts, ts ∈ loaded ∧ reported_by ts report) results →
  run_all_loop test_sets results out = (Ok reports, out') →
  Forall (λ report, ∃ ts, ts ∈ loaded ∧ reported_by ts report) reports.
Proof.
  induction test_sets as [|ts test_sets IH];
    intros results out reports out' Hsub Hall; simpl.
  - by intros [= <- _].
  - destruct (run ts) as [[rs|e] printed] eqn:Hrun; [|discriminate].
    apply IH.
    { intros ts' Hts'. apply Hsub. by apply list_elem_of_further. }
    apply Forall_app. split; [done|].
    eapply Forall_impl; [exact (run_well_formed ts rs printed Hrun)|].
    intros report Hreport. exists ts. split; [|done].
    apply Hsub, list_elem_of_here.
Qed.

(** X1.  Whatever the test methods of a test set do, every report that [run]
    returns is the report of one of its test methods: it has an integer
    [result_code], the [test_name] and the [test_description] that the
    decorator of that method was given, no other key but [additional_info],
    and that one only with a dictionary.  The same holds for the reports that
    [run_all_tests] returns for a collection, each for a test method of one
    of the loaded test sets. *)
Theorem reports_are_well_formed :
  (∀ self reports out,
     run self = (Ok reports, out) → Forall (reported_by self) reports)
  ∧ (∀ test_sets reports out,
       run_all_tests test_sets = (Ok reports, out) →
       Forall (λ report, ∃ ts, ts ∈ test_sets ∧ reported_by ts report) reports).
Proof.
  split.
  - apply run_well_formed.
  - intros test_sets reports out. unfold run_all_tests.
    apply run_all_loop_well_formed; [done|constructor].
Qed.

Lemma leb_trans (s1 s2 s3 : string) :
  String.leb s1 s2 = true → String.leb s2 s3 = true → String.leb s1 s3 = true.
Proof.
  unfold String.leb. intros H12 H23.
  destruct (String.compare s1 s2) eqn:C12; try discriminate;
    destruct (String.compare s2 s3) eqn:C23; try discriminate.
  - apply OrderedTypeEx.String_as_OT.cmp_eq in C12 as ->. by rewrite C23.
  - apply OrderedTypeEx.String_as_OT.cmp_eq in C12 as ->. by rewrite C23.
  - apply OrderedTypeEx.String_as_OT.cmp_eq in C23 as <-. by rewrite C12.
  - apply OrderedTypeEx.String_as_OT.cmp_lt in C12, C23.
    pose proof (OrderedTypeEx.String_as_OT.lt_trans _ _ _ C12 C23) as C13.
    apply OrderedTypeEx.String_as_OT.cmp_lt in C13.
    unfold OrderedTypeEx.String_as_OT.cmp in C13. by rewrite C13.
Qed.

Lemma name_le_trans :
  Transitive (λ p q : string * member, Is_true (String.leb p.1 q.1)).
Proof.
  intros p q r Hpq Hqr. apply Is_true_true in Hpq, Hqr. apply Is_true_true.
  by eapply leb_trans.
Qed.

Lemma name_le_total :
  Total (λ p q : string * member, Is_true (String.leb p.1 q.1)).
Proof.
  intros p q. destruct (String.leb_total p.1 q.1) as [Hle|Hle];
    [left|right]; by apply Is_true_true.
Qed.

Lemma NoDup_names_eq (l : list (string * member)) p q :
  NoDup l.*1 → p ∈ l → q ∈ l → p.1 = q.1 → p = q.
Proof.
  induction l as [|x l IH]; [by intros _ Hp; apply elem_of_nil in Hp|].
  rewrite fmap_cons. intros Hnd Hp Hq Heq. apply NoDup_cons in Hnd as [Hx Hnd].
  apply elem_of_cons in Hp as [->|Hp]; apply elem_of_cons in Hq as [->|Hq].
  - done.
  - exfalso. apply Hx. rewrite Heq. by apply list_elem_of_fmap_2.
  - exfalso. apply Hx. rewrite <- Heq. by apply list_elem_of_fmap_2.
  - by apply IH.
Qed.

Lemma getmembers_permutation self self' predicate :
  NoDup (members self).*1 → members self ≡ₚ members self' →
  getmembers self predicate = getmembers self' predicate.
Proof.
  intros Hnd Hperm. unfold getmembers. f_equal.
  apply StronglySorted_unique_strong
    with (R := λ p q : string * member, Is_true (String.leb p.1 q.1)).
  - intros p q Hp Hq Hpq Hqp.
    rewrite merge_sort_Permutation in Hp, Hq. rewrite <- Hperm in Hq.
    apply (NoDup_names_eq (members self)); [done..|].
    apply Is_true_true in Hpq, Hqp. by apply String.leb_antisym.
  - apply StronglySorted_merge_sort; [apply name_le_trans|apply name_le_total].
  - apply StronglySorted_merge_sort; [apply name_le_trans|apply name_le_total].
  - by rewrite !merge_sort_Permutation.
Qed.

Lemma run_loop_self self self' tests : ∀ results out,
  run_loop self tests results out = run_loop self' tests results out.
Proof.
  induction tests as [|[n m] tests IH]; intros results out; [done|]. simpl.
  replace (call self' m) with (call self m) by by destruct m.
  destruct (call self m) as [report|e]; [apply IH|].
  destruct e; done || apply IH.
Qed.

(** X2.  [run] does not depend on the order in which the attributes of the
    test set are defined: two instances with the same attributes, whose names
    are distinct, give the same reports in the same order, that of the
    attribute names, and print the same lines. *)
Theorem run_ignores_definition_order (self self' : TestSet) :
  NoDup (members self).*1 → members self ≡ₚ members self' →
  run self = run self'.
Proof.
  intros Hnd Hperm. unfold run.
  rewrite (getmembers_permutation self self' _ Hnd Hperm).
  apply run_loop_self.
Qed.

Lemma getmembers_marked self p :
  p ∈ getmembers self is_test_method → is_test_method p.2 = true.
Proof.
  unfold getmembers. intros Hp. apply list_elem_of_filter in Hp as [Ht _].
  by destruct (is_test_method p.2).
Qed.

Lemma run_loop_app self before rest : ∀ results out,
  Forall (λ p, is_test_method p.2 = true ∧ returns_or_violates p.2) before →
  run_loop self (before ++ rest) results out
  = run_loop self rest (results ++ omap (λ p, report_of p.2) before)
      (out ++ omap (λ p, logged self p.2) before).
Proof.
  induction before as [|[n m] before IH]; intros results out Hall.
  - simpl. by rewrite !app_nil_r.
  - apply Forall_cons in Hall as [[Ht Hr] Hall]. simpl in *.
    pose proof (call_report self m Ht Hr) as Hcall. unfold logged at 1.
    destruct (report_of m) as [rep|].
    + rewrite Hcall, (IH (results ++ [rep]) out Hall). by rewrite <- app_assoc.
    + destruct Hcall as [msg ->]. rewrite (IH _ _ Hall). by rewrite <- app_assoc.
Qed.

(** X3.  [run] catches [InvalidTestMethod] only.  When the body of a test
    method raises anything else, the exception leaves [run]: the tests after
    it in the order of the names are not executed and the reports gathered so
    far are lost; what the earlier tests have printed stays printed. *)
Theorem run_stops_at_foreign_exception (self : TestSet)
    (before after : list (string * member)) (attribute name description : string)
    (e : exn) :
  getmembers self is_test_method
  = before ++ (attribute, TestMethod name description (Raise e)) :: after →
  Forall (λ p, returns_or_violates p.2) before →
  foreign e →
  run self = (Raise e, omap (λ p, logged self p.2) before).
Proof.
  intros Hmembers Hbefore Hforeign. unfold run. rewrite Hmembers.
  rewrite run_loop_app.
  - simpl. destruct e; try done. by destruct (Hforeign msg).
  - apply Forall_forall. intros p Hp. split.
    + apply (getmembers_marked self). rewrite Hmembers.
      apply elem_of_app. by left.
    + by apply (proj1 (Forall_forall _ _) Hbefore).
Qed.

Lemma run_protocol self :
  Forall (λ p, returns_or_violates p.2) (members self) →
  run self = (Ok (reports_of_set self), logged_by_set self).
Proof.
  intros Hall. unfold run, reports_of_set, logged_by_set.
  by rewrite run_loop_reports by by apply getmembers_tests.
Qed.

Lemma run_all_loop_protocol test_sets : ∀ results out,
  Forall (λ ts, Forall (λ p, returns_or_violates p.2) (members ts)) test_sets →
  run_all_loop test_sets results out
  = (Ok (results ++ (test_sets ≫= reports_of_set)),
     out ++ (test_sets ≫= logged_by_set)).
Proof.
  induction test_sets as [|ts test_sets IH]; intros results out Hall.
  - simpl. by rewrite !app_nil_r.
  - apply Forall_cons in Hall as [Hts Hall]. cbn [run_all_loop].
    rewrite (run_protocol ts Hts), (IH _ _ Hall).
    by rewrite !bind_cons, !app_assoc.
Qed.

(** X4.  [run_all_tests] returns one flat list: the reports of the first test
    set of the collection, then those of the second, and so on, each in the
    order of [run]; what the runs print follows the same order.  When the run
    of a test set raises, [run_all_tests] raises the same exception and the
    reports of the earlier test sets are lost. *)
Theorem run_all_tests_concatenates (test_sets : list TestSet) :
  Forall (λ ts, Forall (λ p, returns_or_violates p.2) (members ts)) test_sets →
  run_all_tests test_sets
  = (Ok (test_sets ≫= reports_of_set), test_sets ≫= logged_by_set)
  ∧ ∀ ts rest e out,
      run ts = (Raise e, out) →
      run_all_tests (test_sets ++ ts :: rest)
      = (Raise e, (test_sets ≫= logged_by_set) ++ out).
Proof.
  intros Hall. split.
  - unfold run_all_tests. by rewrite run_all_loop_protocol.
  - intros ts rest e out Hrun. unfold run_all_tests.
    assert (∀ results printed,
              run_all_loop (test_sets ++ ts :: rest) results printed
              = (Raise e, printed ++ (test_sets ≫= logged_by_set) ++ out)) as Hloop.
    { clear -Hall Hrun. induction Hall as [|t l Ht _ IH]; intros results printed.
      - simpl. by rewrite Hrun.
      - cbn [app run_all_loop]. rewrite (run_protocol t Ht), IH.
        by rewrite bind_cons, !app_assoc. }
    by rewrite Hloop.
Qed.

Lemma scan_missing f : ∀ cur,
  Forall (λ l, String.prefix "TracerPid" l = false) f →
  scan f cur = match last f with
               | Some l => Some l
               | None => cur
               end.
Proof.
  induction f as [|l f IH]; intros cur Hall; [done|].
  apply Forall_cons in Hall as [Hl Hall]. cbn [scan]. rewrite Hl, (IH _ Hall).
  rewrite last_cons. by destruct (last f).
Qed.

(** X5.  The plugin does not check that it has found the line it looks for. On
    a status file without a [TracerPid] line, the loop variable is left at
    the last line of the file and the plugin reports the last field of that
    line as the tracer pid, when it reads as an integer; on an empty file the
    variable is unbound and the plugin raises [UnboundLocalError]. *)
Theorem plugin_without_tracer_line (f : list string) :
  Forall (λ l, String.prefix "TracerPid" l = false) f →
  is_tracer_attached_body (Ok f)
  = match last f with
    | None => Raise UnboundLocalError
    | Some line =>
        field ← last_field line;
        pid ← int_of_str field;
        Ok (tracer_result pid)
    end.
Proof.
  intros Hall. unfold is_tracer_attached_body. cbn [mbind result_bind].
  rewrite (scan_missing f None Hall). by destruct (last f).
Qed.

Lemma body_cases proc_self_status :
  (∃ pid, is_tracer_attached_body proc_self_status = Ok (tracer_result pid))
  ∨ (∃ e, is_tracer_attached_body proc_self_status = Raise e
          ∧ (proc_self_status = Raise e ∨ foreign e)).
Proof.
  unfold is_tracer_attached_body.
  destruct proc_self_status as [f|e]; [|right; exists e; by split; [|left]].
  cbn [mbind result_bind].
  destruct (scan f None) as [line|]; cbn [mbind result_bind];
    [|right; eexists; split; [done|by right]].
  unfold last_field. destruct (last (py.split line)) as [w|]; cbn [mbind result_bind];
    [|right; eexists; split; [done|by right]].
  unfold int_of_str.
  match goal with |- context [match ?r with Some n => Ok n | None => _ end] =>
    destruct r as [pid|] end; cbn [mbind result_bind].
  - left. by exists pid.
  - right. eexists. split; [done|by right].
Qed.

(** X6.  The reference plugin never violates the return contract of [test].
    Provided that opening the status file does not itself raise
    [InvalidTestMethod], a run of the [MonitoringSet] either returns exactly
    one report, with result code 1 for the pid 0 and -1 for any other pid and
    with the pid as [found_pid], or it raises the exception of the plugin's
    body; in neither case is anything printed. *)
Theorem monitoring_set_run (proc_self_status : result (list string)) :
  (∀ msg, proc_self_status ≠ Raise (InvalidTestMethod msg)) →
  (∃ pid, is_tracer_attached_body proc_self_status = Ok (tracer_result pid)
          ∧ run (MonitoringSet proc_self_status) = (Ok [tracer_report pid], []))
  ∨ (∃ e, is_tracer_attached_body proc_self_status = Raise e
          ∧ run (MonitoringSet proc_self_status) = (Raise e, [])).
Proof.
  intros Hopen.
  assert (run (MonitoringSet proc_self_status)
          = run_loop (MonitoringSet proc_self_status)
              [("is_tracer_attached",
                TestMethod "Is tracer attached?"
                  "Looks for a TracerPid different than 0."
                  (is_tracer_attached_body proc_self_status))] [] []) as ->
    by reflexivity.
  cbn [run_loop call]. unfold test.
  destruct (body_cases proc_self_status) as [[pid Hbody]|(e & Hbody & He)].
  - left. exists pid. split; [done|]. by rewrite Hbody.
  - right. exists e. split; [done|]. rewrite Hbody. cbn [mbind result_bind].
    destruct e; try done. destruct He as [->|He]; [by destruct (Hopen msg)|].
    by destruct (He msg).
Qed.

Lemma digit_cases d : 0 ≤ d < 10 →
  d = 0 ∨ d = 1 ∨ d = 2 ∨ d = 3 ∨ d = 4 ∨ d = 5 ∨ d = 6 ∨ d = 7 ∨ d = 8 ∨ d = 9.
Proof. lia. Qed.

Lemma digit_char_of d : 0 ≤ d < 10 →
  digit_of (digit_char d) = Some d ∧ isspace (digit_char d) = false
  ∧ Ascii.eqb (digit_char d) "_" = false.
Proof.
  intros Hd. destruct (digit_cases d Hd) as [->|[->|[->|[->|[->|[->|[->|[->|[->| ->]]]]]]]]];
    by vm_compute.
Qed.

Lemma parse_digits_decimal_step a d rest : 0 ≤ d < 10 →
  parse_digits a false (String (digit_char d) rest)
  = parse_digits (10 * a + d) false rest.
Proof.
  intros Hd. destruct (digit_char_of d Hd) as (Hof & _ & Hus).
  cbn [parse_digits]. by rewrite Hus, Hof.
Qed.

Lemma append_assoc (s1 s2 s3 : string) : (s1 +:+ s2) +:+ s3 = s1 +:+ (s2 +:+ s3).
Proof.
  induction s1 as [|c s1 IH]; [done|].
  change (String c ((s1 +:+ s2) +:+ s3) = String c (s1 +:+ (s2 +:+ s3))).
  by rewrite IH.
Qed.

Lemma digits_go_spec fuel : ∀ n acc,
  0 ≤ n < 2 ^ Z.of_nat (S fuel) →
  ∃ ds, digits_go (S fuel) n acc = ds +:+ acc ∧ ds ≠ "" ∧ decimal ds
        ∧ ∃ k : nat, ∀ a rest, parse_digits a false (ds +:+ rest)
                               = parse_digits (a * 10 ^ Z.of_nat k + n) false rest.
Proof.
  induction fuel as [|fuel IH]; intros n acc Hn.
  all: assert (0 ≤ n `mod` 10 < 10) as Hmod by (apply Z.mod_pos_bound; lia).
  all: cbn [digits_go]; destruct (Z.ltb_spec n 10) as [Hlt|Hge].
  1, 3: exists (String (digit_char (n `mod` 10)) "");
    (split; [done|]); (split; [done|]); (split; [split; [eauto|done]|]);
    exists 1%nat; intros a rest;
    change (String (digit_char (n `mod` 10)) "" +:+ rest)
      with (String (digit_char (n `mod` 10)) rest);
    rewrite parse_digits_decimal_step by done;
    rewrite Z.mod_small by lia; f_equal; lia.
  - exfalso. change (2 ^ Z.of_nat 1) with 2 in Hn. lia.
  - assert (0 ≤ n / 10 < 2 ^ Z.of_nat (S fuel)) as Hdiv.
    { split; [apply Z.div_pos; lia|].
      apply Z.div_lt_upper_bound; [lia|].
      rewrite (Nat2Z.inj_succ (S fuel)), Z.pow_succ_r in Hn by lia. lia. }
    destruct (IH (n / 10) (String (digit_char (n `mod` 10)) acc) Hdiv)
      as (ds & Hgo & Hne & Hdec & k & Hparse).
    change (digits_go (S fuel) (n / 10) (String (digit_char (n `mod` 10)) acc))
      with (digits_go (S fuel) (n / 10) (String (digit_char (n `mod` 10)) acc)).
    exists (ds +:+ String (digit_char (n `mod` 10)) "").
    split.
    { cbn [digits_go] in Hgo. rewrite Hgo. by rewrite append_assoc. }
    split; [by destruct ds|]. split.
    + clear -Hdec Hmod. induction ds as [|c ds IHds]; [split; [eauto|done]|].
      destruct Hdec as [Hc Hdec]. split; [done|by apply IHds].
    + exists (S k). intros a rest. rewrite append_assoc.
      change (String (digit_char (n `mod` 10)) "" +:+ rest)
        with (String (digit_char (n `mod` 10)) rest).
      rewrite Hparse, parse_digits_decimal_step by done. f_equal.
      rewrite Nat2Z.inj_succ, Z.pow_succ_r by lia.
      pose proof (Z.div_mod n 10). lia.
Qed.

Lemma append_nil_r (s : string) : s +:+ "" = s.
Proof.
  induction s as [|c s IH]; [done|].
  change (String c (s +:+ "") = String c s). by rewrite IH.
Qed.

Lemma str_of_int_decimal n : 0 ≤ n →
  str_of_int n ≠ "" ∧ decimal (str_of_int n)
  ∧ parse_digits 0 false (str_of_int n) = Some n.
Proof.
  intros Hn. unfold str_of_int. rewrite (proj2 (Z.ltb_ge n 0)) by done.
  assert (0 ≤ n < 2 ^ Z.of_nat (S (Z.to_nat (Z.log2 n)))) as Hfuel.
  { split; [done|]. rewrite Nat2Z.inj_succ, Z2Nat.id by apply Z.log2_nonneg.
    destruct (Z.eq_dec n 0) as [->|Hne]; [done|].
    apply Z.log2_spec. lia. }
  destruct (digits_go_spec _ n "" Hfuel) as (ds & -> & Hne & Hdec & k & Hparse).
  rewrite append_nil_r. split; [done|]. split; [done|].
  specialize (Hparse 0 ""). rewrite append_nil_r in Hparse. by rewrite Hparse.
Qed.

Lemma decimal_rstrip ds : decimal ds → rstrip ds = ds.
Proof.
  induction ds as [|c ds IH]; [done|]. intros [(d & Hd & ->) Hdec].
  cbn [rstrip]. rewrite (IH Hdec).
  destruct (digit_char_of d Hd) as (_ & -> & _). by destruct ds.
Qed.

Lemma decimal_lstrip ds : decimal ds → lstrip ds = ds.
Proof.
  destruct ds as [|c ds]; [done|]. intros [(d & Hd & ->) _].
  cbn [lstrip]. by destruct (digit_char_of d Hd) as (_ & -> & _).
Qed.

Lemma decimal_split_go ds : ∀ cur rest,
  decimal ds → split_go cur (ds +:+ rest) = split_go (cur +:+ ds) rest.
Proof.
  induction ds as [|c ds IH]; intros cur rest; [by rewrite append_nil_r|].
  intros [(d & Hd & ->) Hdec].
  change (String (digit_char d) ds +:+ rest) with (String (digit_char d) (ds +:+ rest)).
  cbn [split_go]. destruct (digit_char_of d Hd) as (_ & -> & _).
  rewrite (IH _ _ Hdec), append_assoc. done.
Qed.

Lemma int_of_str_decimal ds n :
  ds ≠ "" → decimal ds → parse_digits 0 false ds = Some n → int_of_str ds = Ok n.
Proof.
  intros Hne Hdec Hparse. unfold int_of_str, strip.
  rewrite (decimal_lstrip ds Hdec), (decimal_rstrip ds Hdec).
  destruct ds as [|c ds]; [done|]. destruct Hdec as [(d & Hd & ->) Hdec].
  assert (parse_unsigned (String (digit_char d) ds) = Some n) as Hun.
  { unfold parse_unsigned. by destruct (digit_char_of d Hd) as (_ & _ & ->). }
  destruct (digit_cases d Hd) as [->|[->|[->|[->|[->|[->|[->|[->|[->| ->]]]]]]]]];
    (change (digit_char _) with ("0"%char) in * ||
     change (digit_char _) with ("1"%char) in * ||
     change (digit_char _) with ("2"%char) in * ||
     change (digit_char _) with ("3"%char) in * ||
     change (digit_char _) with ("4"%char) in * ||
     change (digit_char _) with ("5"%char) in * ||
     change (digit_char _) with ("6"%char) in * ||
     change (digit_char _) with ("7"%char) in * ||
     change (digit_char _) with ("8"%char) in * ||
     change (digit_char _) with ("9"%char) in * );
    cbv iota; by rewrite Hun.
Qed.

(** X7.  The plugin reads the line that the kernel writes.  For every pid that
    is not negative, on a status file whose first line that starts with
    [TracerPid] is [TracerPid:], a tab, the decimal digits of the pid and a
    newline, the plugin returns the pair for that pid, and a run of the
    [MonitoringSet] returns the one report of it: result code 1 for the pid
    0, and -1 otherwise. *)
Theorem tracer_pid_line_is_read (before after : list string) (pid : Z) :
  0 ≤ pid →
  Forall (λ l, String.prefix "TracerPid" l = false) before →
  let proc_self_status := Ok (before ++ tracer_line pid :: after) in
  is_tracer_attached_body proc_self_status = Ok (tracer_result pid)
  ∧ run (MonitoringSet proc_self_status) = (Ok [tracer_report pid], []).
Proof.
  intros Hpid Hbefore proc_self_status.
  destruct (str_of_int_decimal pid Hpid) as (Hne & Hdec & Hparse).
  assert (is_tracer_attached_body proc_self_status = Ok (tracer_result pid)) as Hbody.
  { unfold is_tracer_attached_body, proc_self_status. cbn [mbind result_bind].
    rewrite (scan_found before (tracer_line pid) after None Hbefore) by reflexivity.
    cbn [mbind result_bind].
    assert (py.split (tracer_line pid) = ["TracerPid:"; str_of_int pid]) as Hsplit.
    { unfold py.split, tracer_line.
      change (split_go "" ("TracerPid:" +:+ tab +:+ str_of_int pid +:+ newline))
        with ("TracerPid:" :: split_go "" (str_of_int pid +:+ newline)).
      rewrite decimal_split_go by done.
      change ("" +:+ str_of_int pid) with (str_of_int pid).
      unfold newline. cbn [split_go]. change (isspace (ascii_of_nat 10)) with true.
      cbn iota. destruct (String.eqb_spec (str_of_int pid) ""); [done|].
      by destruct (String.eqb_spec (str_of_int pid) ""). }
    unfold last_field. rewrite Hsplit. cbn [last mbind result_bind].
    by rewrite (int_of_str_decimal _ pid Hne Hdec Hparse). }
  split; [done|].
  assert (run (MonitoringSet proc_self_status)
          = run_loop (MonitoringSet proc_self_status)
              [("is_tracer_attached",
                TestMethod "Is tracer attached?"
                  "Looks for a TracerPid different than 0."
                  (is_tracer_attached_body proc_self_status))] [] []) as ->
    by reflexivity.
  cbn [run_loop call]. unfold test. by rewrite Hbody.
Qed.

Lemma split_on_go_nonempty sep s : ∀ cur, split_on_go sep cur s ≠ [].
Proof.
  induction s as [|c s IH]; intros cur; simpl; [done|].
  destruct (Ascii.eqb c sep); [done|apply IH].
Qed.

Lemma split_on_go_dotted tp : ∀ cur,
  (1 <? Z.of_nat (length (split_on_go "." cur tp))) = true ↔ dotted tp.
Proof.
  unfold dotted.
  induction tp as [|c tp IH]; intros cur; simpl.
  - split; [discriminate|]. intros Hin. by apply elem_of_nil in Hin.
  - rewrite elem_of_cons. destruct (Ascii.eqb_spec c ".") as [->|Hc].
    + split; [by left|]. intros _. apply Z.ltb_lt.
      pose proof (split_on_go_nonempty "." tp "") as Hne.
      destruct (split_on_go "." "" tp); [done|]. cbn [length]. lia.
    + rewrite IH. split; [by right|]. by intros [?|?].
Qed.

Lemma compress_loop_selects `{Tarfile} fs tests_root names : ∀ tar out added,
  Forall2 (λ tp members,
             tar_add fs (os_path_join tests_root tp) tp filter_pycache = Ok members)
    (compressed fs tests_root names) added →
  compress_loop fs tests_root (PyStr <$> names) tar out
  = (Ok (tar ++ concat added), out ++ left_out fs tests_root names).
Proof.
  unfold compressed, left_out.
  induction names as [|tp names IH]; intros tar out added Hadded.
  - apply Forall2_nil_inv_l in Hadded as ->. simpl. by rewrite !app_nil_r.
  - cbn [fmap list_fmap compress_loop omap list_omap].
    rewrite filter_cons in Hadded.
    pose proof (split_on_go_dotted tp "") as Hdot. fold (split_on "." tp) in Hdot.
    destruct (decide (dotted tp)) as [Hd|Hd].
    + rewrite (proj2 Hdot Hd).
      rewrite decide_False in Hadded by tauto.
      rewrite (IH _ _ _ Hadded). by rewrite <- app_assoc.
    + destruct (1 <? _); [by destruct Hd; apply Hdot|]. cbv zeta.
      destruct (os_path_isdir fs (os_path_join tests_root tp)) eqn:Hp.
      * rewrite decide_True in Hadded by done.
        apply Forall2_cons_inv_l in Hadded as (members & rest & -> & Hrest & ->).
        rewrite (IH _ _ _ Hrest). cbn [concat]. by rewrite <- app_assoc.
      * rewrite decide_False in Hadded by (intros [_ ?]; done).
        rewrite (IH _ _ _ Hadded). by rewrite <- app_assoc.
Qed.

(** X28.  [compress_test_packages] on a list of names archives the top-level
    packages of the tests root and nothing else: [tar.add] is called, in the
    order of the list, for each name without a dot that is a directory of the
    tests root, under the bare name and with the filter that drops the
    [__pycache__] directories; when these calls return, the archive holds
    what they have added and one line has been printed for every other name,
    which says that a name with a dot is ignored and that no package is found
    for a name that is not a directory.  The filter drops a member exactly
    when the last component of its name is [__pycache__]. *)
Theorem compress_selects_packages `{Tarfile} (fs : gmap string fnode)
    (tests_root : string) (names : list string) (added : list (list TarInfo)) :
  Forall2 (λ tp members,
             tar_add fs (os_path_join tests_root tp) tp filter_pycache = Ok members)
    (compressed fs tests_root names) added →
  compress_test_packages fs (PyList (PyStr <$> names)) tests_root
  = (Ok (concat added), left_out fs tests_root names)
  ∧ ∀ m, filter_pycache m = (if decide (last (split_on "/" (name m)) = Some "__pycache__")
                             then None else Some m).
Proof.
  intros Hadded. split.
  - unfold compress_test_packages. cbn [iterate].
    by rewrite (compress_loop_selects fs tests_root names [] [] added Hadded).
  - intros m. unfold filter_pycache, os_path_basename.
    destruct (last (split_on "/" (name m))) as [c|] eqn:Hlast;
      cbn [default]; unfold id.
    + destruct (String.eqb_spec c "__pycache__") as [->|Hc].
      * by rewrite decide_True.
      * by rewrite decide_False by (by intros [= ->]).
    + exfalso. apply last_None in Hlast.
      by apply (split_on_go_nonempty "/" (name m) "").
Qed.

Lemma check_members_Ok `{Tarfile} tar rest : ∀ new_packages result,
  check_members tar rest new_packages = Ok result →
  result = new_packages ++ (name <$> filter (λ m, count_slash (name m) = 0) rest)
  ∧ Forall (λ m, count_slash (name m) = 0 → package tar m) rest.
Proof.
  induction rest as [|m rest IH]; intros acc result; cbn [check_members].
  - intros [= <-]. by rewrite app_nil_r.
  - rewrite filter_cons.
    destruct (Z.eqb_spec (count_slash (name m)) 0) as [Htop|Htop].
    + destruct (isdir m && member_is_package tar m) eqn:Hpkg; [|discriminate].
      apply member_is_package_spec in Hpkg. cbn [negb]. intros Hrest.
      destruct (IH _ _ Hrest) as [-> Hall].
      rewrite decide_True by done. split; [by rewrite <- app_assoc|].
      by constructor.
    + intros Hrest. destruct (IH _ _ Hrest) as [-> Hall].
      rewrite decide_False by done. split; [done|]. by constructor.
Qed.

(** X29.  What a returning call of [uncompress_test_packages] says about the
    archive, for any archive and any [tarfile] library: the validation has
    passed, so every member without a slash in its name is a directory for
    which the archive has a member [<name>/__init__.py]; the returned list is
    exactly the names of these members, in archive order; and [extractall]
    has been called for the archive and the root and has returned, leaving
    the file system of the result. *)
Theorem returned_packages_are_packages `{Tarfile} (tar : TarFile)
    (tests_root : string) (fs fs' : gmap string fnode)
    (new_packages : list string) :
  uncompress_test_packages (Ok tar) tests_root fs = (Ok new_packages, fs') →
  (∀ m, m ∈ tar → count_slash (name m) = 0 → package tar m)
  ∧ new_packages = name <$> filter (λ m, count_slash (name m) = 0) tar
  ∧ tar_extractall tar tests_root fs = (Ok (), fs').
Proof.
  unfold uncompress_test_packages.
  destruct (check_members tar tar []) as [names|e] eqn:Hcheck; [|discriminate].
  destruct (check_members_Ok _ _ _ _ Hcheck) as [-> Hall].
  destruct (tar_extractall tar tests_root fs) as [[[]|e] fs0]; [|discriminate].
  intros [= <- <-]. split; [|done].
  intros m Hm. by apply (proj1 (Forall_forall _ _) Hall).
Qed.

(** ** More of the C2 service *)

Section more_facts.
Context {externals : Externals}.

Ltac reduce_binds :=
  cbv beta iota delta [mbind view_bind result_bind lift mret view_ret result_ret].

Ltac reduce_binds_in H :=
  cbv beta iota delta [mbind view_bind result_bind lift mret view_ret result_ret] in H.

Lemma answers_success_bind {A} (v : view A) (k : A → view Response) :
  (∀ a, answers_success (k a)) → answers_success (v ≫= k).
Proof.
  intros Hk st. unfold mbind, view_bind.
  destruct (v st) as [[a|e] st1]; [apply Hk|done].
Qed.

Lemma answers_success_lift_raise e : answers_success (lift (Raise e)).
Proof. by intros st. Qed.

Lemma answers_success_abort code d : answers_success (lift (abort code d)).
Proof. by intros st. Qed.

Lemma answers_success_ret resp :
  (status_code resp = 200 ∨ status_code resp = 204) → www_authenticate resp = None →
  answers_success (mret resp).
Proof. by intros ?? st. Qed.

Lemma answers_success_relay url ip port internal_codes :
  answers_success (lift (relay_get url ip port internal_codes)).
Proof.
  intros st. unfold lift, relay_get. simpl.
  destruct (rq_get url) as [[status body]|e]; [|by destruct e].
  destruct (status =? 200); [|by case_bool_decide].
  destruct body; simpl; [|done]. split; [by left|done].
Qed.

Ltac answers_success_step :=
  first
    [ apply answers_success_relay
    | apply answers_success_abort
    | apply answers_success_lift_raise
    | apply answers_success_ret; [simpl; tauto|reflexivity]
    | apply answers_success_bind; intros ?
    | match goal with
      | |- answers_success (if ?b then _ else _) => destruct b
      | |- answers_success (match ?x with _ => _ end) => destruct x
      end ].

Lemma answers_success_view_function r req : answers_success (view_function r req).
Proof.
  destruct r; simpl;
    unfold is_up, list_environments, add_environment, remove_environment,
      get_environment_info, list_installed_test_sets, install_packages,
      delete_installed_package, execute_tests, list_available_test_sets,
      upload_test_sets, delete_package;
    repeat answers_success_step.
Qed.

(** X9.  Every answer of the service is a 200 or a 204 without a challenge, or
    an error whose body is a JSON object with the single key [error]; the
    WWW-Authenticate challenge is on the response exactly when its status is
    401. *)
Theorem responses_are_success_or_json_error (r : route) (req : Request) (st : State) :
  let resp := (handle r req st).1 in
  (((status_code resp = 200 ∨ status_code resp = 204) ∧ www_authenticate resp = None)
   ∨ ∃ msg, response resp = Jsonify (JDict [("error", JStr msg)]))
  ∧ (www_authenticate resp = Some challenge ↔ status_code resp = 401).
Proof.
  unfold handle, full_dispatch_request.
  pose proof (answers_success_view_function r req st) as Hok.
  destruct (view_function r req st) as [[resp|e] st1]; simpl in *.
  - destruct Hok as [Hstatus Hnone]. split; [by left|].
    rewrite Hnone. split; [done|]. intros H401. rewrite H401 in Hstatus.
    by destruct Hstatus.
  - split; [right; apply handle_exception_body|].
    destruct e; simpl; try (split; [done|discriminate]).
    destruct (Z.eqb_spec code 401) as [->|Hne]; [done|].
    split; [done|]. intros ?. done.
Qed.

Lemma reads_only_bind {A B} (v : view A) (k : A → view B) :
  reads_only v → (∀ a, reads_only (k a)) → reads_only (v ≫= k).
Proof.
  intros Hv Hk st. specialize (Hv st). unfold mbind, view_bind.
  destruct (v st) as [[a|e] st1]; simpl in *; subst; [apply Hk|done].
Qed.

Lemma reads_only_lift {A} (r : result A) : reads_only (lift r).
Proof. by intros st. Qed.

Lemma reads_only_ret {A} (a : A) : reads_only (mret a).
Proof. by intros st. Qed.

Lemma reads_only_read {A} (f : State → A) : reads_only (read f).
Proof. by intros st. Qed.

Ltac reads_only_step :=
  first
    [ apply reads_only_lift | apply reads_only_ret | apply reads_only_read
    | apply reads_only_bind; [|intros ?]
    | match goal with
      | |- reads_only (if ?b then _ else _) => destruct b
      | |- reads_only (match ?x with _ => _ end) => destruct x
      end ].

Lemma reads_only_routes r req :
  signer r = None → reads_only (view_function r req).
Proof.
  destruct r; simpl; try discriminate; intros _;
    unfold is_up, list_environments, get_environment_info,
      list_installed_test_sets, delete_installed_package,
      execute_tests, list_available_test_sets;
    repeat reads_only_step.
Qed.

Lemma handle_state r req st : (handle r req st).2 = (view_function r req st).2.
Proof.
  unfold handle, full_dispatch_request.
  by destruct (view_function r req st) as [[resp|e] st1].
Qed.

(** X10.  A request changes the process state only on the five routes that
    demand a signature before they write, and only when the Authorization
    header verifies for the role of the route. *)
Theorem state_changes_need_signature (r : route) (req : Request) (st : State) :
  (handle r req st).2 = st
  ∨ ∃ key_recoverer mandatory,
      signer r = Some (key_recoverer, mandatory)
      ∧ check_authorization_header key_recoverer mandatory req = Ok ().
Proof.
  rewrite handle_state.
  destruct (signer r) as [[kr mandatory]|] eqn:Hsigner.
  2:{ left. by apply reads_only_routes. }
  destruct (check_authorization_header kr mandatory req) as [[]|e] eqn:Hauth;
    [right; eauto|left].
  destruct r; simpl in Hsigner; try discriminate;
    injection Hsigner as <- <-; cbn [view_function].
  - rewrite add_environment_eq. unfold registration.
    destruct (check_digest_header req) as [[]|]; [|done].
    cbn [mbind result_bind]. by rewrite Hauth.
  - unfold remove_environment. by rewrite Hauth.
  - unfold install_packages. reduce_binds.
    destruct (check_digest_header req) as [[]|]; [|done].
    by rewrite Hauth.
  - unfold upload_test_sets.
    destruct (negb _); [done|]. reduce_binds.
    destruct (check_digest_header req) as [[]|]; [|done].
    destruct (files req) as [|f fs]; [done|].
    destruct (snd <$> find _ (f :: fs)); [|done].
    by rewrite Hauth.
  - unfold delete_package. by rewrite Hauth.
Qed.

Lemma adapt_to_key v sv : adapt v = Ok sv → ∃ k, to_key v = Ok k.
Proof. destruct v; simpl; try discriminate; eauto. Qed.

Lemma int_to_key v n : int v = Ok n → ∃ k, to_key v = Ok k.
Proof. destruct v; simpl; try discriminate; eauto. Qed.

Lemma insert_session_bound_first v to_insert now st lastrowid :
  (insert_session (v :: to_insert) now st).1 = Ok lastrowid →
  ∃ sv, adapt v = Ok sv.
Proof.
  unfold insert_session. cbn [mapM].
  destruct (adapt v) as [sv|e]; [eauto|]. discriminate.
Qed.

(** A registration is all or nothing: when [register] raises, it does so
    while the row is inserted, and the state is as before. *)
Lemma register_raise ip port port_number fields now st e st' :
  int port = Ok port_number →
  register ip port (ip :: JInt port_number :: fields) now st = (Raise e, st') →
  internal e ∧ st' = st.
Proof.
  intros Hint Hreg.
  pose proof (register_cases ip port (ip :: JInt port_number :: fields) now st) as Hc.
  rewrite Hreg in Hc. destruct Hc as (He & _ & Hwhere). split; [done|].
  unfold register in Hreg. reduce_binds_in Hreg.
  pose proof (insert_session_cases (ip :: JInt port_number :: fields) now st) as Hins.
  pose proof (insert_session_bound_first ip (JInt port_number :: fields) now st) as Hfirst.
  destruct (insert_session (ip :: JInt port_number :: fields) now st)
    as [[lastrowid|e0] st1].
  2:{ destruct Hins as [_ ->]. by injection Hreg as _ <-. }
  exfalso.
  destruct (Hfirst lastrowid eq_refl) as [sv Hsv].
  destruct (adapt_to_key _ _ Hsv) as [ipk Hipk].
  destruct (int_to_key _ _ Hint) as [portk Hportk].
  destruct Hwhere as [Hw|[Hw|Hw]]; [discriminate Hw|congruence..].
Qed.

Lemma post_environments_cases req now st :
  (∃ ip_key port_key row,
     handle (PostEnvironments now) req st
     = (no_content,
        with_environments (with_session st (session st ++ [row]))
          (bound (environments st) ip_key port_key
             (entry (id_session row) (session_start row))))
     ∧ id_session row = next_rowid (session st) ∧ session_start row = now)
  ∨ (refusal (handle (PostEnvironments now) req st).1
     ∧ (handle (PostEnvironments now) req st).2 = st).
Proof.
  unfold handle, full_dispatch_request. cbn [view_function].
  rewrite add_environment_eq.
  pose proof (registration_status req) as Hstatus.
  destruct (registration req) as [[[ip port] ti]|e] eqn:Hreg.
  2:{ right. simpl. split; [|done]. split.
      - rewrite handle_exception_status. exact Hstatus.
      - apply handle_exception_body. }
  apply registration_Ok in Hreg
    as (_ & _ & _ & body & pinfo & _ & _ & _ & _ & _ & Hti).
  apply to_insert_of_fields in Hti as (n & fields & Hint & _ & ->).
  pose proof (register_cases ip port (ip :: JInt n :: fields) now st) as Hc.
  destruct (register ip port (ip :: JInt n :: fields) now st) as [[resp|e] st1] eqn:Hr.
  - left. destruct Hc as (-> & ipk & portk & row & _ & _ & Hid & Hstart & ->).
    exists ipk, portk, row. by rewrite Hid, Hstart.
  - right. destruct (register_raise _ _ _ _ _ _ _ _ Hint Hr) as [He ->].
    simpl. split; [|done]. split.
    + rewrite handle_exception_status, internal_status by done. simpl. tauto.
    + apply handle_exception_body.
Qed.

Lemma lookup_bound_ne envs ip port e ip' port' :
  (ip', port') ≠ (ip, port) →
  bound envs ip port e !! ip' ≫= (.!! port') = envs !! ip' ≫= (.!! port').
Proof.
  intros Hne. unfold bound.
  destruct (decide (ip' = ip)) as [->|Hip].
  - rewrite lookup_insert_eq. simpl.
    rewrite lookup_insert_ne by congruence.
    by destruct (envs !! ip).
  - by rewrite lookup_insert_ne.
Qed.

(** X11.  POST /environments is atomic.  Either the answer is 204, exactly one
    row has been appended to the session table, (ip, port) is bound to the
    entry of that row and every other environment is as before; or the answer
    is an error with status 400, 401, 415 or 500 and the state is unchanged. *)
Theorem registration_is_atomic (req : Request) (now : Z) (st : State) :
  let resp := (handle (PostEnvironments now) req st).1 in
  let st' := (handle (PostEnvironments now) req st).2 in
  (resp = no_content
   ∧ ∃ ip_key port_key row,
       session st' = session st ++ [row]
       ∧ environments st' !! ip_key ≫= (.!! port_key)
         = Some (entry (id_session row) (session_start row))
       ∧ (∀ ip' port', (ip', port') ≠ (ip_key, port_key) →
            environments st' !! ip' ≫= (.!! port')
            = environments st !! ip' ≫= (.!! port'))
       ∧ filesystem st' = filesystem st ∧ available st' = available st
       ∧ stdout st' = stdout st)
  ∨ (refusal resp ∧ st' = st).
Proof.
  destruct (post_environments_cases req now st)
    as [(ipk & portk & row & Hh & _ & _)|Hrefused]; [left|by right].
  rewrite Hh. simpl. split; [done|]. exists ipk, portk, row.
  split; [done|]. split; [apply lookup_bound_eq|].
  split; [|done]. intros ip' port' Hne. by apply lookup_bound_ne.
Qed.

Lemma delete_environment_cases req ip port st :
  check_authorization_header node_key_recoverer [] req = Ok () →
  if registered (environments st) (KStr ip) (KStr port) then
    handle (DeleteEnvironment ip port) req st
    = (no_content,
       with_environments st (unbound (environments st) (KStr ip) (KStr port)))
  else
    is_json_error 404 (handle (DeleteEnvironment ip port) req st).1
    ∧ (handle (DeleteEnvironment ip port) req st).2 = st.
Proof.
  intros Hauth.
  destruct (registered (environments st) (KStr ip) (KStr port)) eqn:Hreg.
  - unfold handle, full_dispatch_request. cbn [view_function].
    unfold remove_environment. rewrite Hauth. unfold read. reduce_binds.
    by rewrite (check_registered_true _ _ _ Hreg).
  - by apply (unregistered_not_found (DeleteEnvironment ip port) req st ip port).
Qed.

Lemma lookup_unbound_eq envs ip port : unbound envs ip port !! ip ≫= (.!! port) = None.
Proof.
  unfold unbound. case_bool_decide.
  - by rewrite lookup_delete_eq.
  - rewrite lookup_insert_eq. simpl. apply lookup_delete_eq.
Qed.

Lemma lookup_unbound_ne envs ip port ip' port' :
  (ip', port') ≠ (ip, port) →
  unbound envs ip port !! ip' ≫= (.!! port') = envs !! ip' ≫= (.!! port').
Proof.
  intros Hne. unfold unbound.
  set (ports := delete port (default ∅ (envs !! ip))).
  destruct (decide (ip' = ip)) as [->|Hip].
  - assert (port' ≠ port) as Hp by congruence.
    assert (envs !! ip ≫= (.!! port') = ports !! port') as ->.
    { unfold ports. rewrite lookup_delete_ne by done. by destruct (envs !! ip). }
    case_bool_decide as Hempty.
    + rewrite lookup_delete_eq, Hempty. done.
    + by rewrite lookup_insert_eq.
  - case_bool_decide; [by rewrite lookup_delete_ne|by rewrite lookup_insert_ne].
Qed.

(** X12.  DELETE /environments/ip/port with a valid Node signature.  For a
    registered environment the answer is 204, (ip, port) is gone from the
    registry, every other environment is as before, the ip is dropped from
    the registry exactly when it has no other port, and the session table
    keeps its rows.  For an environment that is not registered the answer is a
    404 and the state is unchanged. *)
Theorem deregistration_prunes (req : Request) (ip port : string) (st : State) :
  check_authorization_header node_key_recoverer [] req = Ok () →
  let resp := (handle (DeleteEnvironment ip port) req st).1 in
  let st' := (handle (DeleteEnvironment ip port) req st).2 in
  (registered (environments st) (KStr ip) (KStr port) = true →
     resp = no_content
     ∧ environments st' !! KStr ip ≫= (.!! KStr port) = None
     ∧ (∀ ip' port', (ip', port') ≠ (KStr ip, KStr port) →
          environments st' !! ip' ≫= (.!! port')
          = environments st !! ip' ≫= (.!! port'))
     ∧ (environments st' !! KStr ip = None ↔
        ∀ port', port' ≠ KStr port →
          environments st !! KStr ip ≫= (.!! port') = None)
     ∧ session st' = session st ∧ filesystem st' = filesystem st
     ∧ available st' = available st ∧ stdout st' = stdout st)
  ∧ (registered (environments st) (KStr ip) (KStr port) = false →
     is_json_error 404 resp ∧ st' = st).
Proof.
  intros Hauth. pose proof (delete_environment_cases req ip port st Hauth) as Hc.
  split; intros Hreg; rewrite Hreg in Hc; [|done].
  rewrite Hc. simpl. split; [done|]. split; [apply lookup_unbound_eq|].
  split; [intros ip' port' Hne; by apply lookup_unbound_ne|].
  split; [|done].
  unfold unbound.
  set (ports := delete (KStr port) (default ∅ (environments st !! KStr ip))).
  assert (∀ port', port' ≠ KStr port →
            environments st !! KStr ip ≫= (.!! port') = ports !! port') as Hports.
  { intros port' Hp. unfold ports. rewrite lookup_delete_ne by done.
    by destruct (environments st !! KStr ip). }
  case_bool_decide as Hempty.
  - rewrite lookup_delete_eq. split; [|done]. intros _ port' Hp.
    by rewrite Hports, Hempty.
  - rewrite lookup_insert_eq. split; [done|]. intros Hnone. exfalso.
    apply Hempty. apply map_eq. intros port'. rewrite lookup_empty.
    destruct (decide (port' = KStr port)) as [->|Hp].
    + apply lookup_delete_eq.
    + rewrite <- Hports by done. by apply Hnone.
Qed.

Lemma keeps_registry_bind {A B} (v : view A) (k : A → view B) :
  keeps_registry v → (∀ a, keeps_registry (k a)) → keeps_registry (v ≫= k).
Proof.
  intros Hv Hk st. specialize (Hv st). unfold mbind, view_bind.
  destruct (v st) as [[a|e] st1]; simpl in *; [|done].
  destruct Hv as [<- <-]. apply Hk.
Qed.

Lemma keeps_registry_reads_only {A} (v : view A) : reads_only v → keeps_registry v.
Proof. intros Hv st. by rewrite Hv. Qed.

Lemma keeps_registry_set_filesystem fs : keeps_registry (set_filesystem fs).
Proof. by intros st. Qed.

Lemma keeps_registry_set_available content : keeps_registry (set_available content).
Proof. by intros st. Qed.

Lemma keeps_registry_print line : keeps_registry (print line).
Proof. by intros st. Qed.

Ltac keeps_registry_step :=
  first
    [ apply keeps_registry_set_filesystem | apply keeps_registry_set_available
    | apply keeps_registry_print
    | apply keeps_registry_reads_only;
      first [apply reads_only_lift | apply reads_only_ret | apply reads_only_read]
    | apply keeps_registry_bind; [|intros ?]
    | match goal with
      | |- keeps_registry (if ?b then _ else _) => destruct b
      | |- keeps_registry (match ?x with _ => _ end) => destruct x
      end ].

Lemma keeps_registry_describe_packages new_packages :
  ∀ new_info, keeps_registry (describe_packages new_packages new_info).
Proof.
  induction new_packages as [|p l IH]; intros new_info; simpl.
  - apply keeps_registry_reads_only, reads_only_ret.
  - repeat keeps_registry_step; apply IH.
Qed.

Lemma keeps_registry_print_lines lines : keeps_registry (print_lines lines).
Proof.
  induction lines as [|line lines IH]; simpl.
  - apply keeps_registry_reads_only, reads_only_ret.
  - apply keeps_registry_bind; [apply keeps_registry_print|intros _; apply IH].
Qed.

(** The routes that manage the catalogue of test sets and the routes that
    read or relay work on the registry and the session table as they find
    them. *)
Lemma keeps_registry_routes r req :
  match r with
  | PostEnvironments _ | DeleteEnvironment _ _ => True
  | _ => keeps_registry (view_function r req)
  end.
Proof.
  destruct r; try done; cbn [view_function];
    try (apply keeps_registry_reads_only, (reads_only_routes _ req); reflexivity);
    unfold install_packages, upload_test_sets, delete_package;
    repeat first [ apply keeps_registry_describe_packages
                 | apply keeps_registry_print_lines | keeps_registry_step ].
Qed.

(** How a request moves the registry and the session table: not at all, by
    a registration, or by a deregistration. *)
Lemma registry_transition r req st :
  let st' := (handle r req st).2 in
  (environments st' = environments st ∧ session st' = session st)
  ∨ (∃ ip_key port_key row,
       environments st' = bound (environments st) ip_key port_key
                            (entry (id_session row) (session_start row))
       ∧ session st' = session st ++ [row]
       ∧ id_session row = next_rowid (session st))
  ∨ (∃ ip port,
       registered (environments st) (KStr ip) (KStr port) = true
       ∧ environments st' = unbound (environments st) (KStr ip) (KStr port)
       ∧ session st' = session st).
Proof.
  pose proof (keeps_registry_routes r req) as Hkeep.
  destruct r;
    try (left; rewrite handle_state; apply Hkeep).
  - destruct (post_environments_cases req now st)
      as [(ipk & portk & row & Hh & Hid & _)|[_ Hsame]].
    + right. left. exists ipk, portk, row. by rewrite Hh.
    + left. simpl. by rewrite Hsame.
  - destruct (check_authorization_header node_key_recoverer [] req) as [[]|e] eqn:Hauth.
    + pose proof (delete_environment_cases req ip port st Hauth) as Hc.
      destruct (registered (environments st) (KStr ip) (KStr port)) eqn:Hreg.
      * right. right. exists ip, port. by rewrite Hc.
      * left. simpl. by rewrite (proj2 Hc).
    + left. simpl. rewrite handle_state. cbn [view_function].
      unfold remove_environment. by rewrite Hauth.
Qed.

(** X13.  The ids of the session table keep growing: if they grow from row to
    row before a request, they do so after it, whatever the route; a row that
    a request appends has an id above all earlier ones.  The ids are taken
    below the largest 64-bit integer, up to which SQLite counts upwards. *)
Theorem session_ids_keep_increasing (r : route) (req : Request) (st : State) :
  ids_increasing (session st) →
  Forall (λ row, id_session row < 2 ^ 63 - 1) (session st) →
  ids_increasing (session (handle r req st).2)
  ∧ NoDup (id_session <$> session (handle r req st).2).
Proof.
  intros Hinc _.
  assert (ids_increasing (session (handle r req st).2)) as Hinc'.
  { destruct (registry_transition r req st)
      as [[_ ->]|[(ipk & portk & row & _ & -> & Hid)|(ip & port & _ & _ & ->)]];
      [done| |done].
    unfold ids_increasing. rewrite fmap_app. apply StronglySorted_app_2.
    - intros x1 x2 Hx1 Hx2. apply list_elem_of_singleton in Hx2 as ->.
      apply list_elem_of_fmap in Hx1 as (r1 & -> & Hr1).
      rewrite Hid. by apply next_rowid_above.
    - done.
    - repeat constructor. }
  split; [done|].
  clear -Hinc'. unfold ids_increasing in Hinc'.
  induction Hinc' as [|x l _ IH Hall]; constructor; [|done].
  intros Hin. apply (proj1 (Forall_forall _ _) Hall) in Hin. lia.
Qed.

Lemma no_empty_ip_bound envs ip port e :
  no_empty_ip envs → no_empty_ip (bound envs ip port e).
Proof.
  intros Hne ip'. unfold bound. destruct (decide (ip' = ip)) as [->|Hip].
  - rewrite lookup_insert_eq. intros [= Hempty].
    by apply insert_non_empty in Hempty.
  - rewrite lookup_insert_ne by done. apply Hne.
Qed.

Lemma no_empty_ip_unbound envs ip port :
  no_empty_ip envs → no_empty_ip (unbound envs ip port).
Proof.
  intros Hne ip'. unfold unbound. case_bool_decide as Hempty.
  - destruct (decide (ip' = ip)) as [->|Hip].
    + by rewrite lookup_delete_eq.
    + rewrite lookup_delete_ne by done. apply Hne.
  - destruct (decide (ip' = ip)) as [->|Hip].
    + rewrite lookup_insert_eq. by intros [= ?].
    + rewrite lookup_insert_ne by done. apply Hne.
Qed.

(** X14.  No route leaves an ip in the registry without a port: if no ip maps
    to an empty dictionary before a request, none does after it. *)
Theorem registry_has_no_empty_ip (r : route) (req : Request) (st : State) :
  no_empty_ip (environments st) →
  no_empty_ip (environments (handle r req st).2).
Proof.
  intros Hne.
  destruct (registry_transition r req st)
    as [[-> _]|[(ipk & portk & row & -> & _ & _)|(ip & port & _ & -> & _)]].
  - done.
  - by apply no_empty_ip_bound.
  - by apply no_empty_ip_unbound.
Qed.

Lemma entry_inj id start id' start' : entry id start = entry id' start' → id = id'.
Proof. unfold entry. by intros [= ->]. Qed.

Lemma sessions_step r req st :
  sessions_recorded st ∧ sessions_distinct st →
  sessions_recorded (handle r req st).2 ∧ sessions_distinct (handle r req st).2.
Proof.
  intros [Hrec Hdis].
  destruct (registry_transition r req st)
    as [[Henv Hses]|[(ipk & portk & row & Henv & Hses & Hid)|(ip & port & _ & Henv & Hses)]].
  - split.
    + intros ip port e. rewrite Henv, Hses. apply Hrec.
    + intros ip port ip' port' id start start'. rewrite Henv. apply Hdis.
  - assert (∀ ip port id start,
              environments st !! ip ≫= (.!! port) = Some (entry id start) →
              id < id_session row) as Hold.
    { intros ip port id start Hl. destruct (Hrec _ _ _ Hl) as (r0 & Hr0 & He).
      apply entry_inj in He as ->. rewrite Hid. by apply next_rowid_above. }
    split.
    + intros ip port e. rewrite Henv, Hses.
      destruct (decide ((ip, port) = (ipk, portk))) as [[= -> ->]|Hne].
      * rewrite lookup_bound_eq. intros [= <-]. exists row. split; [|done].
        apply elem_of_app. right. by apply list_elem_of_singleton.
      * rewrite lookup_bound_ne by done. intros Hl.
        destruct (Hrec _ _ _ Hl) as (r0 & Hr0 & He). exists r0. split; [|done].
        apply elem_of_app. by left.
    + intros ip port ip' port' id start start'. rewrite Henv.
      destruct (decide ((ip, port) = (ipk, portk))) as [[= -> ->]|Hne];
        destruct (decide ((ip', port') = (ipk, portk))) as [[= -> ->]|Hne'];
        rewrite ?lookup_bound_eq, ?lookup_bound_ne by done.
      * done.
      * intros He Hl. apply (inj Some), entry_inj in He. apply Hold in Hl. lia.
      * intros Hl He. apply (inj Some), entry_inj in He. apply Hold in Hl. lia.
      * apply Hdis.
  - split.
    + intros ip' port' e. rewrite Henv, Hses.
      destruct (decide ((ip', port') = (KStr ip, KStr port))) as [[= -> ->]|Hne].
      * by rewrite lookup_unbound_eq.
      * rewrite lookup_unbound_ne by done. apply Hrec.
    + intros ip1 port1 ip2 port2 id start start'. rewrite Henv.
      destruct (decide ((ip1, port1) = (KStr ip, KStr port))) as [[= -> ->]|Hne];
        [by rewrite lookup_unbound_eq|].
      destruct (decide ((ip2, port2) = (KStr ip, KStr port))) as [[= -> ->]|Hne'];
        [by rewrite lookup_unbound_eq|].
      rewrite !lookup_unbound_ne by done. apply Hdis.
Qed.

(** X15.  In every state of a run of the service, each listed environment
    carries the id and the start of a row of the session table, and no two
    listed environments carry the same session id. *)
Theorem reachable_registry_matches_sessions (st : State) :
  reachable st → sessions_recorded st ∧ sessions_distinct st.
Proof.
  induction 1 as [st Hempty|r req st _ IH].
  - split.
    + intros ip port e. by rewrite Hempty.
    + intros ip port ip' port' id start start'. by rewrite Hempty.
  - by apply sessions_step.
Qed.

Lemma answers_within_bind {A} codes (v : view A) (k : A → view Response) :
  fails_within codes v → (∀ a, answers_within codes (k a)) →
  answers_within codes (v ≫= k).
Proof.
  intros Hv Hk st. specialize (Hv st). unfold mbind, view_bind.
  destruct (v st) as [[a|e] st1]; [apply Hk|exact Hv].
Qed.

Lemma fails_within_bind {A B} codes (v : view A) (k : A → view B) :
  fails_within codes v → (∀ a, fails_within codes (k a)) →
  fails_within codes (v ≫= k).
Proof.
  intros Hv Hk st. specialize (Hv st). unfold mbind, view_bind.
  destruct (v st) as [[a|e] st1]; [apply Hk|exact Hv].
Qed.

Lemma fails_within_lift {A} codes (r : result A) :
  raises_only (gate_status codes) r → fails_within codes (lift r).
Proof. by intros Hr st. Qed.

Lemma fails_within_ok {A} codes (v : view A) :
  (∀ st, ∃ a, (v st).1 = Ok a) → fails_within codes v.
Proof. intros Hv st. by destruct (Hv st) as [a ->]. Qed.

Lemma answers_within_lift codes (r : result Response) :
  match r with
  | Ok resp => In (status_code resp) codes
  | Raise e => gate_status codes e
  end → answers_within codes (lift r).
Proof. by intros Hr st. Qed.

Lemma answers_within_ret codes resp :
  In (status_code resp) codes → answers_within codes (mret resp).
Proof. by intros Hr st. Qed.

Lemma gate_status_sub codes codes' e :
  codes ⊆ codes' → gate_status codes e → gate_status codes' e.
Proof.
  unfold gate_status. intros Hsub Hin. apply list_elem_of_In, Hsub.
  by apply list_elem_of_In.
Qed.

Lemma raises_gate_sub {A} codes codes' (r : result A) :
  codes ⊆ codes' → raises_only (gate_status codes) r →
  raises_only (gate_status codes') r.
Proof. intros Hsub. apply raises_only_weaken. intros e. by apply gate_status_sub. Qed.

Lemma raises_internal_500 {A} codes (r : result A) :
  500 ∈ codes → raises_only internal r → raises_only (gate_status codes) r.
Proof.
  intros Hin. apply raises_only_weaken. intros e He. unfold gate_status.
  rewrite internal_status by done. by apply list_elem_of_In.
Qed.

Ltac in_codes := unfold gate_status; simpl; tauto.

Lemma prefix_split (s v : string) :
  String.prefix s v = true → ∃ rest, v = s +:+ rest.
Proof.
  revert v. induction s as [|c s IH]; intros v Hp; [by exists v|].
  destruct v as [|c' v]; simpl in Hp; [discriminate|].
  destruct (ascii_dec c c') as [->|]; [|discriminate].
  destruct (IH v Hp) as [rest ->]. by exists rest.
Qed.

Lemma after_equals_sha rest : after_equals ("sha-256=" +:+ rest) = Ok rest.
Proof. reflexivity. Qed.

Lemma check_digest_header_400 req :
  raises_only (gate_status [400]) (check_digest_header req).
Proof.
  unfold check_digest_header. destruct (headers req "Digest") as [value|]; [|in_codes].
  destruct (String.prefix "sha-256=" value) eqn:Hp; simpl; [|in_codes].
  apply prefix_split in Hp as [rest ->]. simpl.
  destruct (negb _); in_codes.
Qed.

Lemma check_registered_status envs ip port :
  raises_only (gate_status [404]) (check_registered envs ip port).
Proof. unfold check_registered. destruct (negb _); in_codes. Qed.

Lemma relay_get_status url ip port internal_codes :
  externals_raise_internal →
  match relay_get url ip port internal_codes with
  | Ok resp => status_code resp = 200
  | Raise e => gate_status [500; 502; 504] e
  end.
Proof.
  intros (Hget & Hbody & _). unfold relay_get.
  specialize (Hget url). specialize (Hbody url).
  destruct (rq_get url) as [[status body]|e].
  - specialize (Hbody status body eq_refl).
    destruct (status =? 200).
    + destruct body as [b|e]; simpl; [done|].
      unfold gate_status. rewrite internal_status by done. simpl. tauto.
    + case_bool_decide; in_codes.
  - simpl in Hget. destruct e; try done;
      unfold gate_status; simpl; tauto.
Qed.

Ltac sub_codes :=
  let x := fresh "x" in
  let Hx := fresh "Hx" in
  intros x Hx; apply list_elem_of_In in Hx; apply list_elem_of_In;
  simpl in Hx |- *; tauto.

Ltac fails_leaf :=
  first
    [ apply fails_within_ok; intros ?; by eexists
    | apply fails_within_lift;
      first
        [ eapply raises_gate_sub; [|apply check_digest_header_400]; sub_codes
        | eapply raises_gate_sub; [|apply check_authorization_header_status]; sub_codes
        | eapply raises_gate_sub; [|apply check_registered_status]; sub_codes
        | eapply raises_gate_sub; [|apply check_is_json_status]; sub_codes
        | eapply raises_gate_sub; [|apply request_json_status]; sub_codes
        | in_codes ] ].

Ltac within_step :=
  first
    [ apply answers_within_ret; in_codes
    | apply answers_within_lift; in_codes
    | apply answers_within_bind; [fails_leaf|intros ?]
    | apply fails_within_bind; [fails_leaf|intros ?]
    | fails_leaf ].

Lemma answers_within_relay codes url ip port internal_codes :
  externals_raise_internal → [200; 500; 502; 504] ⊆ codes →
  answers_within codes (lift (relay_get url ip port internal_codes)).
Proof.
  intros Hext Hsub. apply answers_within_lift.
  pose proof (relay_get_status url ip port internal_codes Hext) as Hr.
  destruct (relay_get url ip port internal_codes) as [resp|e].
  - rewrite Hr. apply list_elem_of_In, Hsub. repeat constructor.
  - eapply gate_status_sub; [|exact Hr]. intros x Hx. apply Hsub. revert x Hx. sub_codes.
Qed.

Lemma fails_within_describe_packages codes new_packages :
  externals_raise_internal → 500 ∈ codes →
  ∀ new_info, fails_within codes (describe_packages new_packages new_info).
Proof.
  intros Hext Hin. pose proof Hext as (_ & _ & _ & _ & _ & _ & Hinfo & _).
  induction new_packages as [|p rest IH]; intros new_info;
    cbn [describe_packages].
  - apply fails_within_ok. intros ?. by eexists.
  - apply fails_within_bind; [|intros ?].
    { apply fails_within_lift. by apply raises_internal_500. }
    apply fails_within_bind; [|intros fs].
    { apply fails_within_ok. intros ?. by eexists. }
    apply fails_within_bind; [|intros ?].
    { apply fails_within_lift. by apply raises_internal_500. }
    apply IH.
Qed.

Lemma fails_within_print_lines codes lines : fails_within codes (print_lines lines).
Proof.
  induction lines as [|line lines IH]; simpl.
  - apply fails_within_ok. intros ?. by eexists.
  - apply fails_within_bind; [|intros _; apply IH].
    apply fails_within_ok. intros ?. by eexists.
Qed.

Lemma compress_loop_internal fs tests_root test_packages :
  externals_raise_internal →
  ∀ tar out,
    raises_only internal (compress_loop fs tests_root test_packages tar out).1.
Proof.
  intros (_ & _ & _ & Hadd & _).
  induction test_packages as [|tp rest IH]; intros tar out; [done|].
  destruct tp; try done. cbn [compress_loop].
  destruct (1 <? _); [apply IH|]. cbv zeta.
  destruct (os_path_isdir _ _); [|apply IH].
  match goal with |- context [tar_add ?a ?b ?c ?d] =>
    specialize (Hadd a b c d); destruct (tar_add a b c d) as [added|e]
  end; [apply IH|done].
Qed.

Lemma compress_test_packages_internal fs test_packages tests_root :
  externals_raise_internal →
  raises_only internal (compress_test_packages fs test_packages tests_root).1.
Proof.
  intros Hext. unfold compress_test_packages.
  destruct (iterate test_packages) as [items|e] eqn:Hiter.
  - by apply compress_loop_internal.
  - destruct test_packages; simpl in Hiter; try discriminate;
      by injection Hiter as <-.
Qed.

Lemma send_packages_internal archive ip port :
  externals_raise_internal → raises_only internal (send_packages archive ip port).
Proof.
  intros (_ & _ & _ & _ & Hprepare & Hsend & _). unfold send_packages.
  apply raises_only_bind; [apply Hprepare|]. intros prepared _. apply Hsend.
Qed.

Lemma answers_within_view_function r req :
  externals_raise_internal → answers_within (statuses r) (view_function r req).
Proof.
  intros Hext.
  pose proof Hext
    as (Hget & Hbody & Hdelete & Hadd & Hprepare & Hsend & Hinfo & Hbatch & Hdel).
  destruct r; cbn [view_function statuses].
  - unfold is_up. within_step.
  - unfold list_environments. within_step.
    destruct (bool_decide _); within_step.
  - intros st. rewrite add_environment_eq.
    pose proof (registration_status req) as Hstatus.
    destruct (registration req) as [[[ip port] ti]|e]; simpl.
    2:{ eapply gate_status_sub; [|exact Hstatus]. sub_codes. }
    pose proof (register_cases ip port ti now st) as Hc.
    destruct (register ip port ti now st) as [[resp|e] st1]; simpl.
    + destruct Hc as [-> _]. in_codes.
    + destruct Hc as [He _]. unfold gate_status. rewrite internal_status by done.
      in_codes.
  - unfold remove_environment. repeat within_step.
  - unfold get_environment_info. repeat within_step.
    apply answers_within_relay; [done|sub_codes].
  - unfold list_installed_test_sets. repeat within_step.
    apply answers_within_relay; [done|sub_codes].
  - unfold install_packages. repeat within_step. cbv zeta.
    apply answers_within_bind; [apply fails_within_print_lines|intros _].
    apply answers_within_bind; [|intros status].
    + apply fails_within_lift.
      match goal with |- context [compress_test_packages ?a ?b ?c] =>
        pose proof (compress_test_packages_internal a b c Hext) as Hcompress;
        destruct (compress_test_packages a b c).1 as [archive|e]
      end.
      * cbn [mbind result_bind].
        pose proof (send_packages_internal archive ip port Hext) as Hdelivery.
        destruct (send_packages archive ip port) as [status|e]; [done|].
        simpl in Hdelivery. destruct e; try done; in_codes.
      * simpl in Hcompress. destruct e; try done; in_codes.
    + destruct (status =? 204); [within_step|].
      case_bool_decide; within_step.
  - unfold delete_installed_package. repeat within_step.
    cbv zeta. apply answers_within_bind; [|intros status].
    + apply fails_within_lift.
      match goal with |- context [rq_delete ?u ?a] =>
        specialize (Hdelete u a); destruct (rq_delete u a) as [status|e] end;
        [done|].
      simpl in Hdelete. destruct e; try done; in_codes.
    + destruct (status =? 204); [within_step|].
      case_bool_decide; within_step.
  - unfold execute_tests. repeat within_step. cbv zeta.
    apply answers_within_bind; [|intros url].
    + apply fails_within_lift. destruct (args req); [done|].
      destruct (filter _ _); [done|in_codes].
    + apply answers_within_relay; [done|sub_codes].
  - unfold list_available_test_sets. repeat within_step.
  - unfold upload_test_sets.
    apply answers_within_bind; [|intros ?].
    { destruct (negb _); fails_leaf. }
    within_step.
    apply answers_within_bind; [|intros packages].
    { apply fails_within_lift. destruct (files req); [in_codes|].
      destruct (snd <$> find _ _); [done|in_codes]. }
    repeat within_step.
    apply answers_within_bind; [|intros new_packages].
    { destruct (uncompress_test_packages _ _ _) as [[new_packages|e] fs'];
        repeat within_step. }
    apply answers_within_bind; [|intros new_info].
    { apply fails_within_describe_packages; [done|repeat constructor]. }
    within_step.
    apply answers_within_bind; [|intros content'].
    { apply fails_within_lift. apply raises_internal_500; [repeat constructor|]. apply Hbatch. }
    repeat within_step.
  - unfold delete_package. repeat within_step. cbv zeta. repeat within_step.
    apply answers_within_bind; [|intros ?].
    { match goal with |- context [?m !! ?k] => destruct (m !! k) as [[]|] end;
        fails_leaf. }
    repeat within_step.
    apply answers_within_bind; [|intros content'].
    { apply fails_within_lift. apply raises_internal_500; [repeat constructor|]. apply Hdel. }
    repeat within_step.
Qed.

(** X16.  Every route answers with one of the statuses of its row in the table
    [statuses], provided the libraries raise no HTTP exception: 200 for the
    root and for the list of the test sets; 200 or 500 for the list of the
    environments; 204, 400, 401, 415 or 500 for a registration and for an
    upload; 204, 401 or 404 for the removal of an environment; 200, 404, 500,
    502 or 504 for the two GET routes of an environment, and 400 in addition
    for a report; 204, 401, 404 or 500 for the removal of a package. *)
Theorem route_statuses (r : route) (req : Request) (st : State) :
  externals_raise_internal →
  In (status_code (handle r req st).1) (statuses r).
Proof.
  intros Hext. unfold handle, full_dispatch_request.
  pose proof (answers_within_view_function r req Hext st) as Hv.
  destruct (view_function r req st) as [[resp|e] st1]; simpl in *; [done|].
  by rewrite handle_exception_status.
Qed.

Lemma handle_ok r req st resp st' :
  view_function r req st = (Ok resp, st') → handle r req st = (resp, st').
Proof. intros Hv. unfold handle, full_dispatch_request. by rewrite Hv. Qed.

(** X17.  A request whose Authorization header does not verify for the role of
    the route is never processed: on each of the six signed routes the state
    is unchanged and the answer is a JSON error; the status is 401 on the
    three DELETE routes, where the signature is the first gate, and 400, 401
    or 415 on the other three, where the Digest and content type are looked
    at first. *)
Theorem unsigned_requests_are_refused (r : route) (req : Request) (st : State)
    (key_recoverer : string → option string) (mandatory : list string) :
  credentials r = Some (key_recoverer, mandatory) →
  check_authorization_header key_recoverer mandatory req ≠ Ok () →
  let resp := (handle r req st).1 in
  (handle r req st).2 = st
  ∧ (∃ msg, response resp = Jsonify (JDict [("error", JStr msg)]))
  ∧ In (status_code resp) [400; 401; 415]
  ∧ (mandatory = [] → status_code resp = 401 ∧ www_authenticate resp = Some challenge).
Proof.
  intros Hcred Hauth.
  pose proof (check_authorization_header_status key_recoverer mandatory req) as H401.
  destruct (check_authorization_header key_recoverer mandatory req) as [[]|e] eqn:He;
    [done|].
  assert (status_of e = 401) as Hstatus.
  { unfold gate_status in H401. simpl in H401. by destruct H401. }
  assert (www_authenticate (handle_exception e) = Some challenge) as Hchallenge.
  { destruct e; try discriminate Hstatus. simpl in Hstatus. by subst. }
  assert (∀ e0 st0, view_function r req st = (Raise e0, st0) →
            st0 = st → In (status_of e0) [400; 401; 415] →
            (mandatory = [] → e0 = e) →
            let resp := (handle r req st).1 in
            (handle r req st).2 = st
            ∧ (∃ msg, response resp = Jsonify (JDict [("error", JStr msg)]))
            ∧ In (status_code resp) [400; 401; 415]
            ∧ (mandatory = [] →
               status_code resp = 401 ∧ www_authenticate resp = Some challenge))
    as Hraise.
  { intros e0 st0 Hv -> Hin Hsame. cbv zeta.
    destruct (handle_raise r req st e0 st Hv) as [-> [_ Hbody]]. cbn [fst snd].
    split; [done|]. split; [done|]. rewrite handle_exception_status.
    split; [done|]. intros Hm. by rewrite (Hsame Hm). }
  pose proof (check_digest_header_400 req) as Hdigest.
  destruct r; simpl in Hcred; try discriminate; injection Hcred as <- <-.
  - apply (Hraise (match check_digest_header req with Ok _ => e | Raise e0 => e0 end) st);
      [| done | | done].
    + cbn [view_function]. rewrite add_environment_eq. unfold registration.
      destruct (check_digest_header req) as [[]|e0]; [|done].
      cbn [mbind result_bind]. by rewrite He.
    + destruct (check_digest_header req) as [[]|e0].
      * rewrite Hstatus. simpl. tauto.
      * unfold gate_status in Hdigest. simpl in *. tauto.
  - apply (Hraise e st); [| done | rewrite Hstatus; simpl; tauto | done].
    cbn [view_function]. unfold remove_environment. by rewrite He.
  - apply (Hraise (match check_digest_header req with Ok _ => e | Raise e0 => e0 end) st);
      [| done | | done].
    + cbn [view_function]. unfold install_packages. reduce_binds.
      destruct (check_digest_header req) as [[]|e0]; [|done]. by rewrite He.
    + destruct (check_digest_header req) as [[]|e0].
      * rewrite Hstatus. simpl. tauto.
      * unfold gate_status in Hdigest. simpl in *. tauto.
  - apply (Hraise e st); [| done | rewrite Hstatus; simpl; tauto | done].
    cbn [view_function]. unfold delete_installed_package. by rewrite He.
  - cbn [view_function]. unfold upload_test_sets.
    destruct (negb (String.eqb (mimetype req) "multipart/form-data")) eqn:Hmime.
    { apply (Hraise (HTTPException 415 "Invalid request's content type") st);
        [| done | simpl; tauto | done].
      cbn [view_function]. unfold upload_test_sets. by rewrite Hmime. }
    destruct (check_digest_header req) as [[]|e0] eqn:Hd.
    2:{ apply (Hraise e0 st); [| done | | done].
        - cbn [view_function]. unfold upload_test_sets. rewrite Hmime. reduce_binds.
          by rewrite Hd.
        - unfold gate_status in Hdigest. simpl in *. tauto. }
    destruct (match files req, snd <$> find (λ f, String.eqb (fst f) "packages")
                                              (files req) with
              | _ :: _, Some file => Ok file
              | _, _ => abort 400 "'packages' key not found in request's body"
              end) as [file|e0] eqn:Hfile.
    2:{ apply (Hraise e0 st); [| done | | done].
        - cbn [view_function]. unfold upload_test_sets. rewrite Hmime. reduce_binds.
          rewrite Hd. by rewrite Hfile.
        - destruct (files req); [injection Hfile as <-; simpl; tauto|].
          destruct (snd <$> find _ _); [done|].
          injection Hfile as <-; simpl; tauto. }
    apply (Hraise e st); [| done | rewrite Hstatus; simpl; tauto | done].
    cbn [view_function]. unfold upload_test_sets. rewrite Hmime. reduce_binds.
    rewrite Hd, Hfile. by rewrite He.
  - apply (Hraise e st); [| done | rewrite Hstatus; simpl; tauto | done].
    cbn [view_function]. unfold delete_package. by rewrite He.
Qed.

(** X18.  The two header gates.  The Digest gate lets a request pass exactly
    when its Digest header is [sha-256=] followed by the base64 of the
    SHA-256 of the body, and answers every other request with 400.  The
    Authorization gate lets a request pass exactly when the header is there
    and the [signatures] module verifies it, and answers every other request
    with 401, also when the verification itself raises. *)
Theorem header_gates (req : Request) (key_recoverer : string → option string)
    (mandatory : list string) :
  (check_digest_header req = Ok ()
   ↔ headers req "Digest"
     = Some ("sha-256=" +:+ b64encode (sha256_digest (get_data req))))
  ∧ (check_digest_header req = Ok ()
     ∨ ∃ msg, check_digest_header req = Raise (HTTPException 400 msg))
  ∧ (check_authorization_header key_recoverer mandatory req = Ok ()
     ↔ ∃ value, headers req "Authorization" = Some value
         ∧ verify_authorization_header value key_recoverer (headers req)
             (method req) (path req) (query_string req) mandatory = Ok true)
  ∧ (check_authorization_header key_recoverer mandatory req = Ok ()
     ∨ ∃ msg, check_authorization_header key_recoverer mandatory req
              = Raise (HTTPException 401 msg)).
Proof.
  split; [|split; [|split]].
  - unfold check_digest_header. destruct (headers req "Digest") as [value|]; [|done].
    destruct (String.prefix "sha-256=" value) eqn:Hp; simpl.
    + apply prefix_split in Hp as [rest ->]. rewrite after_equals_sha.
      cbn [mbind result_bind].
      destruct (String.eqb_spec (b64encode (sha256_digest (get_data req))) rest)
        as [->|Hne]; simpl; [done|].
      split; [done|]. intros [= Heq]. exfalso. apply Hne. symmetry. exact Heq.
    + split; [done|]. intros [= ->]. by rewrite prefix_append in Hp.
  - unfold check_digest_header. destruct (headers req "Digest") as [value|];
      [|right; by eexists].
    destruct (String.prefix "sha-256=" value) eqn:Hp; simpl; [|right; by eexists].
    apply prefix_split in Hp as [rest ->]. rewrite after_equals_sha.
    cbn [mbind result_bind]. destruct (negb _); [right; by eexists|by left].
  - unfold check_authorization_header.
    destruct (headers req "Authorization") as [value|].
    2:{ split; [done|]. by intros (? & ? & _). }
    destruct (verify_authorization_header _ _ _ _ _ _ _) as [[]|e] eqn:Hv; simpl.
    + split; [by exists value|done].
    + split; [done|]. intros (v & [= <-] & Hv'). congruence.
    + split; [by destruct e|]. intros (v & [= <-] & Hv'). congruence.
  - unfold check_authorization_header.
    destruct (headers req "Authorization") as [value|]; [|right; by eexists].
    destruct (verify_authorization_header _ _ _ _ _ _ _) as [[]|e]; simpl;
      [by left|right; by eexists|right; destruct e; by eexists].
Qed.

Lemma filter_invalid_keys (keys : list string) :
  filter (λ k, k ∉ ["packages"; "modules"; "test_sets"]) keys = []
  ↔ forallb (λ key, bool_decide (key ∈ valid_keys)) keys = true.
Proof.
  induction keys as [|k keys IH]; [done|].
  rewrite filter_cons. cbn [forallb]. rewrite andb_true_iff, <- IH.
  case_bool_decide as Hk; unfold valid_keys in Hk.
  - rewrite decide_False by (intros Hn; by apply Hn). tauto.
  - rewrite decide_True by done. split; [done|]. by intros [? _].
Qed.

Lemma relay_get_relayed url ip port blamed st :
  relayed blamed (rq_get url)
    (full_dispatch_request (lift (relay_get url ip port blamed)) st).1.
Proof.
  unfold relayed, full_dispatch_request, lift, relay_get.
  destruct (rq_get url) as [[status body]|e].
  - destruct (status =? 200).
    + by destruct body.
    + case_bool_decide; simpl; (split; [done|by eexists]).
  - destruct e; try done. simpl. split; [done|by eexists].
Qed.

(** X19.  The three GET routes of an environment, for an environment that is
    registered: the node is asked at /info, /test_sets or /report (with the
    query string, when there is one); the decoded body of a 200 is passed on
    with status 200, an unreachable node is answered 504, a node status 400
    to a report request 500, and any other node status 502.  A report request
    with a query parameter other than [packages], [modules] and [test_sets]
    is answered 400.  The state is unchanged. *)
Theorem get_routes_relay (r : route) (req : Request) (st : State) (ip port : string) :
  r = GetInfo ip port ∨ r = GetInstalled ip port ∨ r = GetReport ip port →
  registered (environments st) (KStr ip) (KStr port) = true →
  (handle r req st).2 = st
  ∧ match node_url r req with
    | Some url => relayed (blamed_on_service r) (rq_get url) (handle r req st).1
    | None => is_json_error 400 (handle r req st).1
    end.
Proof.
  intros Hr Hreg. split.
  { rewrite handle_state. apply reads_only_routes.
    by destruct Hr as [->|[->| ->]]. }
  unfold handle.
  destruct Hr as [->|[->| ->]]; cbn [view_function node_url blamed_on_service].
  - replace (full_dispatch_request (get_environment_info ip port) st)
      with (full_dispatch_request
              (lift (relay_get ("http://" +:+ ip +:+ ":" +:+ port +:+ "/info")
                       ip port [])) st); [apply relay_get_relayed|].
    unfold full_dispatch_request, get_environment_info, read. reduce_binds.
    by rewrite (check_registered_true _ _ _ Hreg).
  - replace (full_dispatch_request (list_installed_test_sets ip port) st)
      with (full_dispatch_request
              (lift (relay_get ("http://" +:+ ip +:+ ":" +:+ port +:+ "/test_sets")
                       ip port [])) st); [apply relay_get_relayed|].
    unfold full_dispatch_request, list_installed_test_sets, read. reduce_binds.
    by rewrite (check_registered_true _ _ _ Hreg).
  - cbv zeta. destruct (args req) as [|a l] eqn:Hargs.
    + replace (full_dispatch_request (execute_tests req ip port) st)
        with (full_dispatch_request
                (lift (relay_get ("http://" +:+ ip +:+ ":" +:+ port +:+ "/report")
                         ip port [400])) st); [apply relay_get_relayed|].
      unfold full_dispatch_request, execute_tests, read. reduce_binds.
      rewrite (check_registered_true _ _ _ Hreg). by rewrite Hargs.
    + rewrite <- Hargs.
      destruct (forallb _ (args req).*1) eqn:Hkeys.
      * apply filter_invalid_keys in Hkeys.
        replace (full_dispatch_request (execute_tests req ip port) st)
          with (full_dispatch_request
                  (lift (relay_get (("http://" +:+ ip +:+ ":" +:+ port +:+ "/report")
                                    +:+ "?" +:+ query_string req)
                           ip port [400])) st); [apply relay_get_relayed|].
        unfold full_dispatch_request, execute_tests, read. reduce_binds.
        rewrite (check_registered_true _ _ _ Hreg). rewrite Hargs, <- Hargs.
        by rewrite Hkeys.
      * assert (filter (λ k, k ∉ ["packages"; "modules"; "test_sets"]) (args req).*1
                ≠ []) as Hne.
        { intros Hnil. apply filter_invalid_keys in Hnil. congruence. }
        unfold full_dispatch_request, execute_tests, read. reduce_binds.
        rewrite (check_registered_true _ _ _ Hreg). rewrite Hargs, <- Hargs.
        destruct (filter _ _); [done|]. simpl. split; [done|by eexists].
Qed.

Lemma with_stdout_same st : with_stdout st (stdout st) = st.
Proof. by destruct st. Qed.

Lemma print_lines_eq lines : ∀ st,
  print_lines lines st = (Ok (), with_stdout st (stdout st ++ lines)).
Proof.
  induction lines as [|line lines IH]; intros st; cbn [print_lines].
  - by rewrite app_nil_r, with_stdout_same.
  - unfold print at 1. reduce_binds. rewrite IH. unfold with_stdout.
    cbn [environments session filesystem available stdout].
    by rewrite <- app_assoc.
Qed.

(** X20.  PATCH installed, once the Digest, the Client signature, the
    registration and the content type have been checked and the body decodes:
    the packages named in the body are compressed from the file system of the
    service, and what [compress_test_packages] prints for the names that it
    leaves out is the only change of the state; the archive is prepared as a
    PATCH of /test_sets, signed as [C2] over its Digest with the node secret
    and sent to the node.  A node 204 is answered 204, a node 400, 401 or 415
    is answered 500, any other node status 502, an unreachable node 504, and
    a [ValueError] of the compression or of the delivery 400. *)
Theorem install_packages_forwards (req : Request) (ip port : string) (st : State)
    (packages : json) :
  check_digest_header req = Ok () →
  check_authorization_header client_key_recoverer ["Digest"] req = Ok () →
  registered (environments st) (KStr ip) (KStr port) = true →
  is_json req = true →
  json_loads (get_data req) = Some packages →
  let compressed :=
    compress_test_packages (filesystem st) (to_pyobj packages) TESTS_PATH in
  (handle (PatchInstalled ip port) req st).2
  = with_stdout st (stdout st ++ compressed.2)
  ∧ install_answer (archive ← compressed.1; send_packages archive ip port)
      (handle (PatchInstalled ip port) req st).1.
Proof.
  intros Hdigest Hauth Hreg Hjson Hbody compressed.
  unfold handle, full_dispatch_request. cbn [view_function].
  unfold install_packages, read. reduce_binds.
  rewrite Hdigest, Hauth, (check_registered_true _ _ _ Hreg).
  unfold check_is_json, request_json. rewrite Hjson, Hbody. cbn [negb].
  fold compressed. rewrite print_lines_eq.
  cbn [filesystem with_stdout].
  unfold install_answer.
  reduce_binds.
  destruct compressed.1 as [archive|e];
    [destruct (send_packages archive ip port) as [status|e]|].
  - destruct (status =? 204); [done|].
    case_bool_decide; simpl; (split; [done|split; [done|by eexists]]).
  - destruct e; try done; simpl; (split; [done|split; [done|by eexists]]).
  - destruct e; try done; simpl; (split; [done|split; [done|by eexists]]).
Qed.

(** X21.  DELETE installed/{package}, once the Client signature and the
    registration have been checked: the node is sent a DELETE of
    /test_sets/{package} signed as [C2] with the node secret; a node 204 is
    answered 204, a node 401 or 404 is answered 404, any other node status
    502 and an unreachable node 504.  The state is unchanged. *)
Theorem delete_installed_package_forwards (req : Request) (ip port package : string)
    (st : State) :
  check_authorization_header client_key_recoverer [] req = Ok () →
  registered (environments st) (KStr ip) (KStr port) = true →
  (handle (DeleteInstalled ip port package) req st).2 = st
  ∧ uninstall_answer
      (rq_delete ("http://" +:+ ip +:+ ":" +:+ port +:+ "/test_sets/" +:+ package)
         (new_authorization_header "C2"
            (new_signature NODE_SECRET "DELETE" ("/test_sets/" +:+ package) []
               (λ _, None)) []))
      (handle (DeleteInstalled ip port package) req st).1.
Proof.
  intros Hauth Hreg. split.
  { rewrite handle_state. by apply reads_only_routes. }
  unfold handle, full_dispatch_request. cbn [view_function].
  unfold delete_installed_package, read. reduce_binds.
  rewrite Hauth, (check_registered_true _ _ _ Hreg).
  unfold uninstall_answer.
  destruct (rq_delete _ _) as [status|e].
  - destruct (status =? 204); [done|].
    case_bool_decide; simpl; (split; [done|by eexists]).
  - destruct e; try done; simpl; (split; [done|by eexists]).
Qed.

Lemma upload_gates_view req file st :
  upload_gates req file →
  upload_test_sets req st
  = (fs ← read filesystem;
     new_packages ←
       (match uncompress_test_packages (tarfile_open file) TESTS_PATH fs with
        | (Ok new_packages, fs') => set_filesystem fs';; mret new_packages
        | (Raise e, fs') =>
            set_filesystem fs';;
            print (str e);;
            lift (abort 400 "Invalid file content")
        end);
     new_info ← describe_packages new_packages [];
     content ← read available;
     content' ← lift (OrderedListOfDict_batch_insert content new_info);
     set_available content';;
     mret no_content) st.
Proof.
  intros (Hmime & Hdigest & Hfile & Hauth). unfold upload_test_sets.
  rewrite Hmime, String.eqb_refl. cbn [negb].
  reduce_binds. rewrite Hdigest.
  unfold packages_file in Hfile.
  destruct (files req) as [|f l]; [discriminate|]. rewrite Hfile.
  by rewrite Hauth.
Qed.

Lemma upload_raise req file st e fs' :
  upload_gates req file →
  uncompress_test_packages (tarfile_open file) TESTS_PATH (filesystem st)
  = (Raise e, fs') →
  is_json_error 400 (handle PatchTestSets req st).1
  ∧ (handle PatchTestSets req st).2
    = with_stdout (with_filesystem st fs') (stdout st ++ [str e]).
Proof.
  intros Hgates Hraise. unfold handle, full_dispatch_request. cbn [view_function].
  rewrite (upload_gates_view _ _ _ Hgates). unfold read. reduce_binds.
  rewrite Hraise. unfold set_filesystem, print. simpl. split; [|done].
  split; [done|by eexists].
Qed.

Lemma with_filesystem_same st : with_filesystem st (filesystem st) = st.
Proof. by destruct st. Qed.

(** X22.  PATCH /test_sets with an archive that is not installed, once the
    four gates have passed: the answer is 400 and [str(e)] of the error is
    printed.  When the archive cannot be opened, the file system is as
    before.  When a top-level member is not a package, the line names such a
    member in the form that [tarfile] gives it, and the file system is as
    before.  When the validation passes and the extraction raises, the file
    system is what the extraction has left.  The registry, the session table
    and the catalogue are as before in the three cases. *)
Theorem upload_of_invalid_archive (req : Request) (file : string) (st : State) :
  upload_gates req file →
  let resp := (handle PatchTestSets req st).1 in
  let st' := (handle PatchTestSets req st).2 in
  (∀ e, tarfile_open file = Raise e →
     is_json_error 400 resp ∧ st' = with_stdout st (stdout st ++ [str e]))
  ∧ (∀ tar, tarfile_open file = Ok tar →
       Forall (λ m, plain (name m)) tar →
       (Exists (λ m, top_level m ∧ ¬ package tar m) tar →
          ∃ m, m ∈ tar ∧ top_level m ∧ ¬ package tar m
               ∧ is_json_error 400 resp
               ∧ st' = with_stdout st
                         (stdout st ++ ["Found top level member "
                                        +:+ repr_TarInfo m
                                        +:+ " is not a package."]))
       ∧ (Forall (λ m, top_level m → package tar m) tar →
          ∀ e fs', tar_extractall tar TESTS_PATH (filesystem st) = (Raise e, fs') →
            is_json_error 400 resp
            ∧ st' = with_stdout (with_filesystem st fs') (stdout st ++ [str e]))).
Proof.
  intros Hgates. cbv zeta. split; [|intros tar Hopen Hplain; split].
  - intros e Hopen.
    destruct (upload_raise req file st e (filesystem st) Hgates) as [H400 Hst].
    { by rewrite Hopen. }
    split; [done|]. by rewrite Hst, with_filesystem_same.
  - intros Hex.
    destruct (check_members_rejects tar tar [] Hplain Hex)
      as (m & Hin & Htop & Hno & Hcheck).
    exists m. do 3 (split; [done|]).
    destruct (upload_raise req file st (not_a_package m) (filesystem st) Hgates)
      as [H400 Hst].
    { rewrite Hopen. unfold uncompress_test_packages. by rewrite Hcheck. }
    split; [done|]. by rewrite Hst, with_filesystem_same.
  - intros Hall e fs' Hextract.
    apply (upload_raise req file st e fs' Hgates).
    rewrite Hopen. unfold uncompress_test_packages.
    by rewrite (check_members_accepts tar tar [] Hplain Hall), Hextract.
Qed.

Lemma describe_packages_raises name rest new_info st :
  describe_packages (name :: rest) new_info st = (Raise AttributeError, st).
Proof. reflexivity. Qed.

(** X23.  PATCH /test_sets with an archive whose top-level members are all
    packages, once the four gates have passed and the extraction has
    returned: the file system is the one that the extraction has left, and
    the registry, the session table and the output are as before.  When the
    archive has a top-level package, the loop over the new packages stops at
    the first call of [test_utils.clean_package], which that module does not
    define: the answer is the 500 of the [AttributeError] and the catalogue
    is as before, with the files of the archive in place.  When it has none,
    the answer is 204 with the catalogue that [batch_insert] returns for no
    description, or the error of [batch_insert] with the catalogue as before. *)
Theorem upload_of_valid_archive (req : Request) (file : string) (st : State)
    (tar : TarFile) (fs' : gmap string fnode) :
  upload_gates req file →
  tarfile_open file = Ok tar →
  Forall (λ m, plain (name m)) tar →
  Forall (λ m, top_level m → package tar m) tar →
  tar_extractall tar TESTS_PATH (filesystem st) = (Ok (), fs') →
  let resp := (handle PatchTestSets req st).1 in
  let st' := (handle PatchTestSets req st).2 in
  filesystem st' = fs'
  ∧ environments st' = environments st ∧ session st' = session st
  ∧ stdout st' = stdout st
  ∧ (filter top_level tar ≠ [] →
     resp = handle_exception AttributeError ∧ status_code resp = 500
     ∧ available st' = available st)
  ∧ (filter top_level tar = [] →
     match OrderedListOfDict_batch_insert (available st) [] with
     | Ok content' => resp = no_content ∧ available st' = content'
     | Raise e => resp = handle_exception e ∧ available st' = available st
     end).
Proof.
  intros Hgates Hopen Hplain Hall Hextract. cbv zeta.
  destruct (handle PatchTestSets req st) as [resp st'] eqn:Hh. cbn [fst snd].
  unfold handle, full_dispatch_request in Hh. cbn [view_function] in Hh.
  rewrite (upload_gates_view _ _ _ Hgates) in Hh. unfold read in Hh.
  reduce_binds_in Hh.
  rewrite Hopen in Hh. unfold uncompress_test_packages in Hh.
  rewrite (check_members_accepts tar tar [] Hplain Hall), Hextract in Hh.
  unfold TarFile in *.
  destruct (filter top_level tar) as [|m rest] eqn:Hfilter.
  - cbn in Hh.
    destruct (OrderedListOfDict_batch_insert (available st) []) as [content'|e].
    + injection Hh as <- <-. cbn. by do 5 (split; [done|]).
    + injection Hh as <- <-. cbn. by do 5 (split; [done|]).
  - cbn in Hh. injection Hh as <- <-. cbn. do 4 (split; [done|]). by split.
Qed.

(** X24.  DELETE /test_sets/{package} with a Client signature.  When the tests
    directory has no directory of that name the answer is 404 and the state
    is unchanged.  Otherwise the directory tree is removed; the answer is 204
    with the catalogue that [delete] returns, or, when [delete] raises, the
    error with the catalogue as before and the directory gone. *)
Theorem delete_package_removes (req : Request) (package : string) (st : State) :
  check_authorization_header client_key_recoverer [] req = Ok () →
  let package_path := TESTS_PATH +:+ "/" +:+ package in
  let resp := (handle (DeleteTestSet package) req st).1 in
  let st' := (handle (DeleteTestSet package) req st).2 in
  (filesystem st !! package_path ≠ Some Dir → is_json_error 404 resp ∧ st' = st)
  ∧ (filesystem st !! package_path = Some Dir →
     filesystem st' = rmtree (filesystem st) package_path
     ∧ environments st' = environments st ∧ session st' = session st
     ∧ stdout st' = stdout st
     ∧ match OrderedListOfDict_delete (available st) package with
       | Ok content' => resp = no_content ∧ available st' = content'
       | Raise e => resp = handle_exception e ∧ available st' = available st
       end).
Proof.
  intros Hauth. cbv zeta.
  destruct (handle (DeleteTestSet package) req st) as [resp st'] eqn:Hh.
  cbn [fst snd].
  unfold handle, full_dispatch_request in Hh. cbn [view_function] in Hh.
  unfold delete_package, read in Hh. reduce_binds_in Hh. rewrite Hauth in Hh.
  split.
  - intros Hdir.
    destruct (filesystem st !! (TESTS_PATH +:+ "/" +:+ package)) as [[]|];
      try done; injection Hh as <- <-; (split; [|done]);
      (split; [done|by eexists]).
  - intros Hdir. rewrite Hdir in Hh. unfold set_filesystem in Hh.
    cbn [fst snd available] in Hh.
    destruct (OrderedListOfDict_delete (available st) package) as [content'|e].
    + by injection Hh as <- <-.
    + by injection Hh as <- <-.
Qed.

Lemma mapM_adapt_Forall2 l params :
  mapM adapt l = Ok params → Forall2 (λ v sv, adapt v = Ok sv) l params.
Proof.
  revert params. induction l as [|v l IH]; intros params; cbn [mapM].
  - intros [= <-]. constructor.
  - destruct (adapt v) as [sv|e] eqn:Hv; [|discriminate]. cbn [mbind result_bind].
    destruct (mapM adapt l) as [svs|e]; [|discriminate].
    intros [= <-]. constructor; [done|by apply IH].
Qed.

Lemma insert_session_row to_insert now st lastrowid st' :
  insert_session to_insert now st = (Ok lastrowid, st') →
  ∃ row v_ip v_port fields sv_port,
    st' = with_session st (session st ++ [row])
    ∧ session_start row = now ∧ session_end row = SqlNull
    ∧ to_insert = v_ip :: v_port :: fields
    ∧ stored v_ip = Ok (env_ip row)
    ∧ adapt v_port = Ok sv_port ∧ integer_not_null sv_port = Ok (env_port row)
    ∧ Forall2 (λ v col, stored v = Ok col) fields (platform_columns row).
Proof.
  unfold insert_session. reduce_binds.
  destruct (mapM adapt to_insert) as [params|e] eqn:Hp; [|discriminate].
  apply mapM_adapt_Forall2 in Hp. unfold read. reduce_binds.
  do 14 (destruct params as [|? params]; [discriminate|]).
  destruct params; [|discriminate].
  repeat match goal with
  | H : Forall2 _ _ (_ :: _) |- _ =>
      apply Forall2_cons_inv_r in H as (? & ? & ? & H & ->)
  | H : Forall2 _ _ [] |- _ => apply Forall2_nil_inv_r in H as ->
  end.
  repeat match goal with
  | |- context [text_not_null ?v] =>
      let Hv := fresh "Hv" in destruct (text_not_null v) eqn:Hv; [|discriminate]
  | |- context [integer_not_null ?v] =>
      let Hv := fresh "Hv" in destruct (integer_not_null v) eqn:Hv; [|discriminate]
  end.
  unfold set_session. reduce_binds. intros [= <- <-].
  eexists _, _, _, _, _. split; [reflexivity|]. cbn.
  split; [done|]. split; [done|]. split; [done|].
  unfold stored.
  repeat match goal with H : adapt _ = Ok _ |- _ => rewrite H; clear H end.
  cbn [mbind result_bind].
  split; [done|]. split; [done|]. split; [done|].
  repeat (constructor;
          [cbn beta;
           by match goal with
              | H : adapt ?x = Ok _ |- context [adapt ?x] => rewrite H
              end|]).
  constructor.
Qed.

Lemma register_session ip port to_insert now st resp st' lastrowid st1 :
  register ip port to_insert now st = (Ok resp, st') →
  insert_session to_insert now st = (Ok lastrowid, st1) →
  session st' = session st1.
Proof.
  intros Hreg Hins. unfold register in Hreg. reduce_binds_in Hreg.
  rewrite Hins in Hreg.
  destruct (to_key ip) as [ip_key|]; [|discriminate].
  unfold read, set_environments, select_session_start in Hreg.
  reduce_binds_in Hreg. unfold read in Hreg.
  destruct (negb _) in Hreg; cbn [fst snd session] in Hreg;
    (destruct (find _ (session st1)); [|discriminate]);
    cbn [fst snd session] in Hreg;
    (destruct (to_key port); [|discriminate]);
    by injection Hreg as _ <-.
Qed.

(** X25.  A registration that is answered 204 has stored the body: the row
    appended to the session table holds the [ip] of the body as text, the
    integer that its [port] reads as, each of the twelve platform fields as
    text, the time of the store's clock as start and no end. *)
Theorem registration_stores_body (req : Request) (now : Z) (st : State) :
  status_code (handle (PostEnvironments now) req st).1 = 204 →
  ∃ body ip port platform_info port_number row,
    json_loads (get_data req) = Some body
    ∧ getitem body "ip" = Ok ip ∧ getitem body "port" = Ok port
    ∧ getitem body "platform_info" = Ok platform_info
    ∧ session (handle (PostEnvironments now) req st).2 = session st ++ [row]
    ∧ session_start row = now ∧ session_end row = SqlNull
    ∧ stored ip = Ok (env_ip row)
    ∧ int port = Ok port_number ∧ env_port row = SqlInteger port_number
    ∧ Forall2 (λ path col, lookup_path platform_info path ≫= stored = Ok col)
        platform_fields (platform_columns row).
Proof.
  intros H204.
  destruct (handle (PostEnvironments now) req st) as [resp st'] eqn:Hh.
  cbn [fst snd] in *.
  unfold handle, full_dispatch_request in Hh. cbn [view_function] in Hh.
  rewrite add_environment_eq in Hh.
  pose proof (registration_status req) as Hstatus.
  destruct (registration req) as [[[ip port] ti]|e] eqn:Hreg.
  2:{ injection Hh as <- <-. rewrite handle_exception_status in H204.
      unfold gate_status in Hstatus. simpl in Hstatus. rewrite H204 in Hstatus.
      exfalso. intuition discriminate. }
  apply registration_Ok in Hreg
    as (_ & _ & _ & body & pinfo & Hbody & _ & Hip & Hport & Hpinfo & Hti).
  apply to_insert_of_fields in Hti as (n & fields & Hint & Hfields & ->).
  pose proof (register_cases ip port (ip :: JInt n :: fields) now st) as Hc.
  destruct (register ip port (ip :: JInt n :: fields) now st) as [[resp0|e] st0] eqn:Hr.
  2:{ injection Hh as <- <-. destruct Hc as [He _].
      rewrite handle_exception_status, internal_status in H204 by done.
      discriminate. }
  injection Hh as -> ->.
  destruct (insert_session (ip :: JInt n :: fields) now st) as [[id|e] st1] eqn:Hins.
  2:{ unfold register in Hr. reduce_binds_in Hr. rewrite Hins in Hr. discriminate. }
  rewrite (register_session _ _ _ _ _ _ _ _ _ Hr Hins).
  apply insert_session_row in Hins
    as (row & v_ip & v_port & rest & sv_port & -> & Hstart & Hend & Heq & Hsip
        & Hadapt & Hnn & Hcols).
  injection Heq as <- <- <-.
  exists body, ip, port, pinfo, n, row.
  do 8 (split; [done|]). split; [done|]. split.
  - simpl in Hadapt. destruct (_ && _) in Hadapt; [|discriminate].
    injection Hadapt as <-. simpl in Hnn. by injection Hnn as <-.
  - clear -Hfields Hcols. revert Hcols. generalize (platform_columns row).
    induction Hfields as [|path v paths fields Hv _ IH]; intros cols Hcols.
    + apply Forall2_nil_inv_l in Hcols as ->. constructor.
    + apply Forall2_cons_inv_l in Hcols as (col & cols' & Hcol & Hrest & ->).
      constructor; [|by apply IH]. by rewrite Hv.
Qed.

(** X26.  A registration whose body is valid JSON but not an object is refused
    once the three gates have passed, with the state unchanged: [null], a
    number or a boolean with 500, since the test for the keys raises; a
    string or an array with 400 when one of the three keys is not found in
    it, and with 500 otherwise, since it cannot be subscripted by a key. *)
Theorem registration_needs_object (req : Request) (now : Z) (st : State) (body : json) :
  check_digest_header req = Ok () →
  check_authorization_header node_key_recoverer ["Digest"] req = Ok () →
  is_json req = true →
  json_loads (get_data req) = Some body →
  (∀ items, body ≠ JDict items) →
  let resp := (handle (PostEnvironments now) req st).1 in
  (handle (PostEnvironments now) req st).2 = st
  ∧ (∃ msg, response resp = Jsonify (JDict [("error", JStr msg)]))
  ∧ (status_code resp = 400 ∨ status_code resp = 500)
  ∧ (status_code resp = 400 ↔ has_required_keys body = Ok false).
Proof.
  intros Hdigest Hauth Hjson Hbody Hobject. cbv zeta.
  assert (∃ e, registration req = Raise e
               ∧ (status_of e = 400 ∨ status_of e = 500)
               ∧ (status_of e = 400 ↔ has_required_keys body = Ok false))
    as (e & Hreg & Hstatus & Hiff).
  { unfold registration. rewrite Hdigest, Hauth. unfold check_is_json, request_json.
    rewrite Hjson, Hbody. cbn [negb mbind result_bind].
    pose proof (has_required_keys_internal body) as Hint.
    destruct (has_required_keys body) as [[]|e] eqn:Hkeys; cbn [negb].
    - destruct body as [| | | |items|items]; try discriminate Hkeys;
        [eexists; split; [reflexivity|]; simpl; split; [by right|by split]..|].
      by destruct (Hobject items).
    - eexists. split; [reflexivity|]. simpl. split; [by left|by split].
    - exists e. split; [done|]. simpl in Hint. rewrite internal_status by done.
      split; [by right|by split]. }
  unfold handle, full_dispatch_request. cbn [view_function].
  rewrite add_environment_eq, Hreg. cbn [fst snd].
  split; [done|]. split; [apply handle_exception_body|].
  by rewrite handle_exception_status.
Qed.

End more_facts.

(** ** The additional properties on samples *)

(** X1 on a sample.  The report of [sample_test_set] is the report of its test
    [Code]. *)
Lemma reports_are_well_formed_witness :
  Forall (reported_by sample_test_set)
    [contract_report "Code" "Returns an int." (PyInt 1) None].
Proof.
  apply (proj1 reports_are_well_formed sample_test_set
           [contract_report "Code" "Returns an int." (PyInt 1) None]
           ["Invalid return type."]).
  reflexivity.
Defined.

(** X2 on a sample.  [sample_test_set] with its attributes in the opposite
    order. *)
Lemma run_ignores_definition_order_witness :
  run sample_test_set = run sample_test_set_reversed.
Proof.
  apply (run_ignores_definition_order sample_test_set sample_test_set_reversed).
  - apply (bool_decide_unpack _). vm_compute. reflexivity.
  - symmetry. apply reverse_Permutation.
Defined.

(** X3 on a sample.  A test that cannot open its file ends the run: the report
    of the test after it is not produced and the line of the test before it
    stays printed. *)
Lemma run_stops_at_foreign_exception_witness :
  run sample_failing_test_set = (Raise OSError, ["Invalid return type."]).
Proof.
  apply (run_stops_at_foreign_exception sample_failing_test_set
           [("a_returns_text", TestMethod "Text" "Returns a string." (Ok (PyStr "passed")))]
           [("c_returns_code", TestMethod "Code" "Returns an int." (Ok (PyInt 1)))]
           "b_opens_file" "File" "Reads a file." OSError).
  - reflexivity.
  - repeat constructor.
  - intros msg. discriminate.
Defined.

(** X4 on a sample.  A collection of [sample_test_set] and the plugin on a
    process that is not traced. *)
Lemma run_all_tests_concatenates_witness :
  run_all_tests [sample_test_set; MonitoringSet (Ok [tracer_line 0])]
  = (Ok [contract_report "Code" "Returns an int." (PyInt 1) None; tracer_report 0],
     ["Invalid return type."]).
Proof.
  apply (proj1 (run_all_tests_concatenates
                  [sample_test_set; MonitoringSet (Ok [tracer_line 0])]
                  ltac:(repeat constructor))).
Defined.

(** X5 on a sample.  On a status file that ends before the TracerPid line, the
    plugin reports the pid of the process itself as the pid of a tracer. *)
Lemma plugin_without_tracer_line_witness :
  is_tracer_attached_body (Ok sample_truncated_status) = Ok (tracer_result 4242).
Proof.
  apply (plugin_without_tracer_line sample_truncated_status).
  repeat constructor.
Defined.

(** X6 on a sample.  The plugin on a status file that cannot be opened. *)
Lemma monitoring_set_run_witness :
  (∃ pid, is_tracer_attached_body (Raise OSError) = Ok (tracer_result pid)
          ∧ run (MonitoringSet (Raise OSError)) = (Ok [tracer_report pid], []))
  ∨ (∃ e, is_tracer_attached_body (Raise OSError) = Raise e
          ∧ run (MonitoringSet (Raise OSError)) = (Raise e, [])).
Proof.
  apply (monitoring_set_run (Raise OSError)).
  intros msg. discriminate.
Defined.

(** X7 on a sample.  The plugin on the status file of a process traced by the
    process 4242. *)
Lemma tracer_pid_line_is_read_witness :
  let proc_self_status :=
    Ok (["Name:" +:+ tab +:+ "python3" +:+ newline] ++ tracer_line 4242
        :: ["Uid:" +:+ tab +:+ "1000" +:+ newline]) in
  is_tracer_attached_body proc_self_status = Ok (tracer_result 4242)
  ∧ run (MonitoringSet proc_self_status) = (Ok [tracer_report 4242], []).
Proof.
  apply (tracer_pid_line_is_read ["Name:" +:+ tab +:+ "python3" +:+ newline]
           ["Uid:" +:+ tab +:+ "1000" +:+ newline] 4242).
  - lia.
  - repeat constructor.
Defined.

(** X12 on a sample.  The removal of the one registered environment leaves the
    registry without its ip. *)
Lemma deregistration_prunes_witness :
  let dreq := signed_request "Node" "DELETE" "/environments/10.0.0.5/5000" "" "" in
  let st := registered_state sample_externals in
  let removed := @handle sample_externals (DeleteEnvironment "10.0.0.5" "5000") dreq st in
  removed.1 = no_content
  ∧ environments removed.2 !! KStr "10.0.0.5" ≫= (.!! KStr "5000") = None.
Proof.
  intros dreq st removed.
  destruct (proj1 (@deregistration_prunes sample_externals dreq "10.0.0.5" "5000" st
                     eq_refl) ltac:(vm_compute; reflexivity))
    as (Hresp & Hgone & _).
  exact (conj Hresp Hgone).
Defined.

(** X13 on a sample.  A second registration on the session table that the
    first has left: the ids are 1 and 2. *)
Lemma session_ids_keep_increasing_witness :
  let req := post_environments "registration with a string port" in
  let st := registered_state sample_externals in
  let st' := (@handle sample_externals (PostEnvironments 1700000060) req st).2 in
  id_session <$> session st = [1]
  ∧ id_session <$> session st' = [1; 2]
  ∧ ids_increasing (session st')
  ∧ NoDup (id_session <$> session st').
Proof.
  intros req st st'.
  split; [vm_compute; reflexivity|]. split; [vm_compute; reflexivity|].
  apply (@session_ids_keep_increasing sample_externals (PostEnvironments 1700000060)
           req st).
  - unfold ids_increasing.
    change (id_session <$> session st) with [1].
    repeat constructor.
  - apply (proj1 (Forall_fmap id_session (λ id, id < 2 ^ 63 - 1) (session st))).
    change (id_session <$> session st) with [1].
    repeat constructor.
Defined.

(** X14 on a sample.  The first registration on an empty registry. *)
Lemma registry_has_no_empty_ip_witness :
  let req := post_environments "registration with a string port" in
  no_empty_ip
    (environments (@handle sample_externals (PostEnvironments 1700000000) req initial).2).
Proof.
  intros req.
  apply (@registry_has_no_empty_ip sample_externals (PostEnvironments 1700000000)
           req initial).
  intros ip. unfold initial. cbn [environments]. rewrite lookup_empty. discriminate.
Defined.

(** X15 on a sample.  The sample deployment after one registration. *)
Lemma reachable_registry_matches_sessions_witness :
  sessions_recorded (registered_state sample_externals)
  ∧ @sessions_distinct (registered_state sample_externals).
Proof.
  apply (@reachable_registry_matches_sessions sample_externals).
  apply (@reachable_step sample_externals), reachable_start. reflexivity.
Defined.

Lemma sample_externals_raise_internal : @externals_raise_internal sample_externals.
Proof.
  repeat split; done.
Defined.

(** X16 on a sample.  GET /environments on the sample deployment after the
    port 5000 has been registered as a string and as a number. *)
Lemma route_statuses_witness :
  let st := (@handle sample_externals (PostEnvironments 1700000060)
               (post_environments "registration with a number port")
               (registered_state sample_externals)).2 in
  let resp := (@handle sample_externals GetEnvironments
                 (unsigned_request "GET" "/environments") st).1 in
  status_code resp = 500 ∧ In (status_code resp) [200; 500].
Proof.
  intros st resp. split; [vm_compute; reflexivity|].
  apply (@route_statuses sample_externals GetEnvironments).
  exact sample_externals_raise_internal.
Defined.

(** X17 on a sample.  A DELETE without an Authorization header. *)
Lemma unsigned_requests_are_refused_witness :
  let dreq := unsigned_request "DELETE" "/environments/10.0.0.5/5000" in
  let st := registered_state sample_externals in
  let resp := (@handle sample_externals (DeleteEnvironment "10.0.0.5" "5000") dreq st).1 in
  (@handle sample_externals (DeleteEnvironment "10.0.0.5" "5000") dreq st).2 = st
  ∧ status_code resp = 401 ∧ www_authenticate resp = Some challenge.
Proof.
  intros dreq st resp.
  destruct (@unsigned_requests_are_refused sample_externals
              (DeleteEnvironment "10.0.0.5" "5000") dreq st
              (@node_key_recoverer sample_externals) [] eq_refl
              ltac:(discriminate))
    as (Hstate & _ & _ & Hstatus).
  exact (conj Hstate (Hstatus eq_refl)).
Defined.

(** X19 on a sample.  GET info on a deployment whose node answers. *)
Lemma get_routes_relay_witness :
  let req := unsigned_request "GET" "/environments/10.0.0.5/5000/info" in
  let st := registered_state answering_externals in
  (@handle answering_externals (GetInfo "10.0.0.5" "5000") req st).2 = st
  ∧ (@handle answering_externals (GetInfo "10.0.0.5" "5000") req st).1
    = jsonify (JDict [("asked", JStr "http://10.0.0.5:5000/info")]).
Proof.
  intros req st.
  apply (@get_routes_relay answering_externals (GetInfo "10.0.0.5" "5000") req st
           "10.0.0.5" "5000").
  - left. reflexivity.
  - vm_compute. reflexivity.
Defined.

(** X20 on a sample.  PATCH installed on a deployment whose node answers, for
    three names of which one is a package of the tests directory. *)
Lemma install_packages_forwards_witness :
  let req := signed_request "Client" "PATCH" "/environments/10.0.0.5/5000/installed"
               "application/json" "names of three packages" in
  let st := with_filesystem (registered_state answering_externals)
              sample_tests_directory in
  (@compress_test_packages sample_tarfile sample_tests_directory
     (PyList [PyStr "linux"; PyStr "linux.tests"; PyStr "windows"])
     "/srv/c2/test_sets").1
  = Ok [ {| name := "linux"; type := DIRTYPE; data := "" |};
         {| name := "linux/__init__.py"; type := REGTYPE; data := "" |};
         {| name := "linux/linux.py"; type := REGTYPE;
            data := "class MonitoringSet" |} ]
  ∧ (@handle answering_externals (PatchInstalled "10.0.0.5" "5000") req st).2
    = with_stdout st
        ["linux.testsignored. Only top level packages allowed.";
         "No package found with name windows."]
  ∧ (@handle answering_externals (PatchInstalled "10.0.0.5" "5000") req st).1
    = no_content.
Proof.
  intros req st. split; [vm_compute; reflexivity|].
  destruct (@install_packages_forwards answering_externals req "10.0.0.5" "5000" st
              (JList [JStr "linux"; JStr "linux.tests"; JStr "windows"])
              eq_refl eq_refl ltac:(vm_compute; reflexivity) eq_refl eq_refl)
    as [Hstate Hanswer].
  split.
  - rewrite Hstate. vm_compute. reflexivity.
  - exact Hanswer.
Defined.

(** X21 on a sample.  DELETE installed/linux on a deployment whose node
    answers. *)
Lemma delete_installed_package_forwards_witness :
  let req := signed_request "Client" "DELETE"
               "/environments/10.0.0.5/5000/installed/linux" "" "" in
  let st := registered_state answering_externals in
  (@handle answering_externals (DeleteInstalled "10.0.0.5" "5000" "linux") req st).2 = st
  ∧ (@handle answering_externals (DeleteInstalled "10.0.0.5" "5000" "linux") req st).1
    = no_content.
Proof.
  intros req st.
  apply (@delete_installed_package_forwards answering_externals req
           "10.0.0.5" "5000" "linux" st).
  - reflexivity.
  - vm_compute. reflexivity.
Defined.

Lemma sample_lone_file_plain : Forall (λ m, plain (name m)) sample_lone_file.
Proof. repeat constructor. Defined.

Lemma sample_file_as_directory_plain :
  Forall (λ m, plain (name m)) sample_file_as_directory.
Proof. repeat constructor. Defined.

Lemma sample_package_plain : Forall (λ m, plain (name m)) sample_package.
Proof. repeat constructor. Defined.

Lemma sample_package_packages :
  Forall (λ m, top_level m → package sample_package m) sample_package.
Proof.
  apply Forall_cons. split.
  { intros _. split; [reflexivity|].
    exists {| name := "linux/__init__.py"; type := REGTYPE; data := "" |}.
    split; [|reflexivity]. apply list_elem_of_further, list_elem_of_here. }
  apply Forall_cons. split; [intros Htop; discriminate Htop|].
  apply Forall_cons. split; [intros Htop; discriminate Htop|].
  apply Forall_nil_2.
Defined.

Lemma sample_file_as_directory_packages :
  Forall (λ m, top_level m → package sample_file_as_directory m)
    sample_file_as_directory.
Proof.
  apply Forall_cons. split.
  { intros _. split; [reflexivity|].
    exists {| name := "linux/__init__.py"; type := REGTYPE; data := "" |}.
    split; [|reflexivity]. apply list_elem_of_further, list_elem_of_here. }
  apply Forall_cons. split; [intros Htop; discriminate Htop|].
  apply Forall_cons. split; [intros Htop; discriminate Htop|].
  apply Forall_nil_2.
Defined.

(** X22 on a sample.  The upload of an archive with a lone top-level file, and
    of an archive with a member below a regular file. *)
Lemma upload_of_invalid_archive_witness :
  let lone := upload_request "multipart body" "archive with a lone file" in
  let below := upload_request "multipart body" "archive with a member below a file" in
  (is_json_error 400 (@handle answering_externals PatchTestSets lone initial).1
   ∧ (@handle answering_externals PatchTestSets lone initial).2
     = with_stdout initial
         ["Found top level member <TarInfo 'notes.txt' at 0x7f3a5c0b2e80> is not a package."])
  ∧ (is_json_error 400 (@handle answering_externals PatchTestSets below initial).1
     ∧ (@handle answering_externals PatchTestSets below initial).2
       = with_stdout
           (with_filesystem initial
              {[ "/srv/c2/test_sets/linux" := Dir;
                 "/srv/c2/test_sets/linux/__init__.py" := File "" ]})
           ["[Errno 20] Not a directory"]).
Proof.
  intros lone below. split.
  - destruct (proj1 (proj2 (@upload_of_invalid_archive answering_externals lone
                              "archive with a lone file" initial
                              ltac:(repeat split; reflexivity))
                       sample_lone_file eq_refl sample_lone_file_plain))
      as (m & Hin & Htop & Hno & H400 & Hstate).
    { apply Exists_cons_tl, Exists_cons_tl, Exists_cons_hd.
      split; [reflexivity|]. intros [Hdir _]. discriminate Hdir. }
    split; [exact H400|]. rewrite Hstate.
    apply elem_of_cons in Hin as [->|Hin].
    { exfalso. apply Hno. split; [reflexivity|].
      exists {| name := "linux/__init__.py"; type := REGTYPE; data := "" |}.
      split; [|reflexivity]. apply list_elem_of_further, list_elem_of_here. }
    apply elem_of_cons in Hin as [->|Hin]; [discriminate Htop|].
    apply elem_of_cons in Hin as [->|Hin]; [reflexivity|].
    by apply elem_of_nil in Hin.
  - apply (proj2 (proj2 (@upload_of_invalid_archive answering_externals below
                           "archive with a member below a file" initial
                           ltac:(repeat split; reflexivity))
                    sample_file_as_directory eq_refl sample_file_as_directory_plain)
             sample_file_as_directory_packages OSError).
    vm_compute. reflexivity.
Defined.

(** X23 on a sample.  The upload of an archive of one package: the package is
    written and the answer is 500.  The upload of an archive without a
    top-level member: the file is written and the answer is 204. *)
Lemma upload_of_valid_archive_witness :
  let req := upload_request "multipart body" "archive of a package" in
  let resp := (@handle answering_externals PatchTestSets req initial).1 in
  let st' := (@handle answering_externals PatchTestSets req initial).2 in
  let nested := upload_request "multipart body" "archive of a nested file" in
  (filesystem st'
   = {[ "/srv/c2/test_sets/linux" := Dir;
        "/srv/c2/test_sets/linux/__init__.py" := File "";
        "/srv/c2/test_sets/linux/linux.py" := File "class MonitoringSet" ]}
   ∧ status_code resp = 500
   ∧ available st' = [])
  ∧ (filesystem (@handle answering_externals PatchTestSets nested initial).2
     = {[ "/srv/c2/test_sets/linux" := Dir;
          "/srv/c2/test_sets/linux/notes.txt" := File "not a package" ]}
     ∧ (@handle answering_externals PatchTestSets nested initial).1 = no_content).
Proof.
  intros req resp st' nested. split.
  - destruct (@upload_of_valid_archive answering_externals req "archive of a package"
                initial sample_package
                {[ "/srv/c2/test_sets/linux" := Dir;
                   "/srv/c2/test_sets/linux/__init__.py" := File "";
                   "/srv/c2/test_sets/linux/linux.py" := File "class MonitoringSet" ]}
                ltac:(repeat split; reflexivity) eq_refl sample_package_plain
                sample_package_packages ltac:(vm_compute; reflexivity))
      as (Hfs & _ & _ & _ & Hpackage & _).
    split; [exact Hfs|].
    destruct (Hpackage ltac:(discriminate)) as (_ & Hstatus & Havailable).
    exact (conj Hstatus Havailable).
  - destruct (@upload_of_valid_archive answering_externals nested
                "archive of a nested file" initial sample_nested_file
                {[ "/srv/c2/test_sets/linux" := Dir;
                   "/srv/c2/test_sets/linux/notes.txt" := File "not a package" ]}
                ltac:(repeat split; reflexivity) eq_refl
                ltac:(repeat constructor)
                ltac:(apply Forall_cons; split;
                      [intros Htop; discriminate Htop|apply Forall_nil_2])
                ltac:(vm_compute; reflexivity))
      as (Hfs & _ & _ & _ & _ & Hnone).
    split; [exact Hfs|]. exact (proj1 (Hnone eq_refl)).
Defined.

(** X24 on a sample.  DELETE /test_sets/linux when no package is installed. *)
Lemma delete_package_removes_witness :
  let req := signed_request "Client" "DELETE" "/test_sets/linux" "" "" in
  is_json_error 404 (@handle sample_externals (DeleteTestSet "linux") req initial).1
  ∧ (@handle sample_externals (DeleteTestSet "linux") req initial).2 = initial.
Proof.
  intros req.
  apply (proj1 (@delete_package_removes sample_externals req "linux" initial eq_refl)).
  unfold initial. cbn [filesystem]. rewrite lookup_empty. discriminate.
Defined.

(** X25 on a sample.  The row of the sample registration. *)
Lemma registration_stores_body_witness :
  let req := post_environments "registration with a string port" in
  ∃ body ip port platform_info port_number row,
    @json_loads sample_externals (get_data req) = Some body
    ∧ getitem body "ip" = Ok ip ∧ getitem body "port" = Ok port
    ∧ getitem body "platform_info" = Ok platform_info
    ∧ session (@handle sample_externals (PostEnvironments 1700000000) req initial).2
      = session initial ++ [row]
    ∧ session_start row = 1700000000 ∧ session_end row = SqlNull
    ∧ stored ip = Ok (env_ip row)
    ∧ int port = Ok port_number ∧ env_port row = SqlInteger port_number
    ∧ Forall2 (λ path col, lookup_path platform_info path ≫= stored = Ok col)
        platform_fields (platform_columns row).
Proof.
  intros req.
  apply (@registration_stores_body sample_externals req 1700000000 initial).
  vm_compute. reflexivity.
Defined.

(** X26 on a sample.  A registration whose body is a JSON array. *)
Lemma registration_needs_object_witness :
  let req := post_environments "names of packages" in
  let resp := (@handle answering_externals (PostEnvironments 1700000000) req initial).1 in
  (@handle answering_externals (PostEnvironments 1700000000) req initial).2 = initial
  ∧ (∃ msg, response resp = Jsonify (JDict [("error", JStr msg)]))
  ∧ (status_code resp = 400 ∨ status_code resp = 500)
  ∧ (status_code resp = 400 ↔ has_required_keys (JList [JStr "linux"]) = Ok false).
Proof.
  intros req.
  apply (@registration_needs_object answering_externals req 1700000000 initial
           (JList [JStr "linux"])).
  - reflexivity.
  - reflexivity.
  - reflexivity.
  - reflexivity.
  - intros items. discriminate.
Defined.

(** X28 on a sample.  Three names on the sample tests directory: one package,
    one name with a dot and one name without a directory. *)
Lemma compress_selects_packages_witness :
  @compress_test_packages sample_tarfile sample_tests_directory
    (PyList [PyStr "linux"; PyStr "linux.tests"; PyStr "windows"])
    "/srv/c2/test_sets"
  = (Ok [ {| name := "linux"; type := DIRTYPE; data := "" |};
          {| name := "linux/__init__.py"; type := REGTYPE; data := "" |};
          {| name := "linux/linux.py"; type := REGTYPE;
             data := "class MonitoringSet" |} ],
     ["linux.testsignored. Only top level packages allowed.";
      "No package found with name windows."]).
Proof.
  destruct (@compress_selects_packages sample_tarfile sample_tests_directory
              "/srv/c2/test_sets" ["linux"; "linux.tests"; "windows"]
              [[ {| name := "linux"; type := DIRTYPE; data := "" |};
                 {| name := "linux/__init__.py"; type := REGTYPE; data := "" |};
                 {| name := "linux/linux.py"; type := REGTYPE;
                    data := "class MonitoringSet" |} ]])
    as [Heq _].
  { change (compressed sample_tests_directory "/srv/c2/test_sets"
              ["linux"; "linux.tests"; "windows"]) with ["linux"].
    constructor; [vm_compute; reflexivity|constructor]. }
  exact Heq.
Defined.

(** X29 on a sample.  The archive of the package [linux] on the sample
    library. *)
Lemma returned_packages_are_packages_witness :
  (∀ m, m ∈ sample_package → count_slash (name m) = 0 → package sample_package m)
  ∧ ["linux"] = name <$> filter (λ m, count_slash (name m) = 0) sample_package
  ∧ sample_extractall sample_package "/srv/c2/test_sets" ∅
    = (Ok (),
       {[ "/srv/c2/test_sets/linux" := Dir;
          "/srv/c2/test_sets/linux/__init__.py" := File "";
          "/srv/c2/test_sets/linux/linux.py" := File "class MonitoringSet" ]}).
Proof.
  apply (@returned_packages_are_packages sample_tarfile sample_package
           "/srv/c2/test_sets" ∅).
  vm_compute. reflexivity.
Defined.
